(** * Experiment analysis: frequentist tests and Beta-Binomial simulation

    A shallow embedding of [src/python/experiment_analysis.py] and
    [src/python/bayesian_experiment_analysis.py].

    Conventions of the embedding:
    - Python floats are read as real numbers ([R]); a NaN produced by
      pandas or numpy (the standard deviation of a single value, the mean
      of an empty array) is [None] in an [option R];
    - Python exceptions are the [Raise] case of [result];
    - pandas frames are lists of records, one record per row;
    - a numpy [Generator] is a heap cell holding the state of its bit
      generator; the bit generator and the Beta sampler are parameters;
    - a draw count is a [nat] and a seed a [Z]: numpy rejects a negative
      size, and a negative seed raises;
    - keyword defaults of the Python functions are the [default_...]
      constants; every function takes all its arguments. *)

From Stdlib Require Import Reals Lra Lia ZArith List Machin.
From stdpp Require Import gmap strings list sorting.

Local Open Scope R_scope.

(** ** Exceptions and the error monad *)

Inductive exn : Type :=
| ValueError (msg : string)
| ZeroDivisionError
| IndexError
| RuntimeError (msg : string).

Inductive result (A : Type) : Type :=
| Ok (a : A)
| Raise (e : exn).

Arguments Ok {A} a.
Arguments Raise {A} e.

#[global] Instance result_ret : MRet result := fun _ a => Ok a.
#[global] Instance result_bind : MBind result := fun _ _ k m =>
  match m with
  | Ok a => k a
  | Raise e => Raise e
  end.

(** ** Real-number primitives of the Python runtime *)

#[global] Instance R_eq_dec : EqDecision R := Req_dec_T.
#[global] Instance Rlt_decision (x y : R) : Decision (x < y) := Rlt_dec x y.
#[global] Instance Rle_decision (x y : R) : Decision (x <= y) := Rle_dec x y.
#[global] Instance Rgt_decision (x y : R) : Decision (x > y) := Rgt_dec x y.

(** [x / y] on Python floats. *)
Definition py_div (x y : R) : result R :=
  if decide (y = 0) then Raise ZeroDivisionError else Ok (x / y).

(** [math.sqrt]. *)
Definition math_sqrt (x : R) : result R :=
  if decide (x < 0) then Raise (ValueError "math domain error") else Ok (sqrt x).

(** ** External numerical libraries

    The functions below belong to scipy and numpy, not to this repository;
    the embedding takes them as an interface. *)

(** [scipy.stats.norm.cdf] and [scipy.stats.t.cdf]. *)
Class ScipyStats : Type := {
  norm_cdf : R -> R;
  t_cdf : R -> R -> R
}.

(** The density of the standard normal distribution. *)
Definition std_normal_pdf (x : R) : R := exp (- (x ^ 2 / 2)) / sqrt (2 * PI).

(** [norm_cdf] is the standard normal distribution function: the
    antiderivative of the density that takes the value 1/2 at 0. *)
Class NormalCdf `{ScipyStats} : Prop := {
  norm_cdf_0 : norm_cdf 0 = 1 / 2;
  norm_cdf_pdf : forall x, derivable_pt_lim norm_cdf x (std_normal_pdf x)
}.

(** The bit generator behind [numpy.random.default_rng] and the sampler
    behind [Generator.beta]: [beta_draws g a b size] returns the [size]
    draws and the advanced generator state.  [percentile] is
    [numpy.percentile] on a non-empty array. *)
Class Numpy : Type := {
  BitGen : Type;
  seed_bitgen : Z -> BitGen;
  beta_draws : BitGen -> R -> R -> nat -> list R * BitGen;
  percentile : list R -> R -> R
}.

(** What the embedding relies on of the Beta sampler: it returns as many
    draws as asked for, each in the unit interval. *)
Class NumpyLaws `{Numpy} : Prop := {
  beta_draws_length : forall g a b size, length (beta_draws g a b size).1 = size;
  beta_draws_range : forall g a b size x,
    In x (beta_draws g a b size).1 -> 0 <= x <= 1
}.

(** ** Input data: one record per row of the user-level frame *)

Module Obs.
Record RawObservation : Type := {
  experiment_name : string;
  variant : string;
  user_id : Z;
  is_eligible_visitor : Z;
  contamination_flag : string;
  duplication_rank : Z;
  is_activated : Z;
  is_converted : Z;
  new_booking_flag : Z;
  nb_mrr : R;
  total_revenue : R
}.
End Obs.

(** The boolean mask both aggregators apply. *)
Definition clean (experiment_name : string) (r : Obs.RawObservation) : Prop :=
  Obs.experiment_name r = experiment_name
  /\ Obs.is_eligible_visitor r = 1%Z
  /\ Obs.contamination_flag r = "Not Contaminated"%string
  /\ Obs.duplication_rank r = 1%Z.

#[global] Instance clean_dec name r : Decision (clean name r).
Proof. unfold clean. apply _. Defined.

(** ** pandas reductions *)

Definition str_le (a b : string) : Prop := Is_true (String.leb a b).

#[global] Instance str_le_dec a b : Decision (str_le a b).
Proof. unfold str_le. apply _. Defined.

(** Keys of [groupby("variant")]: the distinct labels, sorted. *)
Definition groupby_keys (rows : list Obs.RawObservation) : list string :=
  merge_sort str_le (remove_dups (Obs.variant <$> rows)).

Definition group (rows : list Obs.RawObservation) (v : string) : list Obs.RawObservation :=
  filter (fun r => Obs.variant r = v) rows.

Definition nunique (ids : list Z) : nat := length (remove_dups ids).

Definition sum_Z (l : list Z) : Z := foldr Z.add 0%Z l.

Definition sum_R (l : list R) : R := foldr Rplus 0 l.

(** [mean] of a group; groups are never empty. *)
Definition mean_R (l : list R) : R := sum_R l / INR (length l).

(** [std] with one degree of freedom removed; NaN ([None]) below two values. *)
Definition std_R (l : list R) : option R :=
  if decide (length l <= 1)%nat then None
  else Some (sqrt (sum_R ((fun x => (x - mean_R l) ^ 2) <$> l) / (INR (length l) - 1))).

(** * experiment_analysis.py *)

Module experiment_analysis.

(** ** 1. Statistical test helpers *)

Definition two_proportion_ztest `{ScipyStats} (n1 x1 n2 x2 : R)
  : result (option (R * R)) :=
  if decide (n1 = 0 \/ n2 = 0) then Ok None
  else
    p1 ← py_div x1 n1;
    p2 ← py_div x2 n2;
    pooled ← py_div (x1 + x2) (n1 + n2);
    if decide (pooled = 0 \/ pooled = 1) then Ok None
    else
      i1 ← py_div 1 n1;
      i2 ← py_div 1 n2;
      se ← math_sqrt (pooled * (1 - pooled) * (i1 + i2));
      if decide (se = 0) then Ok None
      else
        z ← py_div (p2 - p1) se;
        let p := 2 * (1 - norm_cdf (Rabs z)) in
        Ok (Some (z, p)).

Definition two_sample_ttest `{ScipyStats} (m1 s1 n1 m2 s2 n2 : R)
  : result (option (R * R)) :=
  if decide (n1 <= 1 \/ n2 <= 1) then Ok None
  else
    v1 ← py_div (s1 ^ 2) n1;
    v2 ← py_div (s2 ^ 2) n2;
    se ← math_sqrt (v1 + v2);
    if decide (se = 0) then Ok None
    else
      tstat ← py_div (m2 - m1) se;
      let df_num := (v1 + v2) ^ 2 in
      d1 ← py_div (s1 ^ 4) (n1 ^ 2 * (n1 - 1));
      d2 ← py_div (s2 ^ 4) (n2 ^ 2 * (n2 - 1));
      let df_den := d1 + d2 in
      if decide (df_den = 0) then Ok None
      else
        dfree ← py_div df_num df_den;
        let pval := 2 * (1 - t_cdf (Rabs tstat) dfree) in
        Ok (Some (tstat, pval)).

(** ** 2. Aggregation helpers *)

Record AggRow : Type := {
  variant : string;
  users : nat;
  activations : Z;
  conversions : Z;
  new_bookings : Z;
  total_new_mrr : R;
  total_revenue : R;
  avg_nb_mrr : R;
  sd_nb_mrr : option R;
  n_nb_mrr : nat
}.

Definition agg_row (v : string) (g : list Obs.RawObservation) : AggRow :=
  {| variant := v;
     users := nunique (Obs.user_id <$> g);
     activations := sum_Z (Obs.is_activated <$> g);
     conversions := sum_Z (Obs.is_converted <$> g);
     new_bookings := sum_Z (Obs.new_booking_flag <$> g);
     total_new_mrr := sum_R (Obs.nb_mrr <$> g);
     total_revenue := sum_R (Obs.total_revenue <$> g);
     avg_nb_mrr := mean_R (Obs.nb_mrr <$> g);
     sd_nb_mrr := std_R (Obs.nb_mrr <$> g);
     n_nb_mrr := length g |}.

Definition aggregate_for_experiment (df : list Obs.RawObservation)
    (experiment_name : string) : list AggRow :=
  let clean := filter (clean experiment_name) df in
  (fun v => agg_row v (group clean v)) <$> groupby_keys clean.

(** ** 3. Main analysis function *)

(** A row of the report: the two kinds of row carry different columns. *)
Inductive ReportRow : Type :=
| ProportionRow (experiment_name variant metric test : string)
    (control_rate treatment_rate lift : option R) (statistic p_value : R)
| MeanRow (experiment_name variant metric test : string)
    (control_mean treatment_mean diff statistic p_value : R).

Definition proportion_metrics : list (string * (AggRow -> Z)) :=
  [ ("activation_rate"%string, activations);
    ("conversion_rate"%string, conversions);
    ("new_booking_rate"%string, new_bookings) ].

Definition proportion_row `{ScipyStats} (experiment_name : string)
    (control tr : AggRow) (m : string * (AggRow -> Z))
  : result (option ReportRow) :=
  let n1 := users control in
  let n2 := users tr in
  let x1 := m.2 control in
  let x2 := m.2 tr in
  zp ← two_proportion_ztest (INR n1) (IZR x1) (INR n2) (IZR x2);
  match zp with
  | None => Ok None
  | Some (z, p) =>
      Ok (Some (ProportionRow experiment_name (variant tr) m.1
            "two-proportion z-test"
            (if decide (n1 = 0%nat) then None else Some (IZR x1 / INR n1))
            (if decide (n2 = 0%nat) then None else Some (IZR x2 / INR n2))
            (if decide (x1 <> 0%Z /\ n1 <> 0%nat /\ n2 <> 0%nat)
             then Some ((IZR x2 / INR n2 - IZR x1 / INR n1) / (IZR x1 / INR n1))
             else None)
            z p))
  end.

(** The NaN that pandas reports as the deviation of a single value is
    cast by [float(...)] and never read, since the test returns at its
    first guard for such a group: see [ttest_nan_unread]. *)
Definition float_of (x : option R) : R := default 0 x.

Definition mean_row `{ScipyStats} (experiment_name : string)
    (control tr : AggRow) : result (option ReportRow) :=
  tp ← two_sample_ttest
         (avg_nb_mrr control) (float_of (sd_nb_mrr control)) (INR (n_nb_mrr control))
         (avg_nb_mrr tr) (float_of (sd_nb_mrr tr)) (INR (n_nb_mrr tr));
  match tp with
  | None => Ok None
  | Some (tstat, pval) =>
      Ok (Some (MeanRow experiment_name (variant tr)
            "average_nb_mrr_per_user" "Welch two-sample t-test"
            (avg_nb_mrr control) (avg_nb_mrr tr)
            (avg_nb_mrr tr - avg_nb_mrr control) tstat pval))
  end.

Definition variant_rows `{ScipyStats} (experiment_name : string)
    (control tr : AggRow) : result (list ReportRow) :=
  props ← mapM (proportion_row experiment_name control tr) proportion_metrics;
  mean ← mean_row experiment_name control tr;
  Ok (omap (fun row => row) props ++ option_list mean).

Definition no_control : exn :=
  ValueError "No 'control' variant found in the aggregated data.".

Definition run_experiment_analysis_from_user_level `{ScipyStats}
    (df : list Obs.RawObservation) (experiment_name : string)
  : result (list ReportRow) :=
  let agg := aggregate_for_experiment df experiment_name in
  if decide ("control"%string ∈ variant <$> agg) then
    match filter (fun r => variant r = "control"%string) agg with
    | [] => Raise IndexError
    | control :: _ =>
        rows ← mapM (variant_rows experiment_name control)
                 (filter (fun r => variant r <> "control"%string) agg);
        Ok (concat rows)
    end
  else Raise no_control.

Definition default_experiment_name : string := "homepage_cta_test".

End experiment_analysis.

(** * bayesian_experiment_analysis.py *)

(** ** The store of generator objects

    [numpy.random.default_rng] allocates a new [Generator]; drawing from it
    advances the state held in that object.  Generators live in a heap,
    indexed by object identity; a computation may raise. *)

Definition Py `{Numpy} (A : Type) : Type :=
  gmap positive BitGen -> result (A * gmap positive BitGen).

Definition py_ret `{Numpy} {A : Type} (a : A) : Py A := fun h => Ok (a, h).

Definition py_bind `{Numpy} {A B : Type} (m : Py A) (k : A -> Py B) : Py B :=
  fun h => match m h with
           | Ok (a, h') => k a h'
           | Raise e => Raise e
           end.

Definition py_raise `{Numpy} {A : Type} (e : exn) : Py A := fun _ => Raise e.

Declare Scope py_scope.
Delimit Scope py_scope with py.
Notation "x ⇐ m ;; k" := (py_bind m (fun x => k))
  (at level 100, m at next level, right associativity) : py_scope.

Fixpoint py_mapM `{Numpy} {A B : Type} (f : A -> Py B) (l : list A) : Py (list B) :=
  match l with
  | [] => py_ret []
  | a :: l' => py_bind (f a) (fun b => py_bind (py_mapM f l') (fun bs => py_ret (b :: bs)))
  end.

(** [np.random.default_rng(seed)]: a fresh generator seeded with [seed]. *)
Definition default_rng `{Numpy} (seed : Z) : Py positive :=
  fun h =>
    if decide (seed < 0)%Z then Raise (ValueError "expected non-negative integer")
    else let rng := fresh (dom h) in Ok (rng, <[rng := seed_bitgen seed]> h).

(** [rng.beta(a, b, size=size)]: draws and advances the generator [rng]. *)
Definition rng_beta `{Numpy} (rng : positive) (a b : R) (size : nat) : Py (list R) :=
  fun h =>
    match h !! rng with
    | None => Raise (RuntimeError "no such generator")
    | Some g =>
        if decide (a <= 0) then Raise (ValueError "a <= 0")
        else if decide (b <= 0) then Raise (ValueError "b <= 0")
        else let '(xs, g') := beta_draws g a b size in Ok (xs, <[rng := g']> h)
    end.

(** ** numpy reductions; NaN is [None] *)

Definition np_mean (l : list R) : option R :=
  match l with
  | [] => None
  | _ => Some (sum_R l / INR (length l))
  end.

Definition np_percentile `{Numpy} (l : list R) (q : R) : option R :=
  match l with
  | [] => None
  | _ => Some (percentile l q)
  end.

(** The entries that are not NaN. *)
Definition not_nan (l : list (option R)) : list R := omap (fun x => x) l.

Definition np_nanmean (l : list (option R)) : option R := np_mean (not_nan l).

Definition np_nanpercentile `{Numpy} (l : list (option R)) (q : R) : option R :=
  np_percentile (not_nan l) q.

(** [(a > b).mean()] on two arrays. *)
Definition np_mean_gt (a b : list R) : option R :=
  np_mean (zip_with (fun x y => if decide (x > y) then 1 else 0) a b).

Module bayesian_experiment_analysis.

(** ** 1. Aggregation *)

Record AggRow : Type := {
  variant : string;
  users : nat;
  activations : Z;
  conversions : Z;
  new_bookings : Z
}.

Definition agg_row (v : string) (g : list Obs.RawObservation) : AggRow :=
  {| variant := v;
     users := nunique (Obs.user_id <$> g);
     activations := sum_Z (Obs.is_activated <$> g);
     conversions := sum_Z (Obs.is_converted <$> g);
     new_bookings := sum_Z (Obs.new_booking_flag <$> g) |}.

Definition aggregate_for_experiment (df : list Obs.RawObservation)
    (experiment_name : string) : list AggRow :=
  let clean := filter (clean experiment_name) df in
  (fun v => agg_row v (group clean v)) <$> groupby_keys clean.

(** ** 2. Beta-Binomial helpers *)

Definition beta_posterior_params (a_prior b_prior successes trials : R) : R * R :=
  (a_prior + successes, b_prior + trials - successes).

Record PosteriorSummary : Type := {
  posterior_mean_control : option R;
  posterior_mean_treatment : option R;
  posterior_mean_diff : option R;
  diff_ci_low : option R;
  diff_ci_high : option R;
  posterior_mean_rel_lift : option R;
  rel_lift_ci_low : option R;
  rel_lift_ci_high : option R;
  prob_treatment_greater : option R
}.

(** [treatment_samples - control_samples]. *)
Definition difference (treatment_samples control_samples : list R) : list R :=
  zip_with Rminus treatment_samples control_samples.

(** [np.where(control_samples > 0, diff / control_samples, np.nan)]. *)
Definition relative_lift (control_samples diff : list R) : list (option R) :=
  zip_with (fun c d => if decide (c > 0) then Some (d / c) else None)
    control_samples diff.

Definition default_random_state : Z := 42.
Definition default_n_draws : nat := Z.to_nat 50000.

(** The summary statistics of the two sample arrays: the part of
    [simulate_posterior_difference] below the two draws. *)
Definition summarize `{Numpy} (control_samples treatment_samples : list R)
  : PosteriorSummary :=
  let diff := difference treatment_samples control_samples in
  let rel_lift := relative_lift control_samples diff in
  let prob_t_greater := np_mean_gt treatment_samples control_samples in
  let diff_mean := np_mean diff in
  let diff_ci_low := np_percentile diff 2.5 in
  let diff_ci_high := np_percentile diff 97.5 in
  let rel_lift_mean := np_nanmean rel_lift in
  let rel_lift_ci_low := np_nanpercentile rel_lift 2.5 in
  let rel_lift_ci_high := np_nanpercentile rel_lift 97.5 in
  {| posterior_mean_control := np_mean control_samples;
     posterior_mean_treatment := np_mean treatment_samples;
     posterior_mean_diff := diff_mean;
     diff_ci_low := diff_ci_low;
     diff_ci_high := diff_ci_high;
     posterior_mean_rel_lift := rel_lift_mean;
     rel_lift_ci_low := rel_lift_ci_low;
     rel_lift_ci_high := rel_lift_ci_high;
     prob_treatment_greater := prob_t_greater |}.

Definition simulate_posterior_difference `{Numpy}
    (a_c b_c a_t b_t : R) (n_draws : nat) (random_state : Z)
  : Py PosteriorSummary :=
  (rng ⇐ default_rng random_state;;
   control_samples ⇐ rng_beta rng a_c b_c n_draws;;
   treatment_samples ⇐ rng_beta rng a_t b_t n_draws;;
   py_ret (summarize control_samples treatment_samples))%py.

(** ** 3. Main Bayesian analysis *)

Record BayesRow : Type := {
  row_experiment_name : string;
  row_variant : string;
  row_metric : string;
  prior_a : R;
  prior_b : R;
  summary : PosteriorSummary
}.

Definition proportion_metrics : list (string * (AggRow -> Z)) :=
  [ ("activation_rate"%string, activations);
    ("conversion_rate"%string, conversions);
    ("new_booking_rate"%string, new_bookings) ].

(** One call of [simulate_posterior_difference] made by the report
    builder, with every argument bound as Python binds it at the call:
    the builder passes [n_draws] by keyword and nothing for
    [random_state], which therefore takes its default. *)
Record SimCall : Type := {
  call_variant : string;
  call_metric : string;
  call_a_c : R;
  call_b_c : R;
  call_a_t : R;
  call_b_t : R;
  call_n_draws : nat;
  call_random_state : Z
}.

Definition metric_call (a_prior b_prior : R) (n_draws : nat)
    (control tr : AggRow) (m : string * (AggRow -> Z)) : SimCall :=
  let n1 := INR (users control) in
  let n2 := INR (users tr) in
  let x1 := IZR (m.2 control) in
  let x2 := IZR (m.2 tr) in
  let ab_c := beta_posterior_params a_prior b_prior x1 n1 in
  let ab_t := beta_posterior_params a_prior b_prior x2 n2 in
  {| call_variant := variant tr;
     call_metric := m.1;
     call_a_c := ab_c.1;
     call_b_c := ab_c.2;
     call_a_t := ab_t.1;
     call_b_t := ab_t.2;
     call_n_draws := n_draws;
     call_random_state := default_random_state |}.

(** The calls of the two nested loops, in the order they are made. *)
Definition sampler_calls (a_prior b_prior : R) (n_draws : nat)
    (agg : list AggRow) (control : AggRow) : list SimCall :=
  tr ← filter (fun r => variant r <> "control"%string) agg;
  metric_call a_prior b_prior n_draws control tr <$> proportion_metrics.

Definition run_call `{Numpy} (experiment_name : string) (a_prior b_prior : R)
    (c : SimCall) : Py BayesRow :=
  (summary ⇐ simulate_posterior_difference
               (call_a_c c) (call_b_c c) (call_a_t c) (call_b_t c)
               (call_n_draws c) (call_random_state c);;
   py_ret {| row_experiment_name := experiment_name;
             row_variant := call_variant c;
             row_metric := call_metric c;
             prior_a := a_prior;
             prior_b := b_prior;
             summary := summary |})%py.

Definition no_control : exn :=
  ValueError "No 'control' variant found in the aggregated data.".

Definition run_bayesian_experiment_analysis_from_user_level `{Numpy}
    (df : list Obs.RawObservation) (experiment_name : string)
    (a_prior b_prior : R) (n_draws : nat) : Py (list BayesRow) :=
  let agg := aggregate_for_experiment df experiment_name in
  if decide ("control"%string ∈ variant <$> agg) then
    match filter (fun r => variant r = "control"%string) agg with
    | [] => py_raise IndexError
    | control :: _ =>
        py_mapM (run_call experiment_name a_prior b_prior)
          (sampler_calls a_prior b_prior n_draws agg control)
    end
  else py_raise no_control.

Definition default_experiment_name : string := "homepage_cta_test".
Definition default_a_prior : R := 1.
Definition default_b_prior : R := 1.

End bayesian_experiment_analysis.

(** * Vocabulary of the statements *)

Module EA := experiment_analysis.
Module BA := bayesian_experiment_analysis.

(** ** Closed forms of the two tests *)

(** The quantities of the z-test as real expressions. *)
Definition pooled_of (n1 x1 n2 x2 : R) : R := (x1 + x2) / (n1 + n2).

Definition z_se (n1 x1 n2 x2 : R) : R :=
  sqrt (pooled_of n1 x1 n2 x2 * (1 - pooled_of n1 x1 n2 x2) * (1 / n1 + 1 / n2)).

Definition z_stat (n1 x1 n2 x2 : R) : R :=
  (x2 / n2 - x1 / n1) / z_se n1 x1 n2 x2.

Definition t_se (s1 n1 s2 n2 : R) : R := sqrt (s1 ^ 2 / n1 + s2 ^ 2 / n2).

Definition t_stat (m1 s1 n1 m2 s2 n2 : R) : R := (m2 - m1) / t_se s1 n1 s2 n2.

Definition df_den_of (s1 n1 s2 n2 : R) : R :=
  s1 ^ 4 / (n1 ^ 2 * (n1 - 1)) + s2 ^ 4 / (n2 ^ 2 * (n2 - 1)).

(** Satterthwaite's degrees of freedom. *)
Definition satterthwaite (s1 n1 s2 n2 : R) : R :=
  (s1 ^ 2 / n1 + s2 ^ 2 / n2) ^ 2 / df_den_of s1 n1 s2 n2.

(** [x] equals [v] when rounded to [decimals] decimal places. *)
Definition agrees_to (x v : R) (decimals : nat) : Prop :=
  Rabs (x - v) <= / (2 * 10 ^ decimals).

(** ** Rows of the aggregates and of the reports *)

(** The invariant of an aggregate row as the data model states it. *)
Definition counts_within_users (users : nat) (activations conversions new_bookings : Z)
  : Prop :=
  (activations <= Z.of_nat users)%Z
  /\ (conversions <= Z.of_nat users)%Z
  /\ (new_bookings <= Z.of_nat users)%Z
  /\ (0 <= Z.of_nat users)%Z.

Definition freq_row_invariant (row : EA.AggRow) : Prop :=
  counts_within_users (EA.users row) (EA.activations row) (EA.conversions row)
    (EA.new_bookings row)
  /\ (forall s, EA.sd_nb_mrr row = Some s -> 0 <= s).

Definition bayes_row_invariant (row : BA.AggRow) : Prop :=
  counts_within_users (BA.users row) (BA.activations row) (BA.conversions row)
    (BA.new_bookings row).

(** The three indicator columns hold 0 or 1 on the clean cohort. *)
Definition binary_indicators (name : string) (df : list Obs.RawObservation) : Prop :=
  forall r, r ∈ filter (clean name) df ->
    (Obs.is_activated r = 0 \/ Obs.is_activated r = 1)%Z
    /\ (Obs.is_converted r = 0 \/ Obs.is_converted r = 1)%Z
    /\ (Obs.new_booking_flag r = 0 \/ Obs.new_booking_flag r = 1)%Z.

(** No user has two rows of the clean cohort under the same variant. *)
Definition one_row_per_user (name : string) (df : list Obs.RawObservation) : Prop :=
  NoDup ((fun r => (Obs.variant r, Obs.user_id r)) <$> filter (clean name) df).

(** The lift column of a proportion row, as the source computes it. *)
Definition lift_of (x1 : Z) (n1 : nat) (x2 : Z) (n2 : nat) : option R :=
  if decide (x1 <> 0%Z /\ n1 <> 0%nat /\ n2 <> 0%nat)
  then Some ((IZR x2 / INR n2 - IZR x1 / INR n1) / (IZR x1 / INR n1))
  else None.

(** ** Draws and calls of the sampler *)

(** What a computation returns, leaving the heap aside. *)
Definition outcome `{Numpy} {A : Type} (r : result (A * gmap positive BitGen)) : result A :=
  match r with
  | Ok (a, _) => Ok a
  | Raise e => Raise e
  end.

(** The draws of a call, as functions of its arguments alone. *)
Definition control_draws `{Numpy} (a_c b_c : R) (n_draws : nat) (seed : Z) : list R :=
  (beta_draws (seed_bitgen seed) a_c b_c n_draws).1.

Definition treatment_draws `{Numpy} (a_c b_c a_t b_t : R) (n_draws : nat) (seed : Z) : list R :=
  (beta_draws (beta_draws (seed_bitgen seed) a_c b_c n_draws).2 a_t b_t n_draws).1.

Definition final_bitgen `{Numpy} (a_c b_c a_t b_t : R) (n_draws : nat) (seed : Z) : BitGen :=
  (beta_draws (beta_draws (seed_bitgen seed) a_c b_c n_draws).2 a_t b_t n_draws).2.

(** The result of a call without the heap. *)
Definition simulation `{Numpy} (a_c b_c a_t b_t : R) (n_draws : nat) (seed : Z)
  : result BA.PosteriorSummary :=
  if decide (seed < 0)%Z then Raise (ValueError "expected non-negative integer")
  else if decide (a_c <= 0) then Raise (ValueError "a <= 0")
  else if decide (b_c <= 0) then Raise (ValueError "b <= 0")
  else if decide (a_t <= 0) then Raise (ValueError "a <= 0")
  else if decide (b_t <= 0) then Raise (ValueError "b <= 0")
  else Ok (BA.summarize (control_draws a_c b_c n_draws seed)
             (treatment_draws a_c b_c a_t b_t n_draws seed)).

(** The relative lift of one draw, undefined at a control sample of 0. *)
Definition lift_of_draw (c t : R) : option R :=
  if decide (c = 0) then None else Some ((t - c) / c).

(** The lifts of the draws whose control sample is not 0. *)
Definition defined_lifts (control_samples treatment_samples : list R) : list R :=
  omap (fun ct => lift_of_draw ct.1 ct.2) (zip control_samples treatment_samples).

(** The calls of the sampler a report makes: none when there is no control
    row to compare with. *)
Definition report_calls (df : list Obs.RawObservation) (name : string)
    (a_prior b_prior : R) (n_draws : nat) : list BA.SimCall :=
  let agg := BA.aggregate_for_experiment df name in
  match filter (fun r => BA.variant r = "control"%string) agg with
  | [] => []
  | control :: _ => BA.sampler_calls a_prior b_prior n_draws agg control
  end.

(** C9 as stated: whatever seed a caller has in mind, some configuration of
    the report builder makes every simulation of the report use it. *)
Definition seed_is_configurable (df : list Obs.RawObservation) (name : string) : Prop :=
  forall seed : Z, exists a_prior b_prior n_draws,
    report_calls df name a_prior b_prior n_draws <> []
    /\ Forall (fun c => BA.call_random_state c = seed)
         (report_calls df name a_prior b_prior n_draws).

(** ** Partial sums for the normal distribution function *)

(** Coefficients of the exponential series at -u. *)
Fixpoint exp_coeff (k : nat) : R :=
  match k with
  | O => 1
  | S j => - exp_coeff j / INR (S j)
  end.

Fixpoint exp_taylor (n : nat) (u : R) : R :=
  match n with
  | O => 1
  | S m => exp_taylor m u + exp_coeff (S m) * u ^ (S m)
  end.

(** Partial sums of the series of the integral of [exp (- t^2 / 2)] from 0. *)
Fixpoint gauss_taylor (n : nat) (x : R) : R :=
  match n with
  | O => x
  | S m => gauss_taylor m x
           + exp_coeff (S m) / (2 ^ S m * INR (S (2 * S m))) * x ^ S (2 * S m)
  end.

(** ** Example data *)

Definition observation (variant : string) (user_id activated : Z) : Obs.RawObservation :=
  {| Obs.experiment_name := "homepage_cta_test";
     Obs.variant := variant;
     Obs.user_id := user_id;
     Obs.is_eligible_visitor := 1;
     Obs.contamination_flag := "Not Contaminated";
     Obs.duplication_rank := 1;
     Obs.is_activated := activated;
     Obs.is_converted := 0;
     Obs.new_booking_flag := 0;
     Obs.nb_mrr := 0;
     Obs.total_revenue := 0 |}.

(** A cohort with no control arm. *)
Definition treatment_only : list Obs.RawObservation :=
  [observation "treatment" 1 1; observation "treatment" 2 0].

(** Two clean rows of rank 1 for the same user of the control arm. *)
Definition repeated_user : list Obs.RawObservation :=
  [observation "control" 7 1; observation "control" 7 1].

(** A control arm without activations against a treatment arm with some. *)
Definition silent_control : list Obs.RawObservation :=
  [observation "control" 1 0; observation "control" 2 0;
   observation "treatment" 3 1; observation "treatment" 4 0].

(** One control user without activation against one activated treatment user. *)
Definition single_pair : list Obs.RawObservation :=
  [observation "control" 1 0; observation "treatment" 2 1].

Definition single_control : EA.AggRow :=
  EA.agg_row "control" [observation "control" 1 0].

Definition single_treatment : EA.AggRow :=
  EA.agg_row "treatment" [observation "treatment" 2 1].

(** The single row of the report on [single_pair]. *)
Definition single_pair_row `{ScipyStats} : EA.ReportRow :=
  EA.ProportionRow "homepage_cta_test" "treatment" "activation_rate"
    "two-proportion z-test" (Some (0 / 1)) (Some (1 / 1)) None
    (z_stat 1 0 1 1) (2 * (1 - norm_cdf (Rabs (z_stat 1 0 1 1)))).

(** A linear congruential generator standing in for numpy's, for the
    examples: draws are uniform on the unit interval. *)
Definition lcg_modulus : Z := 2147483648.

Definition lcg_next (g : Z) : Z := ((1103515245 * g + 12345) mod lcg_modulus)%Z.

Fixpoint lcg_draws (g : Z) (size : nat) : list R * Z :=
  match size with
  | O => ([], g)
  | S size' =>
      let g' := lcg_next g in
      let '(xs, g'') := lcg_draws g' size' in
      (IZR g' / IZR lcg_modulus :: xs, g'')
  end.

Definition lcg_numpy : Numpy :=
  {| BitGen := Z;
     seed_bitgen := fun seed => (seed mod lcg_modulus)%Z;
     beta_draws := fun g _ _ size => lcg_draws g size;
     percentile := fun l _ => hd 0 l |}.

(** ** Further vocabulary: tests, reports and examples *)

(** The radicand of the standard error of the z-test. *)
Definition z_radicand (n1 x1 n2 x2 : R) : R :=
  pooled_of n1 x1 n2 x2 * (1 - pooled_of n1 x1 n2 x2) * (1 / n1 + 1 / n2).

(** The sign of a statistic reversed, the p-value kept. *)
Definition negate_statistic (r : result (option (R * R))) : result (option (R * R)) :=
  match r with
  | Ok (Some (stat, p)) => Ok (Some (- stat, p))
  | other => other
  end.

(** The columns the Bayesian aggregate shares with the frequentist one. *)
Definition shared_columns (row : EA.AggRow) : BA.AggRow :=
  {| BA.variant := EA.variant row;
     BA.users := EA.users row;
     BA.activations := EA.activations row;
     BA.conversions := EA.conversions row;
     BA.new_bookings := EA.new_bookings row |}.

(** The columns every row of a frequentist report has. *)
Definition report_experiment (row : EA.ReportRow) : string :=
  match row with
  | EA.ProportionRow e _ _ _ _ _ _ _ _ => e
  | EA.MeanRow e _ _ _ _ _ _ _ _ => e
  end.

Definition report_variant (row : EA.ReportRow) : string :=
  match row with
  | EA.ProportionRow _ v _ _ _ _ _ _ _ => v
  | EA.MeanRow _ v _ _ _ _ _ _ _ => v
  end.

Definition report_metric (row : EA.ReportRow) : string :=
  match row with
  | EA.ProportionRow _ _ m _ _ _ _ _ _ => m
  | EA.MeanRow _ _ m _ _ _ _ _ _ => m
  end.

Definition report_test (row : EA.ReportRow) : string :=
  match row with
  | EA.ProportionRow _ _ _ t _ _ _ _ _ => t
  | EA.MeanRow _ _ _ t _ _ _ _ _ => t
  end.

(** The (metric, test) pairs a frequentist report can contain. *)
Definition report_metrics : list (string * string) :=
  [ ("activation_rate", "two-proportion z-test");
    ("conversion_rate", "two-proportion z-test");
    ("new_booking_rate", "two-proportion z-test");
    ("average_nb_mrr_per_user", "Welch two-sample t-test") ]%string.

(** Two clean rows for one control user, activated in both, against one
    activated treatment user. *)
Definition repeated_control_user : list Obs.RawObservation :=
  [observation "control" 7 1; observation "control" 7 1; observation "treatment" 8 1].

(** The ValueError of [math.sqrt] at a negative argument. *)
Definition math_domain_error : exn := ValueError "math domain error".

(** The summary a call of the report yields, the heap aside. *)
Definition call_result `{Numpy} (c : BA.SimCall) : result BA.PosteriorSummary :=
  simulation (BA.call_a_c c) (BA.call_b_c c) (BA.call_a_t c) (BA.call_b_t c)
    (BA.call_n_draws c) (BA.call_random_state c).

(** The row the Bayesian builder appends for a call. *)
Definition row_of_call `{Numpy} (name : string) (a_prior b_prior : R)
    (c : BA.SimCall) (row : BA.BayesRow) : Prop :=
  BA.row_experiment_name row = name
  /\ BA.row_variant row = BA.call_variant c
  /\ BA.row_metric row = BA.call_metric c
  /\ BA.prior_a row = a_prior
  /\ BA.prior_b row = b_prior
  /\ call_result c = Ok (BA.summary row).

(** The exceptions numpy raises for a shape parameter that is not positive. *)
Definition shape_errors : list exn := [ValueError "a <= 0"; ValueError "b <= 0"].

(** A clean row of a user who activated nothing and pays [nb_mrr]. *)
Definition paying (variant : string) (user_id : Z) (nb_mrr : R) : Obs.RawObservation :=
  {| Obs.experiment_name := "homepage_cta_test";
     Obs.variant := variant;
     Obs.user_id := user_id;
     Obs.is_eligible_visitor := 1;
     Obs.contamination_flag := "Not Contaminated";
     Obs.duplication_rank := 1;
     Obs.is_activated := 0;
     Obs.is_converted := 0;
     Obs.new_booking_flag := 0;
     Obs.nb_mrr := nb_mrr;
     Obs.total_revenue := nb_mrr |}.

(** Two paying users in each arm. *)
Definition paying_users : list Obs.RawObservation :=
  [paying "control" 1 0; paying "control" 2 2;
   paying "treatment" 3 1; paying "treatment" 4 5].

Definition paying_control : EA.AggRow :=
  EA.agg_row "control" [paying "control" 1 0; paying "control" 2 2].

Definition paying_treatment : EA.AggRow :=
  EA.agg_row "treatment" [paying "treatment" 3 1; paying "treatment" 4 5].

(** The single row of the report on [paying_users]. *)
Definition paying_users_row `{ScipyStats} : EA.ReportRow :=
  let m1 := EA.avg_nb_mrr paying_control in
  let s1 := EA.float_of (EA.sd_nb_mrr paying_control) in
  let m2 := EA.avg_nb_mrr paying_treatment in
  let s2 := EA.float_of (EA.sd_nb_mrr paying_treatment) in
  EA.MeanRow "homepage_cta_test" "treatment" "average_nb_mrr_per_user"
    "Welch two-sample t-test" m1 m2 (m2 - m1)
    (t_stat m1 s1 2 m2 s2 2)
    (2 * (1 - t_cdf (Rabs (t_stat m1 s1 2 m2 s2 2)) (satterthwaite s1 2 s2 2))).

(** * Verification *)

(** ** The error monad and the runtime primitives *)

Lemma py_div_ok (x y : R) : y <> 0 -> py_div x y = Ok (x / y).
Proof. intros H. unfold py_div. destruct (decide (y = 0)); [contradiction | reflexivity]. Qed.

Lemma math_sqrt_ok (x : R) : 0 <= x -> math_sqrt x = Ok (sqrt x).
Proof. intros H. unfold math_sqrt. destruct (decide (x < 0)); [lra | reflexivity]. Qed.

Lemma bind_Ok {A B : Type} (a : A) (k : A -> result B) : (Ok a ≫= k) = k a.
Proof. reflexivity. Qed.

Lemma bind_Raise {A B : Type} (e : exn) (k : A -> result B) : (Raise e ≫= k) = Raise e.
Proof. reflexivity. Qed.

(** ** The statistical test helpers *)

Section Tests.
Context `{ScipyStats}.
Import experiment_analysis.

Lemma ztest_no_sample (n1 x1 n2 x2 : R) :
  n1 = 0 \/ n2 = 0 -> two_proportion_ztest n1 x1 n2 x2 = Ok None.
Proof.
  intros Hn. unfold two_proportion_ztest.
  destruct (decide (n1 = 0 \/ n2 = 0)); [reflexivity | contradiction].
Qed.

(** Past the first guard, with a non-zero total and a non-negative
    radicand, the function is the three-way case split of the source. *)
Lemma ztest_unfold (n1 x1 n2 x2 : R) :
  n1 <> 0 -> n2 <> 0 -> n1 + n2 <> 0 ->
  0 <= pooled_of n1 x1 n2 x2 * (1 - pooled_of n1 x1 n2 x2) * (1 / n1 + 1 / n2) ->
  two_proportion_ztest n1 x1 n2 x2 =
    if decide (pooled_of n1 x1 n2 x2 = 0 \/ pooled_of n1 x1 n2 x2 = 1) then Ok None
    else if decide (z_se n1 x1 n2 x2 = 0) then Ok None
    else Ok (Some (z_stat n1 x1 n2 x2,
                   2 * (1 - norm_cdf (Rabs (z_stat n1 x1 n2 x2))))).
Proof.
  intros H1 H2 H12 Hrad. unfold two_proportion_ztest.
  destruct (decide (n1 = 0 \/ n2 = 0)) as [[?|?]|_]; [contradiction.. |].
  rewrite !py_div_ok by assumption. rewrite !bind_Ok.
  fold (pooled_of n1 x1 n2 x2).
  destruct (decide (pooled_of n1 x1 n2 x2 = 0 \/ pooled_of n1 x1 n2 x2 = 1));
    [reflexivity |].
  rewrite math_sqrt_ok by assumption. rewrite bind_Ok.
  fold (z_se n1 x1 n2 x2).
  destruct (decide (z_se n1 x1 n2 x2 = 0)) as [|Hse]; [reflexivity |].
  rewrite (py_div_ok _ _ Hse), bind_Ok. reflexivity.
Qed.

Lemma pooled_bounds (n1 x1 n2 x2 : R) :
  0 < n1 -> 0 < n2 -> 0 <= x1 <= n1 -> 0 <= x2 <= n2 ->
  0 <= pooled_of n1 x1 n2 x2 <= 1.
Proof.
  intros Hn1 Hn2 Hx1 Hx2. unfold pooled_of.
  assert (Hs : 0 < n1 + n2) by lra.
  split.
  - apply Rmult_le_pos; [lra |]. left. now apply Rinv_0_lt_compat.
  - apply (Rmult_le_reg_r (n1 + n2)); [assumption |].
    unfold Rdiv. rewrite Rmult_assoc, Rinv_l by lra. lra.
Qed.

Lemma pooled_zero_iff (n1 x1 n2 x2 : R) :
  0 < n1 -> 0 < n2 -> 0 <= x1 -> 0 <= x2 ->
  pooled_of n1 x1 n2 x2 = 0 <-> x1 = 0 /\ x2 = 0.
Proof.
  intros Hn1 Hn2 Hx1 Hx2. unfold pooled_of. split.
  - intros Hp.
    assert (Hs : x1 + x2 = 0).
    { replace (x1 + x2) with ((x1 + x2) / (n1 + n2) * (n1 + n2)) by (field; lra).
      rewrite Hp. ring. }
    lra.
  - intros [-> ->]. unfold Rdiv. ring.
Qed.

Lemma pooled_one_iff (n1 x1 n2 x2 : R) :
  0 < n1 -> 0 < n2 -> x1 <= n1 -> x2 <= n2 ->
  pooled_of n1 x1 n2 x2 = 1 <-> x1 = n1 /\ x2 = n2.
Proof.
  intros Hn1 Hn2 Hx1 Hx2. unfold pooled_of. split.
  - intros Hp.
    assert (Hs : x1 + x2 = n1 + n2).
    { replace (x1 + x2) with ((x1 + x2) / (n1 + n2) * (n1 + n2)) by (field; lra).
      rewrite Hp. ring. }
    lra.
  - intros [-> ->]. field. lra.
Qed.

Lemma radicand_nonneg (n1 x1 n2 x2 : R) :
  0 < n1 -> 0 < n2 -> 0 <= pooled_of n1 x1 n2 x2 <= 1 ->
  0 <= pooled_of n1 x1 n2 x2 * (1 - pooled_of n1 x1 n2 x2) * (1 / n1 + 1 / n2).
Proof.
  intros Hn1 Hn2 Hp.
  assert (0 < 1 / n1) by (apply Rdiv_lt_0_compat; lra).
  assert (0 < 1 / n2) by (apply Rdiv_lt_0_compat; lra).
  apply Rmult_le_pos; [apply Rmult_le_pos |]; lra.
Qed.

Lemma z_se_pos (n1 x1 n2 x2 : R) :
  0 < n1 -> 0 < n2 -> 0 < pooled_of n1 x1 n2 x2 < 1 -> 0 < z_se n1 x1 n2 x2.
Proof.
  intros Hn1 Hn2 Hp. unfold z_se. apply sqrt_lt_R0.
  assert (0 < 1 / n1) by (apply Rdiv_lt_0_compat; lra).
  assert (0 < 1 / n2) by (apply Rdiv_lt_0_compat; lra).
  apply Rmult_lt_0_compat; [apply Rmult_lt_0_compat |]; lra.
Qed.

(** On counts, the function never raises, and it returns [None] exactly
    at the guards of the source. *)
Lemma ztest_counts (n1 x1 n2 x2 : R) :
  0 <= x1 <= n1 -> 0 <= x2 <= n2 ->
  exists r, two_proportion_ztest n1 x1 n2 x2 = Ok r
    /\ (r = None <->
          n1 = 0 \/ n2 = 0 \/ pooled_of n1 x1 n2 x2 = 0
          \/ pooled_of n1 x1 n2 x2 = 1 \/ z_se n1 x1 n2 x2 = 0)
    /\ (r <> None ->
          r = Some (z_stat n1 x1 n2 x2,
                    2 * (1 - norm_cdf (Rabs (z_stat n1 x1 n2 x2))))).
Proof.
  intros Hx1 Hx2.
  destruct (decide (n1 = 0 \/ n2 = 0)) as [Hn|Hn].
  - exists None. rewrite ztest_no_sample by assumption.
    split; [reflexivity |]. split; [| congruence].
    split; [intros _; tauto | reflexivity].
  - assert (Hn1 : 0 < n1) by (destruct (Rtotal_order n1 0) as [?|[?|?]]; [lra | tauto | lra]).
    assert (Hn2 : 0 < n2) by (destruct (Rtotal_order n2 0) as [?|[?|?]]; [lra | tauto | lra]).
    pose proof (pooled_bounds n1 x1 n2 x2 Hn1 Hn2 Hx1 Hx2) as Hp.
    rewrite ztest_unfold;
      [| lra | lra | lra | now apply radicand_nonneg].
    destruct (decide (pooled_of n1 x1 n2 x2 = 0 \/ pooled_of n1 x1 n2 x2 = 1)) as [Hq|Hq].
    + exists None. split; [reflexivity |]. split; [| congruence].
      split; [intros _; tauto | reflexivity].
    + destruct (decide (z_se n1 x1 n2 x2 = 0)) as [Hse|Hse].
      * exists None. split; [reflexivity |]. split; [| congruence].
        split; [intros _; tauto | reflexivity].
      * eexists. split; [reflexivity |]. split; [| reflexivity].
        split; [discriminate |]. intros [?|[?|[?|[?|?]]]]; tauto || lra.
Qed.

(** ** Welch's test *)

Lemma ttest_small_sample (m1 s1 n1 m2 s2 n2 : R) :
  n1 <= 1 \/ n2 <= 1 -> two_sample_ttest m1 s1 n1 m2 s2 n2 = Ok None.
Proof.
  intros Hn. unfold two_sample_ttest.
  destruct (decide (n1 <= 1 \/ n2 <= 1)); [reflexivity | contradiction].
Qed.

Lemma ttest_unfold (m1 s1 n1 m2 s2 n2 : R) :
  1 < n1 -> 1 < n2 ->
  two_sample_ttest m1 s1 n1 m2 s2 n2 =
    if decide (t_se s1 n1 s2 n2 = 0) then Ok None
    else if decide (df_den_of s1 n1 s2 n2 = 0) then Ok None
    else Ok (Some (t_stat m1 s1 n1 m2 s2 n2,
                   2 * (1 - t_cdf (Rabs (t_stat m1 s1 n1 m2 s2 n2))
                              (satterthwaite s1 n1 s2 n2)))).
Proof.
  intros Hn1 Hn2. unfold two_sample_ttest.
  destruct (decide (n1 <= 1 \/ n2 <= 1)) as [[?|?]|_]; [lra.. |].
  rewrite (py_div_ok (s1 ^ 2) n1), (py_div_ok (s2 ^ 2) n2) by lra.
  rewrite !bind_Ok, math_sqrt_ok, bind_Ok.
  2:{ assert (0 <= s1 ^ 2) by (apply pow2_ge_0).
      assert (0 <= s2 ^ 2) by (apply pow2_ge_0).
      apply Rplus_le_le_0_compat; apply Rmult_le_pos;
        try (left; apply Rinv_0_lt_compat); lra. }
  fold (t_se s1 n1 s2 n2).
  destruct (decide (t_se s1 n1 s2 n2 = 0)) as [|Hse]; [reflexivity |].
  rewrite (py_div_ok _ _ Hse), bind_Ok. cbv zeta.
  assert (Hd1 : n1 ^ 2 * (n1 - 1) <> 0)
    by (apply Rgt_not_eq, Rmult_lt_0_compat; [apply pow_lt |]; lra).
  assert (Hd2 : n2 ^ 2 * (n2 - 1) <> 0)
    by (apply Rgt_not_eq, Rmult_lt_0_compat; [apply pow_lt |]; lra).
  rewrite (py_div_ok _ _ Hd1), bind_Ok, (py_div_ok _ _ Hd2), bind_Ok.
  fold (df_den_of s1 n1 s2 n2).
  destruct (decide (df_den_of s1 n1 s2 n2 = 0)) as [|Hden]; [reflexivity |].
  rewrite (py_div_ok _ _ Hden), bind_Ok. reflexivity.
Qed.

(** C3: on counts ([0 <= x1 <= n1], [0 <= x2 <= n2]) the z-test returns
    without raising; its result is undefined exactly when [n1 = 0], or
    [n2 = 0], or the pooled proportion is 0, or it is 1, or the standard
    error is 0; with both samples non-empty the pooled proportion is 0
    exactly when [x1 = x2 = 0] and 1 exactly when [x1 = n1] and
    [x2 = n2]; in every other case the result is the pair of the
    statistic and the p-value. *)
Theorem C3_two_proportion_undefined_iff (n1 x1 n2 x2 : R) :
  0 <= x1 <= n1 -> 0 <= x2 <= n2 ->
  exists r, two_proportion_ztest n1 x1 n2 x2 = Ok r
    /\ (r = None <->
          n1 = 0 \/ n2 = 0 \/ pooled_of n1 x1 n2 x2 = 0
          \/ pooled_of n1 x1 n2 x2 = 1 \/ z_se n1 x1 n2 x2 = 0)
    /\ (n1 <> 0 -> n2 <> 0 ->
          (pooled_of n1 x1 n2 x2 = 0 <-> x1 = 0 /\ x2 = 0)
          /\ (pooled_of n1 x1 n2 x2 = 1 <-> x1 = n1 /\ x2 = n2))
    /\ (r <> None ->
          exists z p, r = Some (z, p) /\ z = z_stat n1 x1 n2 x2
            /\ p = 2 * (1 - norm_cdf (Rabs z))).
Proof.
  intros Hx1 Hx2.
  destruct (ztest_counts n1 x1 n2 x2 Hx1 Hx2) as (r & Hr & Hiff & Hsome).
  exists r. split; [exact Hr |]. split; [exact Hiff |]. split.
  - intros Hn1 Hn2. split.
    + apply pooled_zero_iff; lra.
    + apply pooled_one_iff; lra.
  - intros Hne. eexists _, _. split; [apply Hsome, Hne |]. split; reflexivity.
Qed.

(** C4: Welch's test never raises; its result is undefined exactly when
    [n1 <= 1], or [n2 <= 1], or the standard error is 0, or the
    denominator of the degrees of freedom is 0; for [n1 = n2 = 2] and
    [sd1 = sd2 = 0] it is undefined; otherwise it is the statistic
    [(mean2 - mean1) / se] with the two-sided p-value of Student's t at
    Satterthwaite's degrees of freedom. *)
Theorem C4_welch_undefined_iff (m1 s1 n1 m2 s2 n2 : R) :
  exists r, two_sample_ttest m1 s1 n1 m2 s2 n2 = Ok r
    /\ (r = None <->
          n1 <= 1 \/ n2 <= 1 \/ t_se s1 n1 s2 n2 = 0 \/ df_den_of s1 n1 s2 n2 = 0)
    /\ (r <> None ->
          exists tstat pval, r = Some (tstat, pval)
            /\ tstat = (m2 - m1) / t_se s1 n1 s2 n2
            /\ pval = 2 * (1 - t_cdf (Rabs tstat) (satterthwaite s1 n1 s2 n2)))
    /\ two_sample_ttest m1 0 2 m2 0 2 = Ok None.
Proof.
  assert (Hex : two_sample_ttest m1 0 2 m2 0 2 = Ok None).
  { rewrite ttest_unfold by lra.
    assert (Hz : t_se 0 2 0 2 = 0).
    { unfold t_se. replace (0 ^ 2 / 2 + 0 ^ 2 / 2) with 0 by field. apply sqrt_0. }
    destruct (decide (t_se 0 2 0 2 = 0)); [reflexivity | contradiction]. }
  destruct (decide (n1 <= 1 \/ n2 <= 1)) as [Hn|Hn].
  - exists None. rewrite ttest_small_sample by assumption.
    repeat split; try congruence; tauto.
  - assert (Hn1 : 1 < n1) by (destruct (Rle_lt_dec n1 1); tauto).
    assert (Hn2 : 1 < n2) by (destruct (Rle_lt_dec n2 1); tauto).
    rewrite ttest_unfold by assumption.
    destruct (decide (t_se s1 n1 s2 n2 = 0)) as [Hse|Hse].
    { exists None. repeat split; try congruence; tauto. }
    destruct (decide (df_den_of s1 n1 s2 n2 = 0)) as [Hden|Hden].
    { exists None. repeat split; try congruence; tauto. }
    eexists. split; [reflexivity |]. split; [| split; [| exact Hex]].
    + split; [discriminate |]. intros [?|[?|[?|?]]]; tauto || lra.
    + intros _. eexists _, _. repeat split; reflexivity.
Qed.

End Tests.

(** ** The conjugate update *)

(** C5: [beta_posterior_params] is a total function; for
    [trials >= successes >= 0] it returns
    [(a_prior + successes, b_prior + trials - successes)], both components
    strictly positive when both prior parameters are; at [(1, 1, 0, 0)] it
    is [(1, 1)] and at [(1, 1, 50, 100)] it is [(51, 51)]. *)
Theorem C5_posterior_params (a_prior b_prior successes trials : R) :
  0 <= successes <= trials ->
  BA.beta_posterior_params a_prior b_prior successes trials
    = (a_prior + successes, b_prior + trials - successes)
  /\ (0 < a_prior -> 0 < b_prior ->
       0 < (BA.beta_posterior_params
              a_prior b_prior successes trials).1
       /\ 0 < (BA.beta_posterior_params
                 a_prior b_prior successes trials).2)
  /\ BA.beta_posterior_params 1 1 0 0 = (1, 1)
  /\ BA.beta_posterior_params 1 1 50 100 = (51, 51).
Proof.
  intros Hst. unfold BA.beta_posterior_params.
  split; [reflexivity |]. split; [| split].
  - intros Ha Hb. simpl. lra.
  - f_equal; lra.
  - f_equal; lra.
Qed.

Lemma C5_posterior_params_witness :
  0 <= 50 <= 100
  /\ BA.beta_posterior_params 1 1 50 100 = (1 + 50, 1 + 100 - 50).
Proof.
  split; [lra |]. apply (C5_posterior_params 1 1 50 100). lra.
Defined.

(** ** Aggregation *)

Section Aggregation.

Lemma elem_of_groupby_keys (rows : list Obs.RawObservation) (v : string) :
  v ∈ groupby_keys rows <-> v ∈ Obs.variant <$> rows.
Proof.
  unfold groupby_keys. rewrite merge_sort_Permutation.
  apply elem_of_remove_dups.
Qed.

Lemma NoDup_groupby_keys (rows : list Obs.RawObservation) :
  NoDup (groupby_keys rows).
Proof.
  unfold groupby_keys. rewrite merge_sort_Permutation.
  apply NoDup_remove_dups.
Qed.

Lemma freq_variants (df : list Obs.RawObservation) (name : string) :
  EA.variant <$> EA.aggregate_for_experiment df name
  = groupby_keys (filter (clean name) df).
Proof.
  unfold EA.aggregate_for_experiment. cbv zeta.
  rewrite <- list_fmap_compose. apply list_fmap_id.
Qed.

Lemma bayes_variants (df : list Obs.RawObservation) (name : string) :
  BA.variant <$> BA.aggregate_for_experiment df name
  = groupby_keys (filter (clean name) df).
Proof.
  unfold BA.aggregate_for_experiment. cbv zeta.
  rewrite <- list_fmap_compose. apply list_fmap_id.
Qed.

(** Every aggregate row is the reduction of a non-empty group. *)
Lemma freq_row_origin (df : list Obs.RawObservation) (name : string) (row : EA.AggRow) :
  row ∈ EA.aggregate_for_experiment df name ->
  exists v, v ∈ Obs.variant <$> filter (clean name) df
    /\ row = EA.agg_row v (group (filter (clean name) df) v).
Proof.
  unfold EA.aggregate_for_experiment. cbv zeta.
  intros (v & -> & Hv)%list_elem_of_fmap.
  exists v. split; [now apply elem_of_groupby_keys | reflexivity].
Qed.

Lemma bayes_row_origin (df : list Obs.RawObservation) (name : string) (row : BA.AggRow) :
  row ∈ BA.aggregate_for_experiment df name ->
  exists v, v ∈ Obs.variant <$> filter (clean name) df
    /\ row = BA.agg_row v (group (filter (clean name) df) v).
Proof.
  unfold BA.aggregate_for_experiment. cbv zeta.
  intros (v & -> & Hv)%list_elem_of_fmap.
  exists v. split; [now apply elem_of_groupby_keys | reflexivity].
Qed.

Lemma group_nonempty (rows : list Obs.RawObservation) (v : string) :
  v ∈ Obs.variant <$> rows -> (0 < length (group rows v))%nat.
Proof.
  intros (r & -> & Hr)%list_elem_of_fmap.
  assert (Hin : r ∈ group rows (Obs.variant r))
    by (apply list_elem_of_filter; split; [reflexivity | assumption]).
  destruct (group rows (Obs.variant r)); [inversion Hin | simpl; lia].
Qed.

(** A sum of 0/1 indicators counts at most every row. *)
Lemma sum_Z_indicators (l : list Z) :
  Forall (fun z => z = 0 \/ z = 1)%Z l ->
  (0 <= sum_Z l <= Z.of_nat (length l))%Z.
Proof.
  induction 1 as [|z l Hz _ IH]; simpl; [lia |].
  destruct Hz; subst; lia.
Qed.

Lemma nunique_le_length (ids : list Z) : (nunique ids <= length ids)%nat.
Proof.
  unfold nunique. induction ids as [|i ids IH]; simpl; [lia |].
  destruct (decide_rel elem_of i ids); simpl; lia.
Qed.

Lemma nunique_NoDup (ids : list Z) : NoDup ids -> nunique ids = length ids.
Proof.
  unfold nunique. induction 1 as [|i ids Hi _ IH]; simpl; [reflexivity |].
  destruct (decide_rel elem_of i ids); [contradiction | simpl; congruence].
Qed.

Lemma std_R_nonneg (l : list R) (s : R) : std_R l = Some s -> 0 <= s.
Proof.
  unfold std_R. destruct (decide (length l <= 1)%nat); [discriminate |].
  intros [= <-]. apply sqrt_pos.
Qed.

Lemma std_R_nan (l : list R) : std_R l = None <-> (length l <= 1)%nat.
Proof.
  unfold std_R. destruct (decide (length l <= 1)%nat); split;
    intros; try discriminate; try reflexivity; try assumption; contradiction.
Qed.

(** If no user has two clean rows under one variant, the user ids of a
    group are pairwise distinct. *)
Lemma group_users_NoDup (rows : list Obs.RawObservation) (v : string) :
  NoDup ((fun r => (Obs.variant r, Obs.user_id r)) <$> rows) ->
  NoDup (Obs.user_id <$> group rows v).
Proof.
  unfold group. induction rows as [|r rows IH]; simpl; [constructor |].
  intros [Hr Hnd]%NoDup_cons. rewrite filter_cons.
  destruct (decide (Obs.variant r = v)) as [Hv|Hv]; [| now apply IH].
  simpl. apply NoDup_cons. split; [| now apply IH].
  intros (r' & Hid & [Hv' Hr']%list_elem_of_filter)%list_elem_of_fmap.
  apply Hr. apply list_elem_of_fmap. exists r'. split; [| assumption].
  rewrite Hid, Hv, Hv'. reflexivity.
Qed.

(** Unconditionally, an aggregate row counts at least one row and at most
    as many users as rows. *)
Lemma freq_row_sizes (df : list Obs.RawObservation) (name : string) (row : EA.AggRow) :
  row ∈ EA.aggregate_for_experiment df name ->
  (1 <= EA.n_nb_mrr row)%nat /\ (EA.users row <= EA.n_nb_mrr row)%nat.
Proof.
  intros (v & Hv & ->)%freq_row_origin. simpl. split.
  - apply group_nonempty in Hv. lia.
  - rewrite <- (length_fmap Obs.user_id). apply nunique_le_length.
Qed.

(** Either aggregate has one row per variant of the clean cohort. *)
Lemma one_row_per_variant (df : list Obs.RawObservation) (name : string) :
  NoDup (EA.variant <$> EA.aggregate_for_experiment df name)
  /\ NoDup (BA.variant <$> BA.aggregate_for_experiment df name)
  /\ (forall v, v ∈ EA.variant <$> EA.aggregate_for_experiment df name
                <-> v ∈ Obs.variant <$> filter (clean name) df)
  /\ (forall v, v ∈ BA.variant <$> BA.aggregate_for_experiment df name
                <-> v ∈ Obs.variant <$> filter (clean name) df).
Proof.
  rewrite freq_variants, bayes_variants.
  repeat split; try apply NoDup_groupby_keys; apply elem_of_groupby_keys.
Qed.

(** A row whose standard deviation is NaN comes from a group of one row,
    for which Welch's test returns at its first guard, whatever number the
    NaN is read as. *)
Lemma ttest_nan_unread `{ScipyStats} (df : list Obs.RawObservation) (name : string)
    (control tr : EA.AggRow) (m1 s1 m2 s2 : R) :
  control ∈ EA.aggregate_for_experiment df name ->
  tr ∈ EA.aggregate_for_experiment df name ->
  EA.sd_nb_mrr control = None \/ EA.sd_nb_mrr tr = None ->
  EA.two_sample_ttest m1 s1 (INR (EA.n_nb_mrr control)) m2 s2 (INR (EA.n_nb_mrr tr))
  = Ok None.
Proof.
  intros (vc & _ & ->)%freq_row_origin (vt & _ & ->)%freq_row_origin Hnan.
  apply ttest_small_sample. simpl in *.
  rewrite !std_R_nan, !length_fmap in Hnan.
  destruct Hnan as [Hn|Hn]; [left | right];
    apply le_INR in Hn; simpl in Hn; exact Hn.
Qed.

End Aggregation.

(** ** The precondition of the report builders *)

Section Builders.
Context `{ScipyStats} `{Numpy}.

(** C1: when no row of the clean cohort is labeled "control", the
    aggregate of either module has no "control" row, the frequentist
    builder raises the ValueError of the missing control, and so does the
    Bayesian builder for every prior, draw count and heap: neither returns
    a report. *)
Theorem C1_missing_control (df : list Obs.RawObservation) (name : string) :
  "control"%string ∉ (Obs.variant <$> filter (clean name) df) ->
  ("control"%string ∉ (EA.variant <$> EA.aggregate_for_experiment df name))
  /\ ("control"%string ∉ (BA.variant <$> BA.aggregate_for_experiment df name))
  /\ EA.run_experiment_analysis_from_user_level df name = Raise EA.no_control
  /\ (forall a_prior b_prior n_draws h,
        BA.run_bayesian_experiment_analysis_from_user_level
          df name a_prior b_prior n_draws h = Raise BA.no_control).
Proof.
  intros Hno.
  assert (Hf : "control"%string ∉ (EA.variant <$> EA.aggregate_for_experiment df name))
    by (rewrite freq_variants, elem_of_groupby_keys; exact Hno).
  assert (Hb : "control"%string ∉ (BA.variant <$> BA.aggregate_for_experiment df name))
    by (rewrite bayes_variants, elem_of_groupby_keys; exact Hno).
  split; [exact Hf |]. split; [exact Hb |]. split.
  - unfold EA.run_experiment_analysis_from_user_level. cbv zeta.
    destruct (decide ("control"%string ∈ EA.variant <$> EA.aggregate_for_experiment df name));
      [contradiction | reflexivity].
  - intros a_prior b_prior n_draws h.
    unfold BA.run_bayesian_experiment_analysis_from_user_level. cbv zeta.
    destruct (decide ("control"%string ∈ BA.variant <$> BA.aggregate_for_experiment df name));
      [contradiction | reflexivity].
Qed.

End Builders.

(** ** The aggregation invariant *)

Section Invariant.

Lemma group_counts (name : string) (df : list Obs.RawObservation) (v : string)
    (col : Obs.RawObservation -> Z) :
  (forall r, r ∈ filter (clean name) df -> (col r = 0 \/ col r = 1)%Z) ->
  one_row_per_user name df ->
  (sum_Z (col <$> group (filter (clean name) df) v)
   <= Z.of_nat (nunique (Obs.user_id <$> group (filter (clean name) df) v)))%Z.
Proof.
  intros Hcol Hone.
  rewrite nunique_NoDup by (now apply group_users_NoDup).
  rewrite length_fmap.
  rewrite <- (length_fmap col).
  apply sum_Z_indicators, Forall_fmap, Forall_forall.
  intros r [_ Hr]%list_elem_of_filter. now apply Hcol.
Qed.

(** C8 (amended): on a dataset whose indicator columns are 0/1 on the
    clean cohort and in which no user has two clean rows under the same
    variant, either aggregate has one row per variant of the clean cohort,
    and every row of either aggregate has each of its three success
    counts at most its distinct-user count and a non-negative user count;
    the standard deviation of the frequentist aggregate is NaN exactly
    for a variant of a single row and is non-negative otherwise. *)
Theorem C8_aggregate_invariant (df : list Obs.RawObservation) (name : string) :
  binary_indicators name df ->
  one_row_per_user name df ->
  NoDup (EA.variant <$> EA.aggregate_for_experiment df name)
  /\ NoDup (BA.variant <$> BA.aggregate_for_experiment df name)
  /\ (forall row, row ∈ EA.aggregate_for_experiment df name ->
        freq_row_invariant row
        /\ (EA.sd_nb_mrr row = None <-> (EA.n_nb_mrr row <= 1)%nat))
  /\ (forall row, row ∈ BA.aggregate_for_experiment df name ->
        bayes_row_invariant row).
Proof.
  intros Hbin Hone.
  split; [apply one_row_per_variant |]. split; [apply one_row_per_variant |].
  split.
  - intros row (v & Hv & ->)%freq_row_origin. split; [split |].
    + unfold counts_within_users. simpl.
      repeat split; try (apply (group_counts name df v); [| exact Hone]);
        try (intros r Hr; now apply (Hbin r Hr)); lia.
    + simpl. apply std_R_nonneg.
    + simpl. rewrite std_R_nan, length_fmap. reflexivity.
  - intros row (v & Hv & ->)%bayes_row_origin.
    unfold bayes_row_invariant, counts_within_users. simpl.
    repeat split; try (apply (group_counts name df v); [| exact Hone]);
      try (intros r Hr; now apply (Hbin r Hr)); lia.
Qed.

End Invariant.

(** C8 as stated fails: a user with two clean rows counts once among the
    users and twice among the activations. *)
Lemma C8_counterexample :
  ~ (forall row,
       row ∈ EA.aggregate_for_experiment repeated_user "homepage_cta_test" ->
       freq_row_invariant row).
Proof.
  intros Hall.
  assert (Hrow : EA.agg_row "control" repeated_user
                 ∈ EA.aggregate_for_experiment repeated_user "homepage_cta_test")
    by (vm_compute; left).
  destruct (Hall _ Hrow) as [(Hact & _) _].
  vm_compute in Hact. apply Hact. reflexivity.
Qed.

(** ** Rows of the frequentist report *)

Section Report.
Context `{ScipyStats}.

Lemma mapM_Ok_inv {A B : Type} (f : A -> result B) (l : list A) (ys : list B) :
  mapM f l = Ok ys -> Forall2 (fun x y => f x = Ok y) l ys.
Proof.
  revert ys. induction l as [|a l IH]; intros ys; cbn.
  - intros [= <-]. constructor.
  - destruct (f a) as [b|e] eqn:Hfa; cbn; [| discriminate].
    destruct (mapM f l) as [bs|e] eqn:Hl; cbn; [| discriminate].
    intros [= <-]. constructor; [exact Hfa | now apply IH].
Qed.

Lemma proportion_row_inv (name : string) (control tr : EA.AggRow)
    (m : string * (EA.AggRow -> Z)) (row : EA.ReportRow) :
  EA.proportion_row name control tr m = Ok (Some row) ->
  exists z p,
    EA.two_proportion_ztest (INR (EA.users control)) (IZR (m.2 control))
      (INR (EA.users tr)) (IZR (m.2 tr)) = Ok (Some (z, p))
    /\ row = EA.ProportionRow name (EA.variant tr) m.1 "two-proportion z-test"
               (Some (IZR (m.2 control) / INR (EA.users control)))
               (Some (IZR (m.2 tr) / INR (EA.users tr)))
               (lift_of (m.2 control) (EA.users control) (m.2 tr) (EA.users tr))
               z p.
Proof.
  unfold EA.proportion_row. cbv zeta.
  destruct (EA.two_proportion_ztest _ _ _ _) as [[[z p]|]|e] eqn:Htest;
    cbn; try discriminate.
  intros [= <-]. exists z, p. split; [reflexivity |].
  assert (Hn1 : EA.users control <> 0%nat).
  { intros Hz. rewrite Hz, ztest_no_sample in Htest by (left; reflexivity).
    discriminate. }
  assert (Hn2 : EA.users tr <> 0%nat).
  { intros Hz. rewrite Hz, ztest_no_sample in Htest by (right; reflexivity).
    discriminate. }
  destruct (decide (EA.users control = 0%nat)); [contradiction |].
  destruct (decide (EA.users tr = 0%nat)); [contradiction |].
  reflexivity.
Qed.

Lemma lift_of_zero_control (n1 : nat) (x2 : Z) (n2 : nat) :
  lift_of 0 n1 x2 n2 = None.
Proof.
  unfold lift_of.
  destruct (decide (0%Z <> 0%Z /\ n1 <> 0%nat /\ n2 <> 0%nat)) as [[Hx _]|_];
    [now contradiction Hx | reflexivity].
Qed.

(** Where each row of a report comes from. *)
Lemma report_rows_origin (df : list Obs.RawObservation) (name : string)
    (rows : list EA.ReportRow) (row : EA.ReportRow) :
  EA.run_experiment_analysis_from_user_level df name = Ok rows ->
  row ∈ rows ->
  exists control tr,
    control ∈ EA.aggregate_for_experiment df name
    /\ EA.variant control = "control"%string
    /\ tr ∈ EA.aggregate_for_experiment df name
    /\ EA.variant tr <> "control"%string
    /\ ((exists m, m ∈ EA.proportion_metrics
                   /\ EA.proportion_row name control tr m = Ok (Some row))
        \/ EA.mean_row name control tr = Ok (Some row)).
Proof.
  unfold EA.run_experiment_analysis_from_user_level. cbv zeta.
  destruct (decide (_ ∈ _)) as [_|_]; [| discriminate].
  destruct (filter _ (EA.aggregate_for_experiment df name))
    as [|control rest] eqn:Hcontrol; [discriminate |].
  assert (Hc : control ∈ filter (fun r => EA.variant r = "control"%string)
                 (EA.aggregate_for_experiment df name))
    by (rewrite Hcontrol; left).
  apply list_elem_of_filter in Hc as [Hcv Hcin].
  destruct (mapM _ _) as [rowss|e] eqn:Hmap; cbn; [| discriminate].
  intros [= <-] Hrow.
  apply mapM_Ok_inv in Hmap.
  apply list_elem_of_In, in_concat in Hrow as (rs & Hrs & Hrow).
  apply list_elem_of_In in Hrs, Hrow.
  apply list_elem_of_lookup in Hrs as [i Hi].
  destruct (Forall2_lookup_r _ _ _ _ _ Hmap Hi) as (tr & Htr & Hvr).
  apply list_elem_of_lookup_2, list_elem_of_filter in Htr as [Htv Htin].
  exists control, tr. repeat (split; [assumption |]).
  unfold EA.variant_rows in Hvr.
  destruct (mapM _ EA.proportion_metrics) as [props|e] eqn:Hprops; cbn in Hvr;
    [| discriminate].
  destruct (EA.mean_row name control tr) as [mean|e] eqn:Hmean; cbn in Hvr;
    [| discriminate].
  injection Hvr as <-.
  apply elem_of_app in Hrow as [Hrow|Hrow].
  - left. apply list_elem_of_omap in Hrow as (o & Ho & ->).
    apply mapM_Ok_inv in Hprops.
    apply list_elem_of_lookup in Ho as [j Hj].
    destruct (Forall2_lookup_r _ _ _ _ _ Hprops Hj) as (m & Hm & Hpr).
    exists m. split; [now apply list_elem_of_lookup_2 in Hm | exact Hpr].
  - right. destruct mean as [mr|]; simpl in Hrow.
    + apply list_elem_of_singleton in Hrow as ->. reflexivity.
    + inversion Hrow.
Qed.

Lemma mean_row_inv (name : string) (control tr : EA.AggRow) (row : EA.ReportRow) :
  EA.mean_row name control tr = Ok (Some row) ->
  exists tstat pval,
    row = EA.MeanRow name (EA.variant tr) "average_nb_mrr_per_user"
            "Welch two-sample t-test" (EA.avg_nb_mrr control) (EA.avg_nb_mrr tr)
            (EA.avg_nb_mrr tr - EA.avg_nb_mrr control) tstat pval.
Proof.
  unfold EA.mean_row.
  destruct (EA.two_sample_ttest _ _ _ _ _ _) as [[[tstat pval]|]|e]; cbn;
    try discriminate.
  intros [= <-]. eexists _, _. reflexivity.
Qed.

(** C10: every proportion row of a frequentist report comes from a
    defined z-test of the control row against a non-control row on one of
    the three metrics; it carries the statistic and the p-value of that
    test, both rates are defined, and when the control success count is 0
    its lift is undefined. *)
Theorem C10_zero_control_lift (df : list Obs.RawObservation) (name : string)
    (rows : list EA.ReportRow) (row : EA.ReportRow) :
  EA.run_experiment_analysis_from_user_level df name = Ok rows ->
  row ∈ rows ->
  match row with
  | EA.ProportionRow _ v metric _ control_rate treatment_rate lift z p =>
      exists control tr m,
        control ∈ EA.aggregate_for_experiment df name
        /\ EA.variant control = "control"%string
        /\ tr ∈ EA.aggregate_for_experiment df name
        /\ v = EA.variant tr
        /\ m ∈ EA.proportion_metrics
        /\ metric = m.1
        /\ EA.two_proportion_ztest (INR (EA.users control)) (IZR (m.2 control))
              (INR (EA.users tr)) (IZR (m.2 tr)) = Ok (Some (z, p))
        /\ control_rate = Some (IZR (m.2 control) / INR (EA.users control))
        /\ treatment_rate = Some (IZR (m.2 tr) / INR (EA.users tr))
        /\ (m.2 control = 0%Z -> lift = None)
  | EA.MeanRow _ _ _ _ _ _ _ _ _ => True
  end.
Proof.
  intros Hrun Hrow.
  destruct (report_rows_origin df name rows row Hrun Hrow)
    as (control & tr & Hcin & Hcv & Htin & Htv & [(m & Hm & Hpr)|Hmean]).
  - apply proportion_row_inv in Hpr as (z & p & Htest & ->).
    exists control, tr, m. repeat (split; [assumption || reflexivity |]).
    intros ->. apply lift_of_zero_control.
  - apply mean_row_inv in Hmean as (tstat & pval & ->). exact I.
Qed.

End Report.

(** ** The posterior sampler *)

Section Sampler.
Context `{Numpy}.

(** A call allocates one generator, at a fresh identity, and touches no
    other cell of the heap. *)
Lemma simulate_heap (a_c b_c a_t b_t : R) (n_draws : nat) (seed : Z)
    (h : gmap positive BitGen) :
  BA.simulate_posterior_difference a_c b_c a_t b_t n_draws seed h
  = s ← simulation a_c b_c a_t b_t n_draws seed;
    Ok (s, <[fresh (dom h) := final_bitgen a_c b_c a_t b_t n_draws seed]> h).
Proof.
  unfold BA.simulate_posterior_difference, simulation, py_bind, default_rng.
  destruct (decide (seed < 0)%Z); [reflexivity |].
  unfold rng_beta at 1. rewrite lookup_insert_eq.
  destruct (decide (a_c <= 0)); [reflexivity |].
  destruct (decide (b_c <= 0)); [reflexivity |].
  unfold control_draws, treatment_draws, final_bitgen.
  destruct (beta_draws (seed_bitgen seed) a_c b_c n_draws) as [cs g1].
  unfold rng_beta. rewrite lookup_insert_eq.
  destruct (decide (a_t <= 0)); [reflexivity |].
  destruct (decide (b_t <= 0)); [reflexivity |].
  simpl. destruct (beta_draws g1 a_t b_t n_draws) as [ts g2].
  unfold py_ret. cbn. rewrite !insert_insert_eq. reflexivity.
Qed.

Lemma simulate_outcome (a_c b_c a_t b_t : R) (n_draws : nat) (seed : Z)
    (h : gmap positive BitGen) :
  outcome (BA.simulate_posterior_difference a_c b_c a_t b_t n_draws seed h)
  = simulation a_c b_c a_t b_t n_draws seed.
Proof.
  rewrite simulate_heap.
  destruct (simulation a_c b_c a_t b_t n_draws seed); reflexivity.
Qed.

(** With a valid seed and positive shape parameters the call returns. *)
Lemma simulate_returns (a_c b_c a_t b_t : R) (n_draws : nat) (seed : Z)
    (h : gmap positive BitGen) :
  (0 <= seed)%Z -> 0 < a_c -> 0 < b_c -> 0 < a_t -> 0 < b_t ->
  BA.simulate_posterior_difference a_c b_c a_t b_t n_draws seed h
  = Ok (BA.summarize (control_draws a_c b_c n_draws seed)
          (treatment_draws a_c b_c a_t b_t n_draws seed),
        <[fresh (dom h) := final_bitgen a_c b_c a_t b_t n_draws seed]> h).
Proof.
  intros Hseed Hac Hbc Hat Hbt. rewrite simulate_heap. unfold simulation.
  destruct (decide (seed < 0)%Z); [lia |].
  destruct (decide (a_c <= 0)); [lra |].
  destruct (decide (b_c <= 0)); [lra |].
  destruct (decide (a_t <= 0)); [lra |].
  destruct (decide (b_t <= 0)); [lra |].
  reflexivity.
Qed.

(** C6: a call of [simulate_posterior_difference] returns the same
    summary, or raises the same exception, from every heap of generators:
    equal arguments give equal outputs.  A summary it returns is computed
    from the draws of the generator seeded with the given seed; that
    generator is allocated by the call at an identity that was free, no
    generator that existed before the call is read or advanced, and a call
    made after another returns what it returns on its own. *)
Theorem C6_simulation_deterministic (a_c b_c a_t b_t : R) (n_draws : nat) (seed : Z) :
  (forall h1 h2,
     outcome (BA.simulate_posterior_difference a_c b_c a_t b_t n_draws seed h1)
     = outcome (BA.simulate_posterior_difference a_c b_c a_t b_t n_draws seed h2))
  /\ (forall h s h',
        BA.simulate_posterior_difference a_c b_c a_t b_t n_draws seed h = Ok (s, h') ->
        s = BA.summarize (control_draws a_c b_c n_draws seed)
              (treatment_draws a_c b_c a_t b_t n_draws seed)
        /\ exists rng, h !! rng = None
             /\ h' = <[rng := final_bitgen a_c b_c a_t b_t n_draws seed]> h
             /\ forall l, l <> rng -> h' !! l = h !! l)
  /\ (forall a_c' b_c' a_t' b_t' n_draws' seed' h s h',
        BA.simulate_posterior_difference a_c' b_c' a_t' b_t' n_draws' seed' h = Ok (s, h') ->
        outcome (BA.simulate_posterior_difference a_c b_c a_t b_t n_draws seed h')
        = outcome (BA.simulate_posterior_difference a_c b_c a_t b_t n_draws seed h)).
Proof.
  split; [| split].
  - intros h1 h2. rewrite !simulate_outcome. reflexivity.
  - intros h s h'. rewrite simulate_heap. unfold simulation.
    repeat (destruct (decide _); [discriminate |]). cbn.
    intros [= <- <-]. split; [reflexivity |].
    eexists. split; [| split; [reflexivity |]].
    + apply not_elem_of_dom, is_fresh.
    + intros l Hl. now apply lookup_insert_ne.
  - intros. rewrite !simulate_outcome. reflexivity.
Qed.

Lemma relative_lift_lookup (cs ts : list R) (i : nat) (c t : R) :
  0 <= c -> cs !! i = Some c -> ts !! i = Some t ->
  BA.relative_lift cs (BA.difference ts cs) !! i = Some (lift_of_draw c t).
Proof.
  intros Hc Hci Hti. unfold BA.relative_lift, BA.difference.
  rewrite lookup_zip_with, Hci. cbn.
  rewrite lookup_zip_with, Hti. cbn. rewrite Hci. cbn.
  unfold lift_of_draw.
  destruct (decide (c > 0)), (decide (c = 0)); try reflexivity; lra.
Qed.

Lemma not_nan_relative_lift (cs ts : list R) :
  Forall (fun c => 0 <= c) cs ->
  not_nan (BA.relative_lift cs (BA.difference ts cs)) = defined_lifts cs ts.
Proof.
  intros Hcs. revert ts.
  induction Hcs as [|c cs Hc _ IH]; intros ts; [now destruct ts |].
  destruct ts as [|t ts]; [reflexivity |].
  unfold not_nan, defined_lifts, BA.relative_lift, BA.difference in *.
  cbn. rewrite IH. unfold lift_of_draw.
  destruct (decide (c > 0)), (decide (c = 0)); try reflexivity; lra.
Qed.

Lemma length_difference (cs ts : list R) (n : nat) :
  length cs = n -> length ts = n -> length (BA.difference ts cs) = n.
Proof.
  intros Hc Ht. unfold BA.difference. rewrite length_zip_with. lia.
Qed.

Context `{!NumpyLaws}.

Lemma control_draws_length a_c b_c n_draws seed :
  length (control_draws a_c b_c n_draws seed) = n_draws.
Proof. apply beta_draws_length. Qed.

Lemma treatment_draws_length a_c b_c a_t b_t n_draws seed :
  length (treatment_draws a_c b_c a_t b_t n_draws seed) = n_draws.
Proof. apply beta_draws_length. Qed.

Lemma control_draws_nonneg a_c b_c n_draws seed :
  Forall (fun c => 0 <= c) (control_draws a_c b_c n_draws seed).
Proof.
  apply Forall_forall. intros c Hc%list_elem_of_In.
  now apply beta_draws_range in Hc.
Qed.

(** C7: in a call that returns, the relative lift of draw [i] is
    [difference_i / control_i] and is undefined exactly when the control
    sample of the draw is 0; the mean and the 2.5 and 97.5 percentiles of
    the relative lift are those of the defined lifts only, while the mean
    and the percentiles of the difference and the probability that
    treatment exceeds control are taken over all [n_draws] draws. *)
Theorem C7_lift_exclusion (a_c b_c a_t b_t : R) (n_draws : nat) (seed : Z)
    (h h' : gmap positive BitGen) (s : BA.PosteriorSummary) :
  BA.simulate_posterior_difference a_c b_c a_t b_t n_draws seed h = Ok (s, h') ->
  let cs := control_draws a_c b_c n_draws seed in
  let ts := treatment_draws a_c b_c a_t b_t n_draws seed in
  let diff := BA.difference ts cs in
  length cs = n_draws /\ length ts = n_draws /\ length diff = n_draws
  /\ (forall i c t, cs !! i = Some c -> ts !! i = Some t ->
        diff !! i = Some (t - c)
        /\ BA.relative_lift cs diff !! i = Some (lift_of_draw c t)
        /\ (lift_of_draw c t = None <-> c = 0)
        /\ (c <> 0 -> lift_of_draw c t = Some ((t - c) / c)))
  /\ BA.posterior_mean_rel_lift s = np_mean (defined_lifts cs ts)
  /\ BA.rel_lift_ci_low s = np_percentile (defined_lifts cs ts) 2.5
  /\ BA.rel_lift_ci_high s = np_percentile (defined_lifts cs ts) 97.5
  /\ BA.posterior_mean_diff s = np_mean diff
  /\ BA.diff_ci_low s = np_percentile diff 2.5
  /\ BA.diff_ci_high s = np_percentile diff 97.5
  /\ BA.prob_treatment_greater s = np_mean_gt ts cs.
Proof.
  intros Hrun cs ts diff.
  rewrite simulate_heap in Hrun. unfold simulation in Hrun.
  repeat (destruct (decide _) in Hrun; [discriminate |]).
  cbn in Hrun. injection Hrun as <- _.
  fold cs ts.
  assert (Hlc : length cs = n_draws) by apply control_draws_length.
  assert (Hlt : length ts = n_draws) by apply treatment_draws_length.
  assert (Hnn : Forall (fun c => 0 <= c) cs) by apply control_draws_nonneg.
  split; [exact Hlc |]. split; [exact Hlt |].
  split; [now apply length_difference |].
  split.
  { intros i c t Hci Hti.
    assert (Hc : 0 <= c) by (eapply Forall_lookup_1 in Hnn; eauto).
    split; [| split; [| split]].
    - unfold diff, BA.difference. rewrite lookup_zip_with, Hti. cbn.
      rewrite Hci. reflexivity.
    - now apply relative_lift_lookup.
    - unfold lift_of_draw. destruct (decide (c = 0)); split;
        intros; try discriminate; try reflexivity; try assumption; contradiction.
    - intros Hne. unfold lift_of_draw.
      destruct (decide (c = 0)); [contradiction | reflexivity]. }
  unfold BA.summarize. cbn.
  unfold np_nanmean, np_nanpercentile.
  fold diff. unfold diff. rewrite (not_nan_relative_lift cs ts Hnn).
  repeat split; reflexivity.
Qed.

End Sampler.

(** ** The seed of the Bayesian report *)

Section Seed.
Context `{Numpy}.

Lemma sampler_calls_seed (a_prior b_prior : R) (n_draws : nat)
    (agg : list BA.AggRow) (control : BA.AggRow) :
  Forall (fun c => BA.call_random_state c = BA.default_random_state
                   /\ BA.call_n_draws c = n_draws)
    (BA.sampler_calls a_prior b_prior n_draws agg control).
Proof.
  apply Forall_forall. intros c Hc. unfold BA.sampler_calls in Hc.
  apply list_elem_of_bind in Hc as (tr & Hc & _).
  apply list_elem_of_fmap in Hc as (m & -> & _).
  split; reflexivity.
Qed.

Lemma report_runs_calls (df : list Obs.RawObservation) (name : string)
    (a_prior b_prior : R) (n_draws : nat) :
  "control"%string ∈ (BA.variant <$> BA.aggregate_for_experiment df name) ->
  BA.run_bayesian_experiment_analysis_from_user_level df name a_prior b_prior n_draws
  = py_mapM (BA.run_call name a_prior b_prior)
      (report_calls df name a_prior b_prior n_draws).
Proof.
  intros Hin. unfold BA.run_bayesian_experiment_analysis_from_user_level, report_calls.
  cbv zeta. destruct (decide (_ ∈ _)); [| contradiction].
  destruct (filter _ (BA.aggregate_for_experiment df name)) as [|control rest] eqn:Hf;
    [| reflexivity].
  apply list_elem_of_fmap in Hin as (row & Hv & Hrow).
  assert (Hr : row ∈ filter (fun r => BA.variant r = "control"%string)
                 (BA.aggregate_for_experiment df name))
    by (apply list_elem_of_filter; split; [now symmetry | assumption]).
  rewrite Hf in Hr. inversion Hr.
Qed.

(** C9 (amended): the seed is an argument of
    [simulate_posterior_difference] with default 42; the report builder
    takes no seed, and every simulation of a report is called with the
    default seed and with the builder's draw count; with a control row
    present the report is exactly the run of those calls in order. *)
Theorem C9_seed_is_default (df : list Obs.RawObservation) (name : string)
    (a_prior b_prior : R) (n_draws : nat) :
  BA.default_random_state = 42%Z
  /\ Forall (fun c => BA.call_random_state c = BA.default_random_state
                      /\ BA.call_n_draws c = n_draws)
       (report_calls df name a_prior b_prior n_draws)
  /\ ("control"%string ∈ (BA.variant <$> BA.aggregate_for_experiment df name) ->
      BA.run_bayesian_experiment_analysis_from_user_level df name a_prior b_prior n_draws
      = py_mapM
          (fun c =>
             py_bind
               (BA.simulate_posterior_difference (BA.call_a_c c) (BA.call_b_c c)
                  (BA.call_a_t c) (BA.call_b_t c) (BA.call_n_draws c)
                  (BA.call_random_state c))
               (fun summary =>
                  py_ret (BA.Build_BayesRow name (BA.call_variant c) (BA.call_metric c)
                            a_prior b_prior summary)))
          (report_calls df name a_prior b_prior n_draws)).
Proof.
  split; [reflexivity |]. split.
  - unfold report_calls. cbv zeta.
    destruct (filter _ (BA.aggregate_for_experiment df name)); [constructor |].
    apply sampler_calls_seed.
  - intros Hin. now rewrite report_runs_calls.
Qed.

End Seed.

(** C9 as stated fails: on a cohort with a control and a treatment arm the
    three simulations of the report use seed 42 under every configuration,
    so no configuration makes them use seed 7. *)
Lemma C9_counterexample : ~ seed_is_configurable silent_control "homepage_cta_test".
Proof.
  intros Hconf. destruct (Hconf 7%Z) as (a_prior & b_prior & n_draws & Hne & Hall).
  assert (Hseeds : BA.call_random_state
                     <$> report_calls silent_control "homepage_cta_test"
                           a_prior b_prior n_draws = [42; 42; 42]%Z)
    by reflexivity.
  destruct (report_calls silent_control "homepage_cta_test" a_prior b_prior n_draws)
    as [|c calls]; [discriminate |].
  apply Forall_cons in Hall as [Hc _]. injection Hseeds as Hs _.
  rewrite Hc in Hs. discriminate.
Qed.

(** ** The standard normal distribution function *)

Lemma exp_taylor_0 n : exp_taylor n 0 = 1.
Proof.
  induction n as [|n IH]; simpl; [reflexivity |]. rewrite IH. ring.
Qed.

Lemma deriv_monomial (c : R) (n : nat) (x : R) :
  derivable_pt_lim (fun y => c * y ^ S n) x (c * (INR (S n) * x ^ n)).
Proof.
  apply (derivable_pt_lim_scal (fun y => y ^ S n) c x).
  apply (derivable_pt_lim_pow x (S n)).
Qed.

Lemma exp_coeff_S (k : nat) : exp_coeff (S k) * INR (S k) = - exp_coeff k.
Proof.
  change (exp_coeff (S k)) with (- exp_coeff k / INR (S k)).
  field. apply not_0_INR. lia.
Qed.

Lemma deriv_exp_taylor (n : nat) (u : R) :
  derivable_pt_lim (exp_taylor (S n)) u (- exp_taylor n u).
Proof.
  induction n as [|n IH].
  - replace (- exp_taylor 0 u) with (0 + exp_coeff 1 * (INR 1 * u ^ 0))
      by (simpl; field).
    apply (derivable_pt_lim_plus (fun _ => 1) (fun y => exp_coeff 1 * y ^ 1)).
    + apply derivable_pt_lim_const.
    + apply deriv_monomial.
  - replace (- exp_taylor (S n) u)
      with (- exp_taylor n u + exp_coeff (S (S n)) * (INR (S (S n)) * u ^ S n)).
    + apply (derivable_pt_lim_plus (exp_taylor (S n))
               (fun y => exp_coeff (S (S n)) * y ^ S (S n))).
      * exact IH.
      * apply deriv_monomial.
    + rewrite <- Rmult_assoc, exp_coeff_S.
      change (exp_taylor (S n) u) with (exp_taylor n u + exp_coeff (S n) * u ^ S n).
      ring.
Qed.

Lemma deriv_exp_opp (u : R) : derivable_pt_lim (fun y => exp (- y)) u (- exp (- u)).
Proof.
  replace (- exp (- u)) with (exp (- u) * -1) by ring.
  apply (derivable_pt_lim_comp (fun y => - y) exp).
  - apply (derivable_pt_lim_opp id). apply derivable_pt_lim_id.
  - apply derivable_pt_lim_exp.
Qed.

Lemma exp_opp_le_1 (u : R) : 0 <= u -> exp (- u) <= 1.
Proof.
  intros Hu. rewrite <- exp_0.
  destruct (Req_dec u 0) as [->|Hne].
  - rewrite Ropp_0. lra.
  - left. apply exp_increasing. lra.
Qed.

(** The partial sums of the series alternate around [exp (- u)]. *)
Lemma exp_taylor_alternates (n : nat) (u : R) :
  0 <= u -> 0 <= (-1) ^ n * (exp_taylor n u - exp (- u)).
Proof.
  revert u. induction n as [|n IH]; intros u Hu.
  - simpl. pose proof (exp_opp_le_1 u Hu). lra.
  - destruct (Req_dec u 0) as [->|Hne].
    { rewrite exp_taylor_0, Ropp_0, exp_0. lra. }
    destruct (MVT_cor2 (fun y => exp_taylor (S n) y - exp (- y))
                (fun y => - exp_taylor n y - - exp (- y)) 0 u) as (c & Hc & Hin);
      [lra | |].
    { intros c _.
      apply (derivable_pt_lim_minus (exp_taylor (S n)) (fun y => exp (- y))).
      - apply deriv_exp_taylor.
      - apply deriv_exp_opp. }
    rewrite exp_taylor_0, Ropp_0, exp_0 in Hc.
    replace (exp_taylor (S n) u - exp (- u))
      with ((- exp_taylor n c - - exp (- c)) * (u - 0)) by lra.
    specialize (IH c ltac:(lra)).
    replace ((-1) ^ S n * ((- exp_taylor n c - - exp (- c)) * (u - 0)))
      with ((-1) ^ n * (exp_taylor n c - exp (- c)) * u) by (simpl; ring).
    apply Rmult_le_pos; lra.
Qed.

Lemma gauss_taylor_0 n : gauss_taylor n 0 = 0.
Proof.
  induction n as [|n IH]; [reflexivity |].
  change (gauss_taylor (S n) 0)
    with (gauss_taylor n 0
          + exp_coeff (S n) / (2 ^ S n * INR (S (2 * S n))) * 0 ^ S (2 * S n)).
  rewrite IH, pow_i by lia. ring.
Qed.

Lemma deriv_gauss_taylor (n : nat) (x : R) :
  derivable_pt_lim (gauss_taylor n) x (exp_taylor n (x ^ 2 / 2)).
Proof.
  induction n as [|n IH].
  - apply derivable_pt_lim_id.
  - change (exp_taylor (S n) (x ^ 2 / 2))
      with (exp_taylor n (x ^ 2 / 2) + exp_coeff (S n) * (x ^ 2 / 2) ^ S n).
    replace (exp_coeff (S n) * (x ^ 2 / 2) ^ S n)
      with (exp_coeff (S n) / (2 ^ S n * INR (S (2 * S n)))
            * (INR (S (2 * S n)) * x ^ (2 * S n))).
    + apply (derivable_pt_lim_plus (gauss_taylor n)
               (fun y => exp_coeff (S n) / (2 ^ S n * INR (S (2 * S n)))
                         * y ^ S (2 * S n))).
      * exact IH.
      * apply deriv_monomial.
    + rewrite pow_mult.
      replace (x ^ 2 / 2) with (x ^ 2 * / 2) by reflexivity.
      rewrite Rpow_mult_distr, pow_inv.
      field. split; [apply pow_nonzero; lra | apply not_0_INR; lia].
Qed.

Section NormalBounds.
Context `{NormalCdf}.

Lemma sqrt_2PI_pos : 0 < sqrt (2 * PI).
Proof. apply sqrt_lt_R0. pose proof PI_RGT_0. lra. Qed.

Lemma gauss_taylor_alternates (n : nat) (x : R) :
  0 <= x ->
  0 <= (-1) ^ n * (gauss_taylor n x - sqrt (2 * PI) * (norm_cdf x - 1 / 2)).
Proof.
  intros Hx. destruct (Req_dec x 0) as [->|Hne].
  { rewrite gauss_taylor_0, norm_cdf_0. lra. }
  destruct (MVT_cor2
              (fun y => gauss_taylor n y - sqrt (2 * PI) * (norm_cdf y - 1 / 2))
              (fun y => exp_taylor n (y ^ 2 / 2)
                        - sqrt (2 * PI) * (std_normal_pdf y - 0)) 0 x)
    as (c & Hc & Hin); [lra | |].
  { intros c _.
    apply (derivable_pt_lim_minus (gauss_taylor n)
             (fun y => sqrt (2 * PI) * (norm_cdf y - 1 / 2))).
    - apply deriv_gauss_taylor.
    - apply (derivable_pt_lim_scal (fun y => norm_cdf y - 1 / 2)).
      apply (derivable_pt_lim_minus norm_cdf (fun _ => 1 / 2)).
      + apply norm_cdf_pdf.
      + apply derivable_pt_lim_const. }
  rewrite gauss_taylor_0, norm_cdf_0 in Hc.
  replace (gauss_taylor n x - sqrt (2 * PI) * (norm_cdf x - 1 / 2))
    with ((exp_taylor n (c ^ 2 / 2)
           - sqrt (2 * PI) * (std_normal_pdf c - 0)) * (x - 0)) by lra.
  replace (sqrt (2 * PI) * (std_normal_pdf c - 0)) with (exp (- (c ^ 2 / 2))).
  2:{ unfold std_normal_pdf. field. apply Rgt_not_eq, sqrt_2PI_pos. }
  pose proof (exp_taylor_alternates n (c ^ 2 / 2)) as Halt.
  assert (0 <= c ^ 2 / 2) by (pose proof (pow2_ge_0 c); lra).
  specialize (Halt ltac:(assumption)).
  replace ((-1) ^ n * ((exp_taylor n (c ^ 2 / 2) - exp (- (c ^ 2 / 2))) * (x - 0)))
    with ((-1) ^ n * (exp_taylor n (c ^ 2 / 2) - exp (- (c ^ 2 / 2))) * x) by ring.
  apply Rmult_le_pos; lra.
Qed.

Lemma std_normal_pdf_pos (x : R) : 0 < std_normal_pdf x.
Proof.
  unfold std_normal_pdf. apply Rdiv_lt_0_compat; [apply exp_pos | apply sqrt_2PI_pos].
Qed.

Lemma norm_cdf_increasing (x y : R) : x <= y -> norm_cdf x <= norm_cdf y.
Proof.
  intros [Hlt | Heq]; [| subst; lra].
  destruct (MVT_cor2 norm_cdf std_normal_pdf x y Hlt) as (c & Hc & _).
  { intros c _. apply norm_cdf_pdf. }
  pose proof (std_normal_pdf_pos c).
  assert (0 < std_normal_pdf c * (y - x)) by (apply Rmult_lt_0_compat; lra).
  lra.
Qed.
End NormalBounds.

Lemma PI_bounds : 3.141592 < PI < 3.141593.
Proof.
  pose proof (PI_2_3_7_ineq 3) as [Hlo Hhi].
  unfold PI_2_3_7_tg, tg_alt, Ratan_seq in Hlo, Hhi.
  simpl in Hlo, Hhi. lra.
Qed.

Lemma sqrt_lt_bound (r b : R) : 0 <= r -> 0 < b -> r < b * b -> sqrt r < b.
Proof.
  intros Hr Hb Hlt. rewrite <- (sqrt_square b) by lra.
  apply sqrt_lt_1; nra.
Qed.

Lemma sqrt_gt_bound (r b : R) : 0 <= b -> b * b < r -> b < sqrt r.
Proof.
  intros Hb Hlt. rewrite <- (sqrt_square b) at 1 by lra.
  apply sqrt_lt_1; nra.
Qed.

Lemma sqrt_2PI_bounds : 2.506628 < sqrt (2 * PI) < 2.506629.
Proof.
  pose proof PI_bounds. split.
  - apply sqrt_gt_bound; lra.
  - apply sqrt_lt_bound; lra.
Qed.

Lemma gauss_taylor_11_low : 1.208829 < gauss_taylor 11 2.10274.
Proof. unfold gauss_taylor, exp_coeff. simpl. lra. Qed.

Lemma gauss_taylor_12_high : gauss_taylor 12 2.10275 < 1.208844.
Proof. unfold gauss_taylor, exp_coeff. simpl. lra. Qed.

Lemma std_normal_pdf_continuity : continuity std_normal_pdf.
Proof.
  apply derivable_continuous. unfold std_normal_pdf. reg.
Qed.

Lemma std_normal_pdf_integrable (a b : R) : Riemann_integrable std_normal_pdf a b.
Proof.
  destruct (Rle_dec a b) as [Hab|Hab].
  - apply continuity_implies_RiemannInt; [exact Hab |].
    intros x _. apply std_normal_pdf_continuity.
  - apply RiemannInt_P1, continuity_implies_RiemannInt; [lra |].
    intros x _. apply std_normal_pdf_continuity.
Qed.

(** The standard normal distribution function. *)
Definition Phi (x : R) : R := 1 / 2 + RiemannInt (std_normal_pdf_integrable 0 x).

Lemma Phi_0 : Phi 0 = 1 / 2.
Proof. unfold Phi. rewrite RiemannInt_P9. lra. Qed.

Lemma Phi_pdf (x : R) : derivable_pt_lim Phi x (std_normal_pdf x).
Proof.
  set (a := Rmin x 0 - 1). set (b := Rmax x 0 + 1).
  assert (Ha : a < x /\ a < 0).
  { unfold a. pose proof (Rmin_l x 0). pose proof (Rmin_r x 0). lra. }
  assert (Hb : x < b /\ 0 < b).
  { unfold b. pose proof (Rmax_l x 0). pose proof (Rmax_r x 0). lra. }
  assert (Hab : a <= b) by lra.
  assert (C0 : forall y, a <= y <= b -> continuity_pt std_normal_pdf y)
    by (intros y _; apply std_normal_pdf_continuity).
  pose proof (@RiemannInt_P28 std_normal_pdf a b x Hab C0 ltac:(lra)) as Hprim.
  apply (derivable_pt_lim_locally_ext
           (fun y => primitive Hab (FTC_P1 Hab C0) y
                     + (1 / 2 - RiemannInt (std_normal_pdf_integrable a 0)))
           Phi x a b); [lra | |].
  - intros y Hy. unfold Phi, primitive.
    destruct (Rle_dec a y) as [Hay|Hay]; [| lra].
    destruct (Rle_dec y b) as [Hyb|Hyb]; [| lra].
    rewrite <- (RiemannInt_P26 (std_normal_pdf_integrable a 0)
                  (std_normal_pdf_integrable 0 y) (FTC_P1 Hab C0 Hay Hyb)).
    ring.
  - replace (std_normal_pdf x) with (std_normal_pdf x + 0) by ring.
    apply (derivable_pt_lim_plus (primitive Hab (FTC_P1 Hab C0)) (fun _ => _)).
    + exact Hprim.
    + apply derivable_pt_lim_const.
Qed.

(** ** Instances for the examples *)

(** The interface instantiated for the examples: the normal distribution
    function is [Phi]; Student's distribution function is replaced by its
    limit at large degrees of freedom, which no example depends on. *)
Definition reference_stats : ScipyStats :=
  {| norm_cdf := Phi; t_cdf := fun x _ => Phi x |}.

#[local] Instance reference_normal : @NormalCdf reference_stats.
Proof. split; [exact Phi_0 | exact Phi_pdf]. Qed.

Lemma lcg_next_range (g : Z) : (0 <= lcg_next g < lcg_modulus)%Z.
Proof. unfold lcg_next. apply Z.mod_pos_bound. reflexivity. Qed.

Lemma lcg_draws_length (g : Z) (size : nat) : length (lcg_draws g size).1 = size.
Proof.
  revert g. induction size as [|size IH]; intros g; simpl; [reflexivity |].
  specialize (IH (lcg_next g)). destruct (lcg_draws (lcg_next g) size). simpl in *.
  congruence.
Qed.

Lemma lcg_draws_range (g : Z) (size : nat) (x : R) :
  In x (lcg_draws g size).1 -> 0 <= x <= 1.
Proof.
  revert g. induction size as [|size IH]; intros g; simpl; [tauto |].
  specialize (IH (lcg_next g)). destruct (lcg_draws (lcg_next g) size). simpl in *.
  intros [<-|Hin]; [| now apply IH].
  pose proof (lcg_next_range g) as [Hlo Hhi].
  apply IZR_le in Hlo. apply IZR_lt in Hhi.
  assert (Hm : 0 < IZR lcg_modulus) by (apply IZR_lt; reflexivity).
  split.
  - apply Rmult_le_pos; [exact Hlo |]. left. now apply Rinv_0_lt_compat.
  - apply (Rmult_le_reg_r (IZR lcg_modulus)); [exact Hm |].
    unfold Rdiv. rewrite Rmult_assoc, Rinv_l by lra. lra.
Qed.

#[local] Instance lcg_laws : @NumpyLaws lcg_numpy.
Proof.
  split.
  - intros g a b size. apply lcg_draws_length.
  - intros g a b size x. apply lcg_draws_range.
Qed.

(** ** A report computed by hand *)

Section SinglePair.
Context `{ScipyStats}.

Lemma single_pair_aggregate :
  EA.aggregate_for_experiment single_pair "homepage_cta_test"
  = [single_control; single_treatment].
Proof. reflexivity. Qed.

Lemma ztest_one_of_two :
  EA.two_proportion_ztest 1 0 1 1
  = Ok (Some (z_stat 1 0 1 1, 2 * (1 - norm_cdf (Rabs (z_stat 1 0 1 1))))).
Proof.
  assert (Hp : pooled_of 1 0 1 1 = 1 / 2) by (unfold pooled_of; lra).
  rewrite ztest_unfold; [| lra | lra | lra | rewrite Hp; lra].
  destruct (decide (pooled_of 1 0 1 1 = 0 \/ pooled_of 1 0 1 1 = 1)) as [[Hq|Hq]|_];
    [rewrite Hp in Hq; lra.. |].
  destruct (decide (z_se 1 0 1 1 = 0)) as [Hse|_]; [| reflexivity].
  pose proof (z_se_pos 1 0 1 1) as Hpos. rewrite Hp in Hpos. lra.
Qed.

Lemma ztest_none_of_two : EA.two_proportion_ztest 1 0 1 0 = Ok None.
Proof.
  assert (Hp : pooled_of 1 0 1 0 = 0) by (unfold pooled_of; lra).
  rewrite ztest_unfold; [| lra | lra | lra | rewrite Hp; lra].
  destruct (decide (pooled_of 1 0 1 0 = 0 \/ pooled_of 1 0 1 0 = 1)) as [_|Hq];
    [reflexivity | tauto].
Qed.

Lemma single_pair_rows :
  EA.variant_rows "homepage_cta_test" single_control single_treatment
  = Ok [single_pair_row].
Proof.
  unfold EA.variant_rows, EA.proportion_metrics, EA.mean_row.
  rewrite ttest_small_sample by (left; simpl; lra).
  cbn [mapM]. unfold EA.proportion_row. cbv zeta. cbn [fst snd].
  change (INR (EA.users single_control)) with 1.
  change (INR (EA.users single_treatment)) with 1.
  change (IZR (EA.activations single_control)) with 0.
  change (IZR (EA.activations single_treatment)) with 1.
  change (IZR (EA.conversions single_control)) with 0.
  change (IZR (EA.conversions single_treatment)) with 0.
  change (IZR (EA.new_bookings single_control)) with 0.
  change (IZR (EA.new_bookings single_treatment)) with 0.
  rewrite ztest_one_of_two, ztest_none_of_two.
  reflexivity.
Qed.

Lemma single_pair_report :
  EA.run_experiment_analysis_from_user_level single_pair "homepage_cta_test"
  = Ok [single_pair_row].
Proof.
  unfold EA.run_experiment_analysis_from_user_level. cbv zeta.
  rewrite single_pair_aggregate.
  destruct (decide (_ ∈ _)) as [_|Hn]; [| exfalso; apply Hn; left].
  replace (filter (fun r => EA.variant r = "control"%string)
             [single_control; single_treatment]) with [single_control]
    by reflexivity.
  replace (filter (fun r => EA.variant r <> "control"%string)
             [single_control; single_treatment]) with [single_treatment]
    by reflexivity.
  cbn [mapM]. rewrite single_pair_rows. reflexivity.
Qed.

End SinglePair.

(** ** The closed form of the z-test and its value on the worked example *)

Section ClosedForm.
Context `{NormalCdf}.

Lemma ztest_closed_form (n1 x1 n2 x2 : R) :
  0 < n1 -> 0 < n2 -> 0 < pooled_of n1 x1 n2 x2 < 1 ->
  EA.two_proportion_ztest n1 x1 n2 x2
  = Ok (Some (z_stat n1 x1 n2 x2, 2 * (1 - norm_cdf (Rabs (z_stat n1 x1 n2 x2))))).
Proof.
  intros Hn1 Hn2 Hp.
  rewrite ztest_unfold; [| lra | lra | lra | apply radicand_nonneg; lra].
  destruct (decide (pooled_of n1 x1 n2 x2 = 0 \/ pooled_of n1 x1 n2 x2 = 1))
    as [[Hq|Hq]|_]; [lra.. |].
  pose proof (z_se_pos n1 x1 n2 x2 Hn1 Hn2 Hp).
  destruct (decide (z_se n1 x1 n2 x2 = 0)); [lra | reflexivity].
Qed.

Lemma example_pooled : pooled_of 1000 100 1000 130 = 0.115.
Proof. unfold pooled_of. lra. Qed.

Lemma example_se : 0.014267095 < z_se 1000 100 1000 130 < 0.014267096.
Proof.
  unfold z_se. rewrite example_pooled. split.
  - apply sqrt_gt_bound; lra.
  - apply sqrt_lt_bound; lra.
Qed.

Lemma example_z : 2.10274 < z_stat 1000 100 1000 130 < 2.10275.
Proof.
  pose proof example_se as [Hlo Hhi]. unfold z_stat.
  set (se := z_se 1000 100 1000 130) in *.
  replace (130 / 1000 - 100 / 1000) with 0.03 by lra.
  split.
  - apply (Rmult_lt_reg_r se); [lra |].
    unfold Rdiv. rewrite Rmult_assoc, Rinv_l by lra. lra.
  - apply (Rmult_lt_reg_r se); [lra |].
    unfold Rdiv. rewrite Rmult_assoc, Rinv_l by lra. lra.
Qed.

Lemma norm_cdf_near_example (x : R) :
  2.10274 <= x <= 2.10275 -> 0.98225 < norm_cdf x < 0.98226.
Proof.
  intros [Hlo Hhi].
  pose proof (norm_cdf_increasing 2.10274 x Hlo) as Hmono_lo.
  pose proof (norm_cdf_increasing x 2.10275 Hhi) as Hmono_hi.
  pose proof (gauss_taylor_alternates 11 2.10274 ltac:(lra)) as Hodd.
  pose proof (gauss_taylor_alternates 12 2.10275 ltac:(lra)) as Heven.
  replace ((-1) ^ 11) with (-1) in Hodd by (simpl; ring).
  replace ((-1) ^ 12) with 1 in Heven by (simpl; ring).
  pose proof gauss_taylor_11_low. pose proof gauss_taylor_12_high.
  pose proof sqrt_2PI_bounds as [Hslo Hshi].
  set (s := sqrt (2 * PI)) in *.
  set (glo := norm_cdf 2.10274) in *. set (ghi := norm_cdf 2.10275) in *.
  split; nra.
Qed.

(** The statistic and the p-value of the worked example. *)
Lemma example_values :
  exists z p,
    EA.two_proportion_ztest 1000 100 1000 130 = Ok (Some (z, p))
    /\ 2.10274 < z < 2.10275 /\ 0.03548 < p < 0.0355.
Proof.
  pose proof example_z as Hz.
  eexists _, _. split.
  { apply ztest_closed_form; [lra | lra | rewrite example_pooled; lra]. }
  split; [exact Hz |].
  rewrite Rabs_pos_eq by lra.
  pose proof (norm_cdf_near_example (z_stat 1000 100 1000 130) ltac:(lra)).
  lra.
Qed.

(** C2 (amended): for [n1, n2 > 0], a pooled proportion strictly between
    0 and 1 and a non-zero standard error, the z-test returns the
    statistic [(x2/n2 - x1/n1) / sqrt (pooled (1 - pooled) (1/n1 + 1/n2))]
    and the two-sided p-value [2 (1 - Phi |z|)] of the standard normal
    distribution function; at (1000, 100, 1000, 130) the pooled
    proportion is 0.115, the statistic lies between 2.10274 and 2.10275
    (2.103 to three decimals) and the p-value between 0.03548 and 0.0355
    (0.0355 to four decimals). *)
Theorem C2_two_proportion_closed_form (n1 x1 n2 x2 : R) :
  0 < n1 -> 0 < n2 -> 0 < pooled_of n1 x1 n2 x2 < 1 -> z_se n1 x1 n2 x2 <> 0 ->
  EA.two_proportion_ztest n1 x1 n2 x2
    = Ok (Some (z_stat n1 x1 n2 x2, 2 * (1 - norm_cdf (Rabs (z_stat n1 x1 n2 x2)))))
  /\ z_stat n1 x1 n2 x2
     = (x2 / n2 - x1 / n1)
       / sqrt ((x1 + x2) / (n1 + n2) * (1 - (x1 + x2) / (n1 + n2)) * (1 / n1 + 1 / n2))
  /\ pooled_of 1000 100 1000 130 = 0.115
  /\ exists z p,
       EA.two_proportion_ztest 1000 100 1000 130 = Ok (Some (z, p))
       /\ 2.10274 < z < 2.10275 /\ agrees_to z 2.103 3
       /\ 0.03548 < p < 0.0355 /\ agrees_to p 0.0355 4.
Proof.
  intros Hn1 Hn2 Hp _. split; [now apply ztest_closed_form |].
  split; [reflexivity |]. split; [apply example_pooled |].
  destruct example_values as (z & p & Htest & Hz & Hpz).
  exists z, p. split; [exact Htest |]. split; [exact Hz |]. split.
  { unfold agrees_to. apply Rabs_le. simpl. lra. }
  split; [exact Hpz |].
  unfold agrees_to. apply Rabs_le. simpl. lra.
Qed.

End ClosedForm.

(** ** The theorems at concrete inputs *)

Lemma C1_missing_control_witness :
  EA.variant <$> EA.aggregate_for_experiment treatment_only "homepage_cta_test"
    = ["treatment"%string]
  /\ @EA.run_experiment_analysis_from_user_level reference_stats
       treatment_only "homepage_cta_test" = Raise EA.no_control
  /\ @BA.run_bayesian_experiment_analysis_from_user_level lcg_numpy
       treatment_only "homepage_cta_test" 1 1 BA.default_n_draws ∅
     = Raise BA.no_control.
Proof.
  assert (Hno : "control"%string
                ∉ (Obs.variant <$> filter (clean "homepage_cta_test") treatment_only)).
  { vm_compute. intros Hin. apply list_elem_of_In in Hin. simpl in Hin.
    destruct Hin as [Heq|[Heq|[]]]; discriminate Heq. }
  destruct (@C1_missing_control reference_stats lcg_numpy treatment_only
              "homepage_cta_test" Hno) as (_ & _ & Hfreq & Hbayes).
  split; [reflexivity |]. split; [exact Hfreq | apply Hbayes].
Defined.

Lemma C3_two_proportion_undefined_iff_witness :
  exists r, @EA.two_proportion_ztest reference_stats 1000 100 1000 130 = Ok r
    /\ (r = None <->
          1000 = 0 \/ 1000 = 0 \/ pooled_of 1000 100 1000 130 = 0
          \/ pooled_of 1000 100 1000 130 = 1 \/ z_se 1000 100 1000 130 = 0).
Proof.
  destruct (@C3_two_proportion_undefined_iff reference_stats 1000 100 1000 130)
    as (r & Hr & Hiff & _); [lra | lra |].
  exists r. split; [exact Hr | exact Hiff].
Defined.

Lemma C8_aggregate_invariant_witness :
  binary_indicators "homepage_cta_test" silent_control
  /\ one_row_per_user "homepage_cta_test" silent_control
  /\ Forall freq_row_invariant
       (EA.aggregate_for_experiment silent_control "homepage_cta_test").
Proof.
  assert (Hbin : binary_indicators "homepage_cta_test" silent_control).
  { intros r Hr. apply list_elem_of_In in Hr. vm_compute in Hr.
    destruct Hr as [<-|[<-|[<-|[<-|[]]]]]; vm_compute; tauto. }
  assert (Hone : one_row_per_user "homepage_cta_test" silent_control).
  { unfold one_row_per_user. apply (bool_decide_unpack (NoDup _)). vm_compute. exact I. }
  split; [exact Hbin |]. split; [exact Hone |].
  apply Forall_forall. intros row Hrow.
  destruct (C8_aggregate_invariant silent_control "homepage_cta_test" Hbin Hone)
    as (_ & _ & Hfreq & _).
  apply Hfreq. exact Hrow.
Defined.

Lemma C7_lift_exclusion_witness :
  exists s h',
    @BA.simulate_posterior_difference lcg_numpy 1 1 1 1 3 42 ∅ = Ok (s, h')
    /\ BA.posterior_mean_rel_lift s
        = np_mean (defined_lifts (@control_draws lcg_numpy 1 1 3 42)
                     (@treatment_draws lcg_numpy 1 1 1 1 3 42))
    /\ BA.posterior_mean_diff s
        = np_mean (BA.difference (@treatment_draws lcg_numpy 1 1 1 1 3 42)
                     (@control_draws lcg_numpy 1 1 3 42)).
Proof.
  pose proof (@simulate_returns lcg_numpy 1 1 1 1 3 42 ∅
                ltac:(lia) ltac:(lra) ltac:(lra) ltac:(lra) ltac:(lra)) as Hrun.
  eexists _, _. split; [exact Hrun |].
  destruct (@C7_lift_exclusion lcg_numpy lcg_laws 1 1 1 1 3 42 _ _ _ Hrun)
    as (_ & _ & _ & _ & Hlift & _ & _ & Hdiff & _).
  split; [exact Hlift | exact Hdiff].
Defined.

Lemma C10_zero_control_lift_witness :
  @EA.run_experiment_analysis_from_user_level reference_stats
    single_pair "homepage_cta_test" = Ok [@single_pair_row reference_stats]
  /\ exists control tr m,
       EA.variant control = "control"%string
       /\ "treatment"%string = EA.variant tr
       /\ "activation_rate"%string = m.1
       /\ Some (0 / 1) = Some (IZR (m.2 control) / INR (EA.users control))
       /\ Some (1 / 1) = Some (IZR (m.2 tr) / INR (EA.users tr)).
Proof.
  split; [apply single_pair_report |].
  destruct (@C10_zero_control_lift reference_stats single_pair "homepage_cta_test"
              [@single_pair_row reference_stats] (@single_pair_row reference_stats)
              single_pair_report)
    as (control & tr & m & _ & Hcv & _ & Htv & _ & Hm & _ & Hcr & Htr & _);
    [left |].
  exists control, tr, m. repeat (split; [assumption |]). exact Htr.
Defined.

Lemma C2_two_proportion_closed_form_witness :
  0 < pooled_of 1000 100 1000 130 < 1
  /\ @EA.two_proportion_ztest reference_stats 1000 100 1000 130
     = Ok (Some (z_stat 1000 100 1000 130,
                 2 * (1 - Phi (Rabs (z_stat 1000 100 1000 130))))).
Proof.
  assert (Hp : 0 < pooled_of 1000 100 1000 130 < 1)
    by (unfold pooled_of; lra).
  split; [exact Hp |].
  apply (@C2_two_proportion_closed_form reference_stats reference_normal
           1000 100 1000 130); [lra | lra | exact Hp |].
  apply Rgt_not_eq, z_se_pos; [lra | lra | exact Hp].
Defined.

(** C2 as stated fails on its worked example: the statistic the code
    returns there is not 2.104 to three decimals and its p-value is not
    0.0354 to four. *)
Lemma C2_counterexample :
  exists z p,
    @EA.two_proportion_ztest reference_stats 1000 100 1000 130 = Ok (Some (z, p))
    /\ ~ agrees_to z 2.104 3 /\ ~ agrees_to p 0.0354 4.
Proof.
  destruct (@example_values reference_stats reference_normal)
    as (z & p & Htest & Hz & Hp).
  exists z, p. split; [exact Htest |]. unfold agrees_to. split.
  - intros Habs. pose proof (Rle_abs (- (z - 2.104))) as Hle.
    rewrite Rabs_Ropp in Hle. simpl in Habs. lra.
  - intros Habs. pose proof (Rle_abs (p - 0.0354)) as Hle.
    simpl in Habs. lra.
Qed.

(** * Further properties of the two modules *)

(** ** The two tests on every input *)

Lemma py_div_zero (x y : R) : y = 0 -> py_div x y = Raise ZeroDivisionError.
Proof. intros Hy. unfold py_div. destruct (decide (y = 0)); [reflexivity | contradiction]. Qed.

Lemma math_sqrt_negative (x : R) :
  x < 0 -> math_sqrt x = Raise (ValueError "math domain error").
Proof. intros Hx. unfold math_sqrt. destruct (decide (x < 0)); [reflexivity | contradiction]. Qed.

Section TestsMore.
Context `{ScipyStats}.

(** The z-test on every input, exceptions included. *)
Lemma ztest_cases (n1 x1 n2 x2 : R) :
  EA.two_proportion_ztest n1 x1 n2 x2 =
    if decide (n1 = 0 \/ n2 = 0) then Ok None
    else if decide (n1 + n2 = 0) then Raise ZeroDivisionError
    else if decide (pooled_of n1 x1 n2 x2 = 0 \/ pooled_of n1 x1 n2 x2 = 1) then Ok None
    else if decide (z_radicand n1 x1 n2 x2 < 0)
         then Raise (ValueError "math domain error")
    else if decide (z_se n1 x1 n2 x2 = 0) then Ok None
    else Ok (Some (z_stat n1 x1 n2 x2,
                   2 * (1 - norm_cdf (Rabs (z_stat n1 x1 n2 x2))))).
Proof.
  unfold EA.two_proportion_ztest.
  destruct (decide (n1 = 0 \/ n2 = 0)) as [|Hn]; [reflexivity |].
  assert (Hn1 : n1 <> 0) by tauto. assert (Hn2 : n2 <> 0) by tauto.
  rewrite (py_div_ok x1 n1), (py_div_ok x2 n2), !bind_Ok by assumption.
  destruct (decide (n1 + n2 = 0)) as [H12|H12];
    [rewrite (py_div_zero _ _ H12); reflexivity |].
  rewrite (py_div_ok _ _ H12), bind_Ok. fold (pooled_of n1 x1 n2 x2).
  destruct (decide (pooled_of n1 x1 n2 x2 = 0 \/ pooled_of n1 x1 n2 x2 = 1));
    [reflexivity |].
  rewrite (py_div_ok 1 n1), (py_div_ok 1 n2), !bind_Ok by assumption.
  fold (z_radicand n1 x1 n2 x2).
  destruct (decide (z_radicand n1 x1 n2 x2 < 0)) as [Hneg|Hneg];
    [rewrite (math_sqrt_negative _ Hneg); reflexivity |].
  rewrite math_sqrt_ok, bind_Ok by lra. change (sqrt (z_radicand n1 x1 n2 x2)) with (z_se n1 x1 n2 x2).
  destruct (decide (z_se n1 x1 n2 x2 = 0)) as [|Hse]; [reflexivity |].
  rewrite (py_div_ok _ _ Hse), bind_Ok. reflexivity.
Qed.

Lemma z_radicand_zero (n1 x1 n2 x2 : R) :
  pooled_of n1 x1 n2 x2 = 0 \/ pooled_of n1 x1 n2 x2 = 1 ->
  z_radicand n1 x1 n2 x2 = 0.
Proof. unfold z_radicand. intros [-> | ->]; ring. Qed.

(** With positive sizes the radicand is negative exactly when the pooled
    proportion leaves the unit interval. *)
Lemma z_radicand_negative (n1 x1 n2 x2 : R) :
  0 < n1 -> 0 < n2 ->
  z_radicand n1 x1 n2 x2 < 0 <-> x1 + x2 < 0 \/ n1 + n2 < x1 + x2.
Proof.
  intros Hn1 Hn2. unfold z_radicand.
  assert (Hi : 0 < 1 / n1 + 1 / n2).
  { assert (0 < 1 / n1) by (apply Rdiv_lt_0_compat; lra).
    assert (0 < 1 / n2) by (apply Rdiv_lt_0_compat; lra). lra. }
  assert (Hp : pooled_of n1 x1 n2 x2 * (n1 + n2) = x1 + x2)
    by (unfold pooled_of; field; lra).
  set (q := pooled_of n1 x1 n2 x2) in *. set (i := 1 / n1 + 1 / n2) in *.
  assert (Hq : q < 0 \/ 1 < q <-> x1 + x2 < 0 \/ n1 + n2 < x1 + x2).
  { rewrite <- Hp. split; intros [?|?]; [left|right|left|right]; nra. }
  rewrite <- Hq. split.
  - intros Hneg. destruct (Rlt_dec q 0); [tauto |].
    destruct (Rlt_dec 1 q); [tauto |]. exfalso.
    assert (0 <= q * (1 - q)) by nra. nra.
  - intros [Hlt|Hgt]; assert (q * (1 - q) < 0) by nra; nra.
Qed.

(** X1: the z-test raises in two situations only: a division by the zero total
    of two non-zero sizes, and the square root of a negative radicand; with
    positive sizes the latter is the case of more successes than trials in
    total, or of a negative total of successes. *)
Theorem X1_ztest_exceptions (n1 x1 n2 x2 : R) :
  (EA.two_proportion_ztest n1 x1 n2 x2 = Raise ZeroDivisionError
   <-> n1 <> 0 /\ n2 <> 0 /\ n1 + n2 = 0)
  /\ (EA.two_proportion_ztest n1 x1 n2 x2 = Raise (ValueError "math domain error")
      <-> n1 <> 0 /\ n2 <> 0 /\ n1 + n2 <> 0 /\ z_radicand n1 x1 n2 x2 < 0)
  /\ (forall e, EA.two_proportion_ztest n1 x1 n2 x2 = Raise e ->
        e = ZeroDivisionError \/ e = ValueError "math domain error")
  /\ (0 < n1 -> 0 < n2 ->
      (z_radicand n1 x1 n2 x2 < 0 <-> x1 + x2 < 0 \/ n1 + n2 < x1 + x2)).
Proof.
  rewrite ztest_cases.
  pose proof (z_radicand_zero n1 x1 n2 x2) as Hzero.
  split; [| split; [| split]].
  - repeat (destruct (decide _)); split; intros Hx; try discriminate Hx;
      try reflexivity; tauto.
  - repeat (destruct (decide _)); split; intros Hx; try discriminate Hx;
      try reflexivity; try tauto; destruct Hx as (? & ? & ? & ?); try tauto;
      rewrite Hzero in * by assumption; lra.
  - intros e. repeat (destruct (decide _)); intros [= <-]; tauto.
  - apply z_radicand_negative.
Qed.

Lemma z_radicand_swap (n1 x1 n2 x2 : R) :
  z_radicand n2 x2 n1 x1 = z_radicand n1 x1 n2 x2.
Proof.
  unfold z_radicand, pooled_of.
  rewrite (Rplus_comm x2 x1), (Rplus_comm n2 n1), (Rplus_comm (1 / n2)). reflexivity.
Qed.

(** X2: exchanging the two arms reverses the sign of the z-statistic and keeps
    everything else: the p-value, an undefined result, an exception. *)
Theorem X2_ztest_swap (n1 x1 n2 x2 : R) :
  EA.two_proportion_ztest n2 x2 n1 x1
  = negate_statistic (EA.two_proportion_ztest n1 x1 n2 x2).
Proof.
  rewrite !ztest_cases.
  assert (Hp : pooled_of n2 x2 n1 x1 = pooled_of n1 x1 n2 x2)
    by (unfold pooled_of; rewrite (Rplus_comm x2 x1), (Rplus_comm n2 n1); reflexivity).
  assert (Hse : z_se n2 x2 n1 x1 = z_se n1 x1 n2 x2)
    by (apply (f_equal sqrt), z_radicand_swap).
  assert (Hz : z_stat n2 x2 n1 x1 = - z_stat n1 x1 n2 x2)
    by (unfold z_stat; rewrite Hse; unfold Rdiv; ring).
  rewrite Hp, Hse, Hz, z_radicand_swap, Rabs_Ropp, (Rplus_comm n2 n1).
  destruct (decide (n1 = 0 \/ n2 = 0)) as [Hn|Hn].
  { destruct (decide (n2 = 0 \/ n1 = 0)); [reflexivity | tauto]. }
  destruct (decide (n2 = 0 \/ n1 = 0)); [tauto |].
  repeat (destruct (decide _); [reflexivity |]). reflexivity.
Qed.

(** X3: exchanging the two samples reverses the sign of Welch's statistic and
    keeps the p-value and an undefined result. *)
Theorem X3_ttest_swap (m1 s1 n1 m2 s2 n2 : R) :
  EA.two_sample_ttest m2 s2 n2 m1 s1 n1
  = negate_statistic (EA.two_sample_ttest m1 s1 n1 m2 s2 n2).
Proof.
  destruct (decide (n1 <= 1 \/ n2 <= 1)) as [Hn|Hn].
  - rewrite !ttest_small_sample by tauto. reflexivity.
  - assert (Hn1 : 1 < n1) by (destruct (Rle_lt_dec n1 1); tauto).
    assert (Hn2 : 1 < n2) by (destruct (Rle_lt_dec n2 1); tauto).
    rewrite !ttest_unfold by assumption.
    assert (Hse : t_se s2 n2 s1 n1 = t_se s1 n1 s2 n2)
      by (unfold t_se; rewrite Rplus_comm; reflexivity).
    assert (Hden : df_den_of s2 n2 s1 n1 = df_den_of s1 n1 s2 n2)
      by (unfold df_den_of; apply Rplus_comm).
    assert (Hdf : satterthwaite s2 n2 s1 n1 = satterthwaite s1 n1 s2 n2)
      by (unfold satterthwaite; rewrite Hden, (Rplus_comm (s2 ^ 2 / n2)); reflexivity).
    assert (Ht : t_stat m2 s2 n2 m1 s1 n1 = - t_stat m1 s1 n1 m2 s2 n2)
      by (unfold t_stat; rewrite Hse; unfold Rdiv; ring).
    rewrite Hse, Hden, Hdf, Ht, Rabs_Ropp.
    repeat (destruct (decide _); [reflexivity |]). reflexivity.
Qed.

(** A defined z-test has a positive standard error. *)
Lemma ztest_defined_inv (n1 x1 n2 x2 z p : R) :
  EA.two_proportion_ztest n1 x1 n2 x2 = Ok (Some (z, p)) ->
  z = z_stat n1 x1 n2 x2 /\ p = 2 * (1 - norm_cdf (Rabs z))
  /\ 0 < z_se n1 x1 n2 x2 /\ n1 <> 0 /\ n2 <> 0.
Proof.
  rewrite ztest_cases.
  repeat (destruct (decide _); [discriminate |]).
  intros [= <- <-]. repeat split; try tauto.
  assert (0 <= z_se n1 x1 n2 x2) by apply sqrt_pos. lra.
Qed.

Lemma z_stat_sign (n1 x1 n2 x2 : R) :
  0 < z_se n1 x1 n2 x2 ->
  (0 < z_stat n1 x1 n2 x2 <-> x1 / n1 < x2 / n2)
  /\ (z_stat n1 x1 n2 x2 < 0 <-> x2 / n2 < x1 / n1)
  /\ (z_stat n1 x1 n2 x2 = 0 <-> x1 / n1 = x2 / n2).
Proof.
  intros Hse. unfold z_stat.
  set (se := z_se n1 x1 n2 x2) in *. set (d := x2 / n2 - x1 / n1).
  assert (Hi : 0 < / se) by now apply Rinv_0_lt_compat.
  assert (Hd : d / se * se = d) by (field; lra).
  assert (Hlt : x1 / n1 < x2 / n2 <-> 0 < d) by (unfold d; lra).
  assert (Hgt : x2 / n2 < x1 / n1 <-> d < 0) by (unfold d; lra).
  assert (Heq : x1 / n1 = x2 / n2 <-> d = 0) by (unfold d; lra).
  rewrite Hlt, Hgt, Heq. unfold Rdiv. repeat split; intros; nra.
Qed.

(** X4: the z-statistic of a defined test has the sign of the difference of the
    two rates, treatment minus control; it is 0 exactly for equal rates. *)
Theorem X4_ztest_sign (n1 x1 n2 x2 z p : R) :
  EA.two_proportion_ztest n1 x1 n2 x2 = Ok (Some (z, p)) ->
  (0 < z <-> x1 / n1 < x2 / n2)
  /\ (z < 0 <-> x2 / n2 < x1 / n1)
  /\ (z = 0 <-> x1 / n1 = x2 / n2).
Proof.
  intros (-> & _ & Hse & _)%ztest_defined_inv. now apply z_stat_sign.
Qed.

End TestsMore.

Section PValue.
Context `{NormalCdf}.


End PValue.

(** ** The conjugate update *)

(** X6: two conjugate updates in a row are one update with the successes and
    the trials added up; an update adds the trials to the sum of the two
    shape parameters. *)
Theorem X6_posterior_update_composes (a_prior b_prior s1 t1 s2 t2 : R) :
  BA.beta_posterior_params
    (BA.beta_posterior_params a_prior b_prior s1 t1).1
    (BA.beta_posterior_params a_prior b_prior s1 t1).2 s2 t2
  = BA.beta_posterior_params a_prior b_prior (s1 + s2) (t1 + t2)
  /\ (BA.beta_posterior_params a_prior b_prior s1 t1).1
     + (BA.beta_posterior_params a_prior b_prior s1 t1).2
     = a_prior + b_prior + t1.
Proof.
  unfold BA.beta_posterior_params. simpl. split; [f_equal |]; ring.
Qed.

(** ** Ranges of the summary statistics *)



Lemma np_mean_defined (l : list R) : is_Some (np_mean l) <-> l <> [].
Proof.
  destruct l; simpl; split; intros Hx; try (eexists; reflexivity); try congruence.
  destruct Hx as [? [=]].
Qed.






Lemma np_mean_defined_length (l : list R) : is_Some (np_mean l) <-> length l <> 0%nat.
Proof.
  rewrite np_mean_defined. destruct l; simpl; split; intros; congruence || lia.
Qed.

(** The means of a summary and its probability are defined exactly for a
    positive number of draws. *)
Lemma summary_defined (cs ts : list R) (n : nat) :
  length cs = n -> length ts = n ->
  (is_Some (np_mean cs) <-> n <> 0%nat)
  /\ (is_Some (np_mean ts) <-> n <> 0%nat)
  /\ (is_Some (np_mean (BA.difference ts cs)) <-> n <> 0%nat)
  /\ (is_Some (np_mean_gt ts cs) <-> n <> 0%nat).
Proof.
  intros Hlc Hlt.
  unfold np_mean_gt, BA.difference. rewrite !np_mean_defined_length.
  rewrite !length_zip_with, Hlc, Hlt, Nat.min_id.
  repeat split; intros Hx; exact Hx.
Qed.

Section Ranges.
Context `{Numpy}.


Context `{!NumpyLaws}.



End Ranges.

(** ** The order of the group keys *)

Lemma string_compare_trans (a b c : string) :
  String.compare a b <> Gt -> String.compare b c <> Gt -> String.compare a c <> Gt.
Proof.
  revert b c. induction a as [|x a IH]; intros [|y b] [|z c]; simpl;
    try congruence.
  unfold Ascii.compare.
  destruct (N.compare_spec (Ascii.N_of_ascii x) (Ascii.N_of_ascii y)) as [Hxy|Hxy|Hxy];
    destruct (N.compare_spec (Ascii.N_of_ascii y) (Ascii.N_of_ascii z)) as [Hyz|Hyz|Hyz];
    try congruence.
  - rewrite Hxy, Hyz, N.compare_refl. apply IH.
  - intros _ _. rewrite Hxy. apply N.compare_lt_iff in Hyz. rewrite Hyz. congruence.
  - intros _ _. rewrite <- Hyz. apply N.compare_lt_iff in Hxy. rewrite Hxy. congruence.
  - intros _ _. assert (Hxz : (Ascii.N_of_ascii x < Ascii.N_of_ascii z)%N) by lia.
    apply N.compare_lt_iff in Hxz. rewrite Hxz. congruence.
Qed.

#[local] Instance str_le_trans : Transitive str_le.
Proof.
  intros a b c. unfold str_le, String.leb.
  pose proof (string_compare_trans a b c) as Htr.
  destruct (String.compare a b), (String.compare b c), (String.compare a c);
    simpl; intros; try tauto; exfalso; apply Htr; congruence.
Qed.

#[local] Instance str_le_total : Total str_le.
Proof.
  intros a b. unfold str_le.
  destruct (String.leb_total a b) as [-> | ->]; [left | right]; exact I.
Qed.

#[local] Instance str_le_antisym : AntiSymm eq str_le.
Proof.
  intros a b Hab Hba. unfold str_le in *.
  apply String.leb_antisym; now apply Is_true_true.
Qed.

Lemma groupby_keys_sorted (rows : list Obs.RawObservation) :
  Sorted str_le (groupby_keys rows).
Proof. unfold groupby_keys. apply (Sorted_merge_sort str_le). Qed.

Lemma groupby_keys_perm (rows rows' : list Obs.RawObservation) :
  rows ≡ₚ rows' -> groupby_keys rows = groupby_keys rows'.
Proof.
  intros Hp. apply (Sorted_unique str_le); try apply groupby_keys_sorted.
  apply NoDup_Permutation; try apply NoDup_groupby_keys.
  intros v. rewrite !elem_of_groupby_keys, Hp. reflexivity.
Qed.

Lemma sum_Z_perm (l l' : list Z) : l ≡ₚ l' -> sum_Z l = sum_Z l'.
Proof.
  unfold sum_Z. induction 1; simpl; lia.
Qed.

Lemma nunique_perm (l l' : list Z) : l ≡ₚ l' -> nunique l = nunique l'.
Proof.
  intros Hp. unfold nunique. apply Permutation_length.
  apply NoDup_Permutation; try apply NoDup_remove_dups.
  intros x. rewrite !elem_of_remove_dups, Hp. reflexivity.
Qed.

Lemma group_perm (rows rows' : list Obs.RawObservation) (v : string) :
  rows ≡ₚ rows' -> group rows v ≡ₚ group rows' v.
Proof. intros Hp. unfold group. now rewrite Hp. Qed.

(** X8: the rows of the Bayesian aggregate come in increasing order of variant
    label, and the aggregate does not depend on the order of the rows of
    the dataset. *)
Theorem X8_bayes_aggregate_order_free (df df' : list Obs.RawObservation) (name : string) :
  df ≡ₚ df' ->
  BA.aggregate_for_experiment df name = BA.aggregate_for_experiment df' name
  /\ Sorted str_le (BA.variant <$> BA.aggregate_for_experiment df name)
  /\ NoDup (BA.variant <$> BA.aggregate_for_experiment df name).
Proof.
  intros Hp.
  assert (Hclean : filter (clean name) df ≡ₚ filter (clean name) df')
    by now rewrite Hp.
  split; [| split].
  - unfold BA.aggregate_for_experiment. cbv zeta.
    rewrite (groupby_keys_perm _ _ Hclean).
    apply list_fmap_ext. intros _ v _.
    pose proof (group_perm _ _ v Hclean) as Hg.
    unfold BA.agg_row. f_equal.
    + apply nunique_perm. now rewrite Hg.
    + apply sum_Z_perm. now rewrite Hg.
    + apply sum_Z_perm. now rewrite Hg.
    + apply sum_Z_perm. now rewrite Hg.
  - rewrite bayes_variants. apply groupby_keys_sorted.
  - rewrite bayes_variants. apply NoDup_groupby_keys.
Qed.

(** ** What the groups add up to *)








(** X10: the two aggregators agree: the Bayesian aggregate is the frequentist
    one restricted to the variant, the user count and the three success
    counts. *)
Theorem X10_aggregators_agree (df : list Obs.RawObservation) (name : string) :
  BA.aggregate_for_experiment df name
  = shared_columns <$> EA.aggregate_for_experiment df name.
Proof.
  unfold BA.aggregate_for_experiment, EA.aggregate_for_experiment. cbv zeta.
  rewrite <- list_fmap_compose. reflexivity.
Qed.

Lemma nunique_nonempty (ids : list Z) : ids <> [] -> (1 <= nunique ids)%nat.
Proof.
  destruct ids as [|i ids]; [congruence |]. intros _. unfold nunique.
  assert (Hin : i ∈ remove_dups (i :: ids)) by (apply elem_of_remove_dups; left).
  destruct (remove_dups (i :: ids)); [inversion Hin | simpl; lia].
Qed.

Lemma users_pos (rows : list Obs.RawObservation) (v : string) :
  v ∈ Obs.variant <$> rows -> (1 <= nunique (Obs.user_id <$> group rows v))%nat.
Proof.
  intros Hv%group_nonempty. apply nunique_nonempty.
  destruct (group rows v); [simpl in Hv; lia | discriminate].
Qed.

(** X11: no aggregate row is empty: every row stands for at least one clean row
    and at least one user, and for no more users than rows, so the report
    builders never pass a zero sample size to a test or to the update. *)
Theorem X11_aggregate_rows_nonempty (df : list Obs.RawObservation) (name : string) :
  (forall row, row ∈ EA.aggregate_for_experiment df name ->
     (1 <= EA.users row <= EA.n_nb_mrr row)%nat /\ INR (EA.users row) <> 0)
  /\ (forall row, row ∈ BA.aggregate_for_experiment df name ->
        (1 <= BA.users row)%nat /\ INR (BA.users row) <> 0).
Proof.
  split.
  - intros row Hrow. pose proof (freq_row_sizes df name row Hrow) as [_ Hle].
    apply freq_row_origin in Hrow as (v & Hv%users_pos & ->). simpl in *.
    split; [lia |]. apply not_0_INR. lia.
  - intros row (v & Hv%users_pos & ->)%bayes_row_origin. simpl.
    split; [lia |]. apply not_0_INR. lia.
Qed.

(** ** The frequentist report *)

Section MapM.

Lemma mapM_Ok_intro {A B : Type} (f : A -> result B) (l : list A) :
  Forall (fun x => exists y, f x = Ok y) l ->
  exists ys, mapM f l = Ok ys /\ Forall2 (fun x y => f x = Ok y) l ys.
Proof.
  induction 1 as [|x l [y Hy] _ (ys & Hys & Hall)].
  - exists []. split; [reflexivity | constructor].
  - exists (y :: ys). split; [| now constructor].
    cbn [mapM]. rewrite Hy, bind_Ok, Hys, bind_Ok. reflexivity.
Qed.

(** When every element returns or raises the one exception [e], so does
    the whole traversal, and it raises as soon as an element does. *)
Lemma mapM_raise {A B : Type} (f : A -> result B) (l : list A) (e : exn) :
  Forall (fun x => (exists y, f x = Ok y) \/ f x = Raise e) l ->
  Exists (fun x => f x = Raise e) l ->
  mapM f l = Raise e.
Proof.
  induction 1 as [|x l Hx Hl IH]; intros Hex; [inversion Hex |].
  cbn [mapM]. destruct Hx as [[y Hy]|Hx]; [| now rewrite Hx].
  rewrite Hy, bind_Ok.
  apply Exists_cons in Hex as [Hex|Hex]; [congruence |].
  rewrite (IH Hex). reflexivity.
Qed.

Lemma omap_length_le {A B : Type} (f : A -> option B) (l : list A) :
  (length (omap f l) <= length l)%nat.
Proof.
  induction l as [|x l IH]; [reflexivity |].
  cbn [omap list_omap]. destruct (f x); simpl; lia.
Qed.

End MapM.

Section FreqReport.
Context `{ScipyStats}.

Lemma ttest_never_raises (m1 s1 n1 m2 s2 n2 : R) :
  exists r, EA.two_sample_ttest m1 s1 n1 m2 s2 n2 = Ok r
    /\ (r <> None -> 1 < n1 /\ 1 < n2).
Proof.
  destruct (decide (n1 <= 1 \/ n2 <= 1)) as [Hn|Hn].
  - exists None. rewrite ttest_small_sample by assumption. split; congruence.
  - assert (Hn1 : 1 < n1) by (destruct (Rle_lt_dec n1 1); tauto).
    assert (Hn2 : 1 < n2) by (destruct (Rle_lt_dec n2 1); tauto).
    rewrite ttest_unfold by assumption.
    repeat (destruct (decide _); [exists None; split; congruence |]).
    eexists. split; [reflexivity | tauto].
Qed.

Lemma mean_row_returns (name : string) (control tr : EA.AggRow) :
  exists o, EA.mean_row name control tr = Ok o.
Proof.
  unfold EA.mean_row.
  destruct (ttest_never_raises (EA.avg_nb_mrr control) (EA.float_of (EA.sd_nb_mrr control))
              (INR (EA.n_nb_mrr control)) (EA.avg_nb_mrr tr)
              (EA.float_of (EA.sd_nb_mrr tr)) (INR (EA.n_nb_mrr tr)))
    as (r & -> & _).
  rewrite bind_Ok. destruct r as [[tstat pval]|]; eexists; reflexivity.
Qed.

(** A traversal of the three metrics yields at most three rows. *)
Lemma variant_rows_shape (name : string) (control tr : EA.AggRow)
    (rows : list EA.ReportRow) :
  EA.variant_rows name control tr = Ok rows -> (length rows <= 4)%nat.
Proof.
  unfold EA.variant_rows.
  destruct (mapM _ EA.proportion_metrics) as [props|e] eqn:Hprops; cbn; [| discriminate].
  destruct (EA.mean_row name control tr) as [mean|e]; cbn; [| discriminate].
  intros [= <-]. apply mapM_Ok_inv, Forall2_length in Hprops.
  rewrite length_app. pose proof (omap_length_le (fun row => row) props).
  simpl in Hprops. destruct mean; simpl; lia.
Qed.

Lemma freq_users_pos (df : list Obs.RawObservation) (name : string) (row : EA.AggRow) :
  row ∈ EA.aggregate_for_experiment df name -> 0 < INR (EA.users row).
Proof.
  intros (v & Hv & ->)%freq_row_origin. apply users_pos in Hv.
  simpl. apply lt_0_INR. lia.
Qed.

(** On well-formed data every success count of an aggregate row lies
    between 0 and the user count. *)
Lemma freq_counts_valid (df : list Obs.RawObservation) (name : string)
    (row : EA.AggRow) (m : string * (EA.AggRow -> Z)) :
  binary_indicators name df -> one_row_per_user name df ->
  row ∈ EA.aggregate_for_experiment df name -> m ∈ EA.proportion_metrics ->
  0 <= IZR (m.2 row) <= INR (EA.users row).
Proof.
  intros Hbin Hone (v & Hv & ->)%freq_row_origin Hm.
  assert (Hz : (0 <= m.2 (EA.agg_row v (group (filter (clean name) df) v))
                <= Z.of_nat (EA.users (EA.agg_row v (group (filter (clean name) df) v))))%Z).
  { apply list_elem_of_In in Hm. simpl in Hm.
    destruct Hm as [<-|[<-|[<-|[]]]]; simpl; (split;
      [ apply sum_Z_indicators, Forall_fmap, Forall_forall;
        intros r [_ Hr]%list_elem_of_filter; now apply (Hbin r Hr)
      | apply (group_counts name df v); [| exact Hone];
        intros r Hr; now apply (Hbin r Hr) ]). }
  rewrite INR_IZR_INZ. split; apply IZR_le; lia.
Qed.

Lemma proportion_row_returns (name : string) (control tr : EA.AggRow)
    (m : string * (EA.AggRow -> Z)) :
  0 <= IZR (m.2 control) <= INR (EA.users control) ->
  0 <= IZR (m.2 tr) <= INR (EA.users tr) ->
  exists o, EA.proportion_row name control tr m = Ok o.
Proof.
  intros Hc Ht. unfold EA.proportion_row. cbv zeta.
  destruct (ztest_counts _ _ _ _ Hc Ht) as (r & -> & _).
  rewrite bind_Ok. destruct r as [[z p]|]; eexists; reflexivity.
Qed.

Lemma variant_rows_returns (df : list Obs.RawObservation) (name : string)
    (control tr : EA.AggRow) :
  binary_indicators name df -> one_row_per_user name df ->
  control ∈ EA.aggregate_for_experiment df name ->
  tr ∈ EA.aggregate_for_experiment df name ->
  exists rows, EA.variant_rows name control tr = Ok rows.
Proof.
  intros Hbin Hone Hc Ht. unfold EA.variant_rows.
  destruct (mapM_Ok_intro (EA.proportion_row name control tr) EA.proportion_metrics)
    as (props & -> & _).
  { apply Forall_forall. intros m Hm.
    apply proportion_row_returns; now apply (freq_counts_valid df name). }
  destruct (mean_row_returns name control tr) as (mean & ->).
  rewrite !bind_Ok. eexists. reflexivity.
Qed.

Lemma control_row_exists (df : list Obs.RawObservation) (name : string) :
  "control"%string ∈ Obs.variant <$> filter (clean name) df ->
  ("control"%string ∈ EA.variant <$> EA.aggregate_for_experiment df name)
  /\ exists control rest,
       filter (fun r => EA.variant r = "control"%string)
         (EA.aggregate_for_experiment df name) = control :: rest
       /\ control ∈ EA.aggregate_for_experiment df name.
Proof.
  intros Hc.
  assert (Hin : "control"%string ∈ EA.variant <$> EA.aggregate_for_experiment df name)
    by (rewrite freq_variants; now apply elem_of_groupby_keys).
  split; [exact Hin |].
  apply list_elem_of_fmap in Hin as (row & Hv & Hrow).
  assert (Hf : row ∈ filter (fun r => EA.variant r = "control"%string)
                 (EA.aggregate_for_experiment df name))
    by (apply list_elem_of_filter; split; [now symmetry | assumption]).
  destruct (filter _ (EA.aggregate_for_experiment df name)) as [|control rest] eqn:Hfil;
    [inversion Hf |].
  exists control, rest. split; [reflexivity |].
  assert (Hcf : control ∈ filter (fun r => EA.variant r = "control"%string)
                  (EA.aggregate_for_experiment df name)) by (rewrite Hfil; left).
  now apply list_elem_of_filter in Hcf as [_ ?].
Qed.

Lemma concat_length_le {A : Type} (ls : list (list A)) (k : nat) :
  Forall (fun l => (length l <= k)%nat) ls ->
  (length (concat ls) <= k * length ls)%nat.
Proof.
  induction 1 as [|l ls Hl _ IH]; simpl; [lia |].
  rewrite length_app. lia.
Qed.

(** X12: on well-formed data with a control arm the frequentist builder returns
    a report and raises nothing; the report has at most four rows for each
    variant other than the control. *)
Theorem X12_freq_report_returns (df : list Obs.RawObservation) (name : string) :
  binary_indicators name df ->
  one_row_per_user name df ->
  "control"%string ∈ Obs.variant <$> filter (clean name) df ->
  exists rows,
    EA.run_experiment_analysis_from_user_level df name = Ok rows
    /\ (length rows
        <= 4 * length (filter (fun v => v <> "control"%string)
                         (groupby_keys (filter (clean name) df))))%nat.
Proof.
  intros Hbin Hone Hcontrol.
  destruct (control_row_exists df name Hcontrol) as (Hin & control & rest & Hfil & Hc).
  unfold EA.run_experiment_analysis_from_user_level. cbv zeta.
  destruct (decide (_ ∈ _)) as [_|Hno]; [| contradiction].
  rewrite Hfil.
  destruct (mapM_Ok_intro (EA.variant_rows name control)
              (filter (fun r => EA.variant r <> "control"%string)
                 (EA.aggregate_for_experiment df name))) as (rowss & Hmap & Hall).
  { apply Forall_forall. intros tr [_ Htr]%list_elem_of_filter.
    now apply (variant_rows_returns df name). }
  rewrite Hmap, bind_Ok. eexists. split; [reflexivity |].
  assert (Hlen : length rowss
                 = length (filter (fun v => v <> "control"%string)
                             (groupby_keys (filter (clean name) df)))).
  { rewrite <- (Forall2_length _ _ _ Hall), <- freq_variants.
    rewrite <- (length_fmap EA.variant). f_equal.
    generalize (EA.aggregate_for_experiment df name). intros agg.
    induction agg as [|r agg IH]; [reflexivity |].
    rewrite fmap_cons, !filter_cons.
    destruct (decide (EA.variant r <> "control"%string)) as [Hr|Hr].
    - rewrite fmap_cons, IH. reflexivity.
    - exact IH. }
  rewrite <- Hlen. apply concat_length_le.
  apply Forall_forall. intros rs Hrs.
  apply list_elem_of_lookup in Hrs as [i Hi].
  destruct (Forall2_lookup_r _ _ _ _ _ Hall Hi) as (tr & _ & Hvr).
  now apply variant_rows_shape in Hvr.
Qed.

(** X13: every row of a frequentist report carries the experiment name asked
    for and the label of a variant of the clean cohort other than the
    control, and its metric and test are one of four fixed pairs. *)
Theorem X13_freq_report_labels (df : list Obs.RawObservation) (name : string)
    (rows : list EA.ReportRow) (row : EA.ReportRow) :
  EA.run_experiment_analysis_from_user_level df name = Ok rows ->
  row ∈ rows ->
  report_experiment row = name
  /\ report_variant row <> "control"%string
  /\ report_variant row ∈ Obs.variant <$> filter (clean name) df
  /\ (report_metric row, report_test row) ∈ report_metrics.
Proof.
  intros Hrun Hrow.
  destruct (report_rows_origin df name rows row Hrun Hrow)
    as (control & tr & Hcin & Hcv & Htin & Htv & Hkind).
  assert (Hlabel : EA.variant tr ∈ Obs.variant <$> filter (clean name) df).
  { apply elem_of_groupby_keys. rewrite <- freq_variants.
    apply list_elem_of_fmap. now exists tr. }
  destruct Hkind as [(m & Hm & Hpr)|Hmean].
  - apply proportion_row_inv in Hpr as (z & p & _ & ->). simpl.
    repeat (split; [assumption || reflexivity |]).
    apply list_elem_of_In in Hm. simpl in Hm.
    destruct Hm as [<-|[<-|[<-|[]]]]; simpl; unfold report_metrics;
      repeat ((left; fail) || right).
  - apply mean_row_inv in Hmean as (tstat & pval & ->). simpl.
    repeat (split; [assumption || reflexivity |]).
    unfold report_metrics. repeat ((left; fail) || right).
Qed.

(** X14: a mean row is only written for a variant that has, like the control,
    at least two clean rows: the standard deviations it was tested with are
    defined, and its difference is treatment minus control. *)
Theorem X14_mean_row_requires_two (df : list Obs.RawObservation) (name : string)
    (rows : list EA.ReportRow) (row : EA.ReportRow) :
  EA.run_experiment_analysis_from_user_level df name = Ok rows ->
  row ∈ rows ->
  match row with
  | EA.MeanRow _ v _ _ control_mean treatment_mean diff tstat pval =>
      exists control tr s1 s2,
        control ∈ EA.aggregate_for_experiment df name
        /\ EA.variant control = "control"%string
        /\ tr ∈ EA.aggregate_for_experiment df name
        /\ v = EA.variant tr
        /\ (2 <= EA.n_nb_mrr control)%nat /\ (2 <= EA.n_nb_mrr tr)%nat
        /\ EA.sd_nb_mrr control = Some s1 /\ EA.sd_nb_mrr tr = Some s2
        /\ EA.two_sample_ttest (EA.avg_nb_mrr control) s1 (INR (EA.n_nb_mrr control))
             (EA.avg_nb_mrr tr) s2 (INR (EA.n_nb_mrr tr)) = Ok (Some (tstat, pval))
        /\ control_mean = EA.avg_nb_mrr control
        /\ treatment_mean = EA.avg_nb_mrr tr
        /\ diff = treatment_mean - control_mean
  | EA.ProportionRow _ _ _ _ _ _ _ _ _ => True
  end.
Proof.
  intros Hrun Hrow.
  destruct (report_rows_origin df name rows row Hrun Hrow)
    as (control & tr & Hcin & Hcv & Htin & Htv & [(m & Hm & Hpr)|Hmean]).
  - apply proportion_row_inv in Hpr as (z & p & _ & ->). exact I.
  - unfold EA.mean_row in Hmean.
    destruct (EA.two_sample_ttest _ _ _ _ _ _) as [[[tstat pval]|]|e] eqn:Htest;
      cbn in Hmean; try discriminate.
    injection Hmean as <-.
    destruct (EA.sd_nb_mrr control) as [s1|] eqn:Hs1.
    2:{ rewrite (ttest_nan_unread df name control tr) in Htest
          by (assumption || now left). discriminate. }
    destruct (EA.sd_nb_mrr tr) as [s2|] eqn:Hs2.
    2:{ rewrite (ttest_nan_unread df name control tr) in Htest
          by (assumption || now right). discriminate. }
    assert (Hsizes : forall r s, r ∈ EA.aggregate_for_experiment df name ->
                       EA.sd_nb_mrr r = Some s -> (2 <= EA.n_nb_mrr r)%nat).
    { intros r s (v & _ & ->)%freq_row_origin. simpl. unfold std_R.
      rewrite length_fmap.
      destruct (decide (length (group (filter (clean name) df) v) <= 1)%nat);
        [discriminate | lia]. }
    exists control, tr, s1, s2.
    split; [exact Hcin |]. split; [exact Hcv |]. split; [exact Htin |].
    split; [reflexivity |]. split; [exact (Hsizes _ _ Hcin Hs1) |].
    split; [exact (Hsizes _ _ Htin Hs2) |].
    split; [exact Hs1 |]. split; [exact Hs2 |]. split; [exact Htest |].
    split; [reflexivity |]. split; reflexivity.
Qed.

End FreqReport.

(** ** Exceptions of the frequentist report *)

Section FreqFailure.
Context `{ScipyStats}.

Lemma mapM_uniform {A B : Type} (f : A -> result B) (l : list A) (e : exn) :
  Forall (fun x => (exists y, f x = Ok y) \/ f x = Raise e) l ->
  (exists ys, mapM f l = Ok ys) \/ mapM f l = Raise e.
Proof.
  induction 1 as [|x l Hx _ IH]; [left; now exists [] |].
  cbn [mapM]. destruct Hx as [[y Hy] | Hx]; [| rewrite Hx; now right].
  rewrite Hy, bind_Ok. destruct IH as [[ys Hys] | Hl]; [| rewrite Hl; now right].
  left. rewrite Hys, bind_Ok. eexists. reflexivity.
Qed.

(** The z-test on positive sizes: it raises exactly when the total of the
    successes is negative or exceeds the total of the sizes. *)
Lemma ztest_positive_sizes (n1 x1 n2 x2 : R) :
  0 < n1 -> 0 < n2 ->
  (x1 + x2 < 0 \/ n1 + n2 < x1 + x2 ->
   EA.two_proportion_ztest n1 x1 n2 x2 = Raise math_domain_error)
  /\ (0 <= x1 + x2 <= n1 + n2 -> exists r, EA.two_proportion_ztest n1 x1 n2 x2 = Ok r).
Proof.
  intros Hn1 Hn2. rewrite ztest_cases.
  pose proof (z_radicand_negative n1 x1 n2 x2 Hn1 Hn2) as Hneg.
  pose proof (z_radicand_zero n1 x1 n2 x2) as Hzero.
  destruct (decide (n1 = 0 \/ n2 = 0)); [lra |].
  destruct (decide (n1 + n2 = 0)); [lra |].
  split.
  - intros Hbad%Hneg.
    destruct (decide (pooled_of n1 x1 n2 x2 = 0 \/ pooled_of n1 x1 n2 x2 = 1)) as [Hp|_];
      [rewrite (Hzero Hp) in Hbad; lra |].
    destruct (decide (z_radicand n1 x1 n2 x2 < 0)); [reflexivity | contradiction].
  - intros Hgood.
    destruct (decide (pooled_of n1 x1 n2 x2 = 0 \/ pooled_of n1 x1 n2 x2 = 1));
      [eexists; reflexivity |].
    destruct (decide (z_radicand n1 x1 n2 x2 < 0)) as [Hbad%Hneg|_]; [lra |].
    destruct (decide (z_se n1 x1 n2 x2 = 0)); eexists; reflexivity.
Qed.

Lemma ztest_returns_or_domain_error (n1 x1 n2 x2 : R) :
  0 < n1 -> 0 < n2 ->
  (exists r, EA.two_proportion_ztest n1 x1 n2 x2 = Ok r)
  \/ EA.two_proportion_ztest n1 x1 n2 x2 = Raise math_domain_error.
Proof.
  intros Hn1 Hn2.
  destruct (ztest_positive_sizes n1 x1 n2 x2 Hn1 Hn2) as [Hbad Hgood].
  destruct (Rlt_dec (x1 + x2) 0); [right; apply Hbad; now left |].
  destruct (Rlt_dec (n1 + n2) (x1 + x2)); [right; apply Hbad; now right |].
  left. apply Hgood. lra.
Qed.

Lemma proportion_row_uniform (name : string) (control tr : EA.AggRow)
    (m : string * (EA.AggRow -> Z)) :
  0 < INR (EA.users control) -> 0 < INR (EA.users tr) ->
  (exists o, EA.proportion_row name control tr m = Ok o)
  \/ EA.proportion_row name control tr m = Raise math_domain_error.
Proof.
  intros Hc Ht. unfold EA.proportion_row. cbv zeta.
  destruct (ztest_returns_or_domain_error (INR (EA.users control)) (IZR (m.2 control))
              (INR (EA.users tr)) (IZR (m.2 tr)) Hc Ht) as [[r Hr] | Hr];
    rewrite Hr; [| now right].
  left. rewrite bind_Ok. destruct r as [[z p]|]; eexists; reflexivity.
Qed.

Lemma variant_rows_uniform (df : list Obs.RawObservation) (name : string)
    (control tr : EA.AggRow) :
  control ∈ EA.aggregate_for_experiment df name ->
  tr ∈ EA.aggregate_for_experiment df name ->
  (exists rows, EA.variant_rows name control tr = Ok rows)
  \/ EA.variant_rows name control tr = Raise math_domain_error.
Proof.
  intros Hc%freq_users_pos Ht%freq_users_pos. unfold EA.variant_rows.
  destruct (mapM_uniform (EA.proportion_row name control tr) EA.proportion_metrics
              math_domain_error) as [[props Hprops] | Hprops].
  { apply Forall_forall. intros m _. now apply proportion_row_uniform. }
  2:{ rewrite Hprops. now right. }
  rewrite Hprops.
  destruct (mean_row_returns name control tr) as (mean & ->).
  left. rewrite !bind_Ok. eexists. reflexivity.
Qed.

(** The out-of-range total of one metric makes the rows of its variant
    fail. *)
Lemma variant_rows_raises (df : list Obs.RawObservation) (name : string)
    (control tr : EA.AggRow) (m : string * (EA.AggRow -> Z)) :
  control ∈ EA.aggregate_for_experiment df name ->
  tr ∈ EA.aggregate_for_experiment df name ->
  m ∈ EA.proportion_metrics ->
  (m.2 control + m.2 tr < 0
   \/ Z.of_nat (EA.users control) + Z.of_nat (EA.users tr) < m.2 control + m.2 tr)%Z ->
  EA.variant_rows name control tr = Raise math_domain_error.
Proof.
  intros Hc%freq_users_pos Ht%freq_users_pos Hm Hbad. unfold EA.variant_rows.
  rewrite (mapM_raise (EA.proportion_row name control tr) EA.proportion_metrics
             math_domain_error); [reflexivity | |].
  - apply Forall_forall. intros m' _. now apply proportion_row_uniform.
  - apply Exists_exists. exists m. split; [exact Hm |].
    unfold EA.proportion_row. cbv zeta.
    destruct (ztest_positive_sizes (INR (EA.users control)) (IZR (m.2 control))
                (INR (EA.users tr)) (IZR (m.2 tr)) Hc Ht) as [Hraise _].
    rewrite Hraise; [reflexivity |].
    rewrite !INR_IZR_INZ, <- !plus_IZR.
    destruct Hbad as [Hlt|Hlt]; [left | right]; now apply IZR_lt.
Qed.

(** An aggregate has one row per label, so a row is known by its label. *)
Lemma freq_row_by_variant (df : list Obs.RawObservation) (name : string)
    (row row' : EA.AggRow) :
  row ∈ EA.aggregate_for_experiment df name ->
  row' ∈ EA.aggregate_for_experiment df name ->
  EA.variant row = EA.variant row' -> row = row'.
Proof.
  intros (v & _ & ->)%freq_row_origin (v' & _ & ->)%freq_row_origin. simpl.
  intros ->. reflexivity.
Qed.

(** X15: the only exceptions of the frequentist builder are the ValueError of
    the missing control and the ValueError of a square root of a negative
    number: it never divides by zero and never indexes an empty frame. *)
Theorem X15_freq_report_exceptions (df : list Obs.RawObservation) (name : string) (e : exn) :
  EA.run_experiment_analysis_from_user_level df name = Raise e ->
  (e = EA.no_control /\ "control"%string ∉ (Obs.variant <$> filter (clean name) df))
  \/ (e = math_domain_error /\ "control"%string ∈ Obs.variant <$> filter (clean name) df).
Proof.
  unfold EA.run_experiment_analysis_from_user_level. cbv zeta.
  destruct (decide (_ ∈ _)) as [Hin|Hno].
  - rewrite freq_variants, elem_of_groupby_keys in Hin.
    destruct (control_row_exists df name Hin) as (_ & control & rest & -> & Hc).
    destruct (mapM_uniform (EA.variant_rows name control)
                (filter (fun r => EA.variant r <> "control"%string)
                   (EA.aggregate_for_experiment df name)) math_domain_error)
      as [[rowss Hmap] | Hmap].
    + apply Forall_forall. intros tr [_ Htr]%list_elem_of_filter.
      now apply (variant_rows_uniform df name).
    + rewrite Hmap, bind_Ok. discriminate.
    + rewrite Hmap. intros [= <-]. right. now split.
  - intros [= <-]. left. split; [reflexivity |].
    now rewrite freq_variants, elem_of_groupby_keys in Hno.
Qed.

(** X16: when, for some metric, the successes of the control and of another
    variant add up to more than their users (or to a negative number), the
    frequentist builder raises the ValueError of the square root and
    returns no report. *)
Theorem X16_freq_report_raises (df : list Obs.RawObservation) (name : string)
    (control tr : EA.AggRow) (m : string * (EA.AggRow -> Z)) :
  control ∈ EA.aggregate_for_experiment df name ->
  EA.variant control = "control"%string ->
  tr ∈ EA.aggregate_for_experiment df name ->
  EA.variant tr <> "control"%string ->
  m ∈ EA.proportion_metrics ->
  (m.2 control + m.2 tr < 0
   \/ Z.of_nat (EA.users control) + Z.of_nat (EA.users tr) < m.2 control + m.2 tr)%Z ->
  EA.run_experiment_analysis_from_user_level df name = Raise math_domain_error.
Proof.
  intros Hc Hcv Ht Htv Hm Hbad.
  assert (Hin : "control"%string ∈ Obs.variant <$> filter (clean name) df).
  { apply elem_of_groupby_keys. rewrite <- freq_variants, <- Hcv.
    apply list_elem_of_fmap. now exists control. }
  destruct (control_row_exists df name Hin) as (Hvar & control' & rest & Hfil & Hc').
  assert (Hsame : control' = control).
  { apply (freq_row_by_variant df name); [assumption.. |]. rewrite Hcv.
    assert (Hf : control' ∈ filter (fun r => EA.variant r = "control"%string)
                   (EA.aggregate_for_experiment df name)) by (rewrite Hfil; left).
    now apply list_elem_of_filter in Hf as [? _]. }
  subst control'.
  unfold EA.run_experiment_analysis_from_user_level. cbv zeta.
  destruct (decide (_ ∈ _)); [| contradiction].
  rewrite Hfil.
  rewrite (mapM_raise (EA.variant_rows name control) _ math_domain_error);
    [reflexivity | |].
  - apply Forall_forall. intros tr' [_ Htr']%list_elem_of_filter.
    now apply (variant_rows_uniform df name).
  - apply Exists_exists. exists tr. split.
    + apply list_elem_of_filter. now split.
    + now apply (variant_rows_raises df name control tr m).
Qed.

End FreqFailure.

(** ** The Bayesian report *)

Section BayesReport.
Context `{Numpy}.

Lemma run_call_heap (name : string) (a_prior b_prior : R) (c : BA.SimCall)
    (h : gmap positive BitGen) :
  BA.run_call name a_prior b_prior c h
  = s ← call_result c;
    Ok (BA.Build_BayesRow name (BA.call_variant c) (BA.call_metric c) a_prior b_prior s,
        <[fresh (dom h) := final_bitgen (BA.call_a_c c) (BA.call_b_c c) (BA.call_a_t c)
                             (BA.call_b_t c) (BA.call_n_draws c)
                             (BA.call_random_state c)]> h).
Proof.
  unfold BA.run_call, py_bind, call_result. rewrite simulate_heap.
  destruct (simulation _ _ _ _ _ _); reflexivity.
Qed.

(** A run of calls that returns: one row per call, in order, and one new
    generator per call in a heap that keeps every old one. *)
Lemma run_calls_inv (name : string) (a_prior b_prior : R) (calls : list BA.SimCall) :
  forall h rows h',
    py_mapM (BA.run_call name a_prior b_prior) calls h = Ok (rows, h') ->
    Forall2 (row_of_call name a_prior b_prior) calls rows
    /\ h ⊆ h' /\ size h' = (size h + length calls)%nat.
Proof.
  induction calls as [|c calls IH]; intros h rows h'.
  - cbn. unfold py_ret. intros [= <- <-].
    split; [constructor |]. split; [reflexivity | simpl; lia].
  - cbn [py_mapM]. unfold py_bind at 1. rewrite run_call_heap.
    destruct (call_result c) as [s|e] eqn:Hs; cbn; [| discriminate].
    unfold py_bind at 1.
    destruct (py_mapM _ calls _) as [[rows' h1]|e] eqn:Hrun; [| discriminate].
    unfold py_ret. intros [= <- <-].
    apply IH in Hrun as (Hrows & Hsub & Hsize).
    assert (Hfresh : h !! fresh (dom h) = None) by apply not_elem_of_dom, is_fresh.
    split; [| split].
    + constructor; [| exact Hrows]. repeat split; assumption.
    + etransitivity; [| exact Hsub]. now apply insert_subseteq.
    + rewrite Hsize, map_size_insert_None by assumption. simpl. lia.
Qed.

Lemma run_calls_returns (name : string) (a_prior b_prior : R) (calls : list BA.SimCall) :
  Forall (fun c => exists s, call_result c = Ok s) calls ->
  forall h, exists rows h',
    py_mapM (BA.run_call name a_prior b_prior) calls h = Ok (rows, h').
Proof.
  induction 1 as [|c calls [s Hs] _ IH]; intros h.
  - exists [], h. reflexivity.
  - cbn [py_mapM]. unfold py_bind at 1. rewrite run_call_heap, Hs. cbn.
    unfold py_bind at 1.
    destruct (IH (<[fresh (dom h) := final_bitgen (BA.call_a_c c) (BA.call_b_c c)
                     (BA.call_a_t c) (BA.call_b_t c) (BA.call_n_draws c)
                     (BA.call_random_state c)]> h)) as (rows & h' & Hrun).
    rewrite Hrun. eexists _, _. reflexivity.
Qed.



Lemma bayes_row_by_variant (df : list Obs.RawObservation) (name : string)
    (row row' : BA.AggRow) :
  row ∈ BA.aggregate_for_experiment df name ->
  row' ∈ BA.aggregate_for_experiment df name ->
  BA.variant row = BA.variant row' -> row = row'.
Proof.
  intros (v & _ & ->)%bayes_row_origin (v' & _ & ->)%bayes_row_origin. simpl.
  intros ->. reflexivity.
Qed.

Lemma bayes_control_row (df : list Obs.RawObservation) (name : string) :
  "control"%string ∈ Obs.variant <$> filter (clean name) df ->
  ("control"%string ∈ BA.variant <$> BA.aggregate_for_experiment df name)
  /\ exists control rest,
       filter (fun r => BA.variant r = "control"%string)
         (BA.aggregate_for_experiment df name) = control :: rest
       /\ control ∈ BA.aggregate_for_experiment df name
       /\ BA.variant control = "control"%string.
Proof.
  intros Hc.
  assert (Hin : "control"%string ∈ BA.variant <$> BA.aggregate_for_experiment df name)
    by (rewrite bayes_variants; now apply elem_of_groupby_keys).
  split; [exact Hin |].
  apply list_elem_of_fmap in Hin as (row & Hv & Hrow).
  assert (Hf : row ∈ filter (fun r => BA.variant r = "control"%string)
                 (BA.aggregate_for_experiment df name))
    by (apply list_elem_of_filter; split; [now symmetry | assumption]).
  destruct (filter _ (BA.aggregate_for_experiment df name)) as [|control rest] eqn:Hfil;
    [inversion Hf |].
  exists control, rest. split; [reflexivity |].
  assert (Hcf : control ∈ filter (fun r => BA.variant r = "control"%string)
                  (BA.aggregate_for_experiment df name)) by (rewrite Hfil; left).
  apply list_elem_of_filter in Hcf as [? ?]. now split.
Qed.

(** The calls of a report: one for each variant other than the control
    and each metric, against the control row. *)
Lemma report_calls_elem (df : list Obs.RawObservation) (name : string)
    (a_prior b_prior : R) (n_draws : nat) (c : BA.SimCall) :
  c ∈ report_calls df name a_prior b_prior n_draws <->
  exists control tr m,
    control ∈ BA.aggregate_for_experiment df name
    /\ BA.variant control = "control"%string
    /\ tr ∈ BA.aggregate_for_experiment df name
    /\ BA.variant tr <> "control"%string
    /\ m ∈ BA.proportion_metrics
    /\ c = BA.metric_call a_prior b_prior n_draws control tr m.
Proof.
  unfold report_calls. cbv zeta. split.
  - destruct (filter _ (BA.aggregate_for_experiment df name)) as [|control rest] eqn:Hfil;
      [intros Hc; inversion Hc |].
    assert (Hcf : control ∈ filter (fun r => BA.variant r = "control"%string)
                    (BA.aggregate_for_experiment df name)) by (rewrite Hfil; left).
    apply list_elem_of_filter in Hcf as [Hcv Hcin].
    unfold BA.sampler_calls.
    intros (tr & (m & -> & Hm)%list_elem_of_fmap & [Htv Htin]%list_elem_of_filter)%list_elem_of_bind.
    exists control, tr, m. repeat (split; [assumption |]). reflexivity.
  - intros (control & tr & m & Hcin & Hcv & Htin & Htv & Hm & ->).
    assert (Hin : "control"%string ∈ Obs.variant <$> filter (clean name) df).
    { apply elem_of_groupby_keys. rewrite <- bayes_variants, <- Hcv.
      apply list_elem_of_fmap. now exists control. }
    destruct (bayes_control_row df name Hin) as (_ & control' & rest & Hfil & Hc' & Hcv').
    rewrite Hfil.
    assert (Hsame : control' = control)
      by (apply (bayes_row_by_variant df name); congruence).
    subst control'. unfold BA.sampler_calls.
    apply list_elem_of_bind. exists tr. split.
    + apply list_elem_of_fmap. now exists m.
    + apply list_elem_of_filter. now split.
Qed.

Lemma report_calls_length (df : list Obs.RawObservation) (name : string)
    (a_prior b_prior : R) (n_draws : nat) :
  "control"%string ∈ Obs.variant <$> filter (clean name) df ->
  length (report_calls df name a_prior b_prior n_draws)
  = (3 * length (filter (fun v => v <> "control"%string)
                   (groupby_keys (filter (clean name) df))))%nat.
Proof.
  intros Hin.
  destruct (bayes_control_row df name Hin) as (_ & control & rest & Hfil & _).
  unfold report_calls. cbv zeta. rewrite Hfil.
  rewrite <- bayes_variants. unfold BA.sampler_calls.
  generalize (BA.aggregate_for_experiment df name). intros agg.
  induction agg as [|r agg IH]; [reflexivity |].
  rewrite fmap_cons, !filter_cons.
  destruct (decide (BA.variant r <> "control"%string)) as [Hr|Hr].
  - cbn [mbind list_bind]. rewrite length_app. cbn [length].
    change (foldr _ _ _) with
      (filter (fun r => BA.variant r <> "control"%string) agg
         ≫= (fun tr => BA.metric_call a_prior b_prior n_draws control tr
                          <$> BA.proportion_metrics)).
    rewrite IH. simpl. lia.
  - exact IH.
Qed.

(** What a call of a report yields: it returns when its four shape
    parameters are positive and raises numpy's ValueError otherwise. *)
Lemma call_result_cases (c : BA.SimCall) :
  BA.call_random_state c = BA.default_random_state ->
  (0 < BA.call_a_c c /\ 0 < BA.call_b_c c /\ 0 < BA.call_a_t c /\ 0 < BA.call_b_t c ->
   exists s, call_result c = Ok s)
  /\ (BA.call_a_c c <= 0 \/ BA.call_b_c c <= 0 \/ BA.call_a_t c <= 0 \/ BA.call_b_t c <= 0 ->
      exists e, call_result c = Raise e /\ e ∈ shape_errors)
  /\ (forall e, call_result c = Raise e ->
        e ∈ shape_errors
        /\ (BA.call_a_c c <= 0 \/ BA.call_b_c c <= 0
            \/ BA.call_a_t c <= 0 \/ BA.call_b_t c <= 0)).
Proof.
  intros Hseed. unfold call_result, simulation, shape_errors. rewrite Hseed.
  destruct (decide (BA.default_random_state < 0)%Z) as [Hneg|_];
    [unfold BA.default_random_state in Hneg; lia |].
  split; [| split].
  - intros (? & ? & ? & ?).
    repeat (destruct (decide _); [lra |]). eexists. reflexivity.
  - intros Hbad.
    repeat (destruct (decide _);
            [eexists; split; [reflexivity | apply list_elem_of_In; simpl; tauto] |]). lra.
  - intros e.
    repeat (destruct (decide _);
            [intros [= <-]; split; [apply list_elem_of_In; simpl; tauto | tauto] |]). discriminate.
Qed.

Lemma report_calls_seed (df : list Obs.RawObservation) (name : string)
    (a_prior b_prior : R) (n_draws : nat) (c : BA.SimCall) :
  c ∈ report_calls df name a_prior b_prior n_draws ->
  BA.call_random_state c = BA.default_random_state.
Proof.
  intros (control & tr & m & _ & _ & _ & _ & _ & ->)%report_calls_elem. reflexivity.
Qed.

Lemma bayes_counts_valid (df : list Obs.RawObservation) (name : string)
    (row : BA.AggRow) (m : string * (BA.AggRow -> Z)) :
  binary_indicators name df -> one_row_per_user name df ->
  row ∈ BA.aggregate_for_experiment df name -> m ∈ BA.proportion_metrics ->
  0 <= IZR (m.2 row) <= INR (BA.users row).
Proof.
  intros Hbin Hone (v & Hv & ->)%bayes_row_origin Hm.
  assert (Hz : (0 <= m.2 (BA.agg_row v (group (filter (clean name) df) v))
                <= Z.of_nat (BA.users (BA.agg_row v (group (filter (clean name) df) v))))%Z).
  { apply list_elem_of_In in Hm. simpl in Hm.
    destruct Hm as [<-|[<-|[<-|[]]]]; simpl; (split;
      [ apply sum_Z_indicators, Forall_fmap, Forall_forall;
        intros r [_ Hr]%list_elem_of_filter; now apply (Hbin r Hr)
      | apply (group_counts name df v); [| exact Hone];
        intros r Hr; now apply (Hbin r Hr) ]). }
  rewrite INR_IZR_INZ. split; apply IZR_le; lia.
Qed.

(** On well-formed data and with positive priors every call of the report
    has positive shape parameters. *)
Lemma report_calls_positive (df : list Obs.RawObservation) (name : string)
    (a_prior b_prior : R) (n_draws : nat) (c : BA.SimCall) :
  binary_indicators name df -> one_row_per_user name df ->
  0 < a_prior -> 0 < b_prior ->
  c ∈ report_calls df name a_prior b_prior n_draws ->
  0 < BA.call_a_c c /\ 0 < BA.call_b_c c /\ 0 < BA.call_a_t c /\ 0 < BA.call_b_t c.
Proof.
  intros Hbin Hone Ha Hb
    (control & tr & m & Hcin & _ & Htin & _ & Hm & ->)%report_calls_elem.
  pose proof (bayes_counts_valid df name control m Hbin Hone Hcin Hm).
  pose proof (bayes_counts_valid df name tr m Hbin Hone Htin Hm).
  unfold BA.metric_call, BA.beta_posterior_params. simpl. lra.
Qed.

Lemma bayes_run_returns (df : list Obs.RawObservation) (name : string)
    (a_prior b_prior : R) (n_draws : nat) (h : gmap positive BitGen) :
  "control"%string ∈ Obs.variant <$> filter (clean name) df ->
  (forall c, c ∈ report_calls df name a_prior b_prior n_draws ->
     0 < BA.call_a_c c /\ 0 < BA.call_b_c c /\ 0 < BA.call_a_t c /\ 0 < BA.call_b_t c) ->
  exists rows h',
    BA.run_bayesian_experiment_analysis_from_user_level
      df name a_prior b_prior n_draws h = Ok (rows, h').
Proof.
  intros Hin Hpos.
  destruct (bayes_control_row df name Hin) as (Hvar & _).
  rewrite (report_runs_calls df name a_prior b_prior n_draws Hvar).
  apply run_calls_returns, Forall_forall. intros c Hc.
  apply call_result_cases; [now apply report_calls_seed in Hc | now apply Hpos].
Qed.

Lemma bayes_run_control (df : list Obs.RawObservation) (name : string)
    (a_prior b_prior : R) (n_draws : nat) (h : gmap positive BitGen) :
  BA.run_bayesian_experiment_analysis_from_user_level df name a_prior b_prior n_draws h
    <> Raise BA.no_control ->
  "control"%string ∈ Obs.variant <$> filter (clean name) df.
Proof.
  unfold BA.run_bayesian_experiment_analysis_from_user_level. cbv zeta.
  destruct (decide (_ ∈ _)) as [Hin|_]; [| intros Hne; now contradiction Hne].
  intros _. now rewrite bayes_variants, elem_of_groupby_keys in Hin.
Qed.

Lemma rows_of_calls_unique (name : string) (a_prior b_prior : R)
    (calls : list BA.SimCall) (rows rows' : list BA.BayesRow) :
  Forall2 (row_of_call name a_prior b_prior) calls rows ->
  Forall2 (row_of_call name a_prior b_prior) calls rows' ->
  rows = rows'.
Proof.
  intros Hrows. revert rows'.
  induction Hrows as [|c row calls rows Hrow _ IH]; intros rows' Hrows';
    inversion Hrows' as [|c' row' calls' rows'' Hrow' Hrest]; subst; [reflexivity |].
  f_equal; [| now apply IH].
  destruct Hrow as (H1 & H2 & H3 & H4 & H5 & H6).
  destruct Hrow' as (H1' & H2' & H3' & H4' & H5' & H6').
  destruct row, row'. simpl in *. rewrite H6 in H6'. congruence.
Qed.

(** X17: a Bayesian report that is returned has three rows for each variant
    other than the control, one per call of the sampler and in the order of
    the calls; each row carries the labels and the priors of its call and
    the summary simulated from the parameters of the call with seed 42.
    The run leaves every generator of the heap in place and adds one per
    row; every other run that returns, from whatever heap, returns the same
    rows. *)
Theorem X17_bayes_report_rows (df : list Obs.RawObservation) (name : string)
    (a_prior b_prior : R) (n_draws : nat) (h h' : gmap positive BitGen)
    (rows : list BA.BayesRow) :
  BA.run_bayesian_experiment_analysis_from_user_level
    df name a_prior b_prior n_draws h = Ok (rows, h') ->
  Forall2 (row_of_call name a_prior b_prior)
    (report_calls df name a_prior b_prior n_draws) rows
  /\ Forall (fun c => BA.call_random_state c = 42%Z /\ BA.call_n_draws c = n_draws)
       (report_calls df name a_prior b_prior n_draws)
  /\ length rows
     = (3 * length (filter (fun v => v <> "control"%string)
                      (groupby_keys (filter (clean name) df))))%nat
  /\ h ⊆ h'
  /\ size h' = (size h + length rows)%nat
  /\ (forall h2 rows2 h2',
        BA.run_bayesian_experiment_analysis_from_user_level
          df name a_prior b_prior n_draws h2 = Ok (rows2, h2') ->
        rows2 = rows).
Proof.
  intros Hrun.
  assert (Hin : "control"%string ∈ Obs.variant <$> filter (clean name) df)
    by (apply (bayes_run_control df name a_prior b_prior n_draws h); congruence).
  destruct (bayes_control_row df name Hin) as (Hvar & _).
  rewrite (report_runs_calls df name a_prior b_prior n_draws Hvar) in *.
  apply run_calls_inv in Hrun as (Hrows & Hsub & Hsize).
  pose proof (Forall2_length _ _ _ Hrows) as Hlen.
  split; [exact Hrows |]. split.
  { apply Forall_forall.
    intros c (control & tr & m & _ & _ & _ & _ & _ & ->)%report_calls_elem.
    split; reflexivity. }
  split; [now rewrite <- Hlen, report_calls_length |].
  split; [exact Hsub |]. split; [now rewrite <- Hlen |].
  intros h2 rows2 h2' (Hrows2 & _)%run_calls_inv.
  now apply (rows_of_calls_unique name a_prior b_prior
               (report_calls df name a_prior b_prior n_draws)).
Qed.



End BayesReport.

Section BayesReturns.
Context `{Numpy} `{!NumpyLaws}.

(** The means and the probability of a row are defined when its call drew
    at least once. *)
Lemma row_of_call_defined (name : string) (a_prior b_prior : R)
    (c : BA.SimCall) (row : BA.BayesRow) :
  row_of_call name a_prior b_prior c row -> BA.call_n_draws c <> 0%nat ->
  is_Some (BA.posterior_mean_control (BA.summary row))
  /\ is_Some (BA.posterior_mean_treatment (BA.summary row))
  /\ is_Some (BA.posterior_mean_diff (BA.summary row))
  /\ is_Some (BA.prob_treatment_greater (BA.summary row)).
Proof.
  intros (_ & _ & _ & _ & _ & Hs) Hn. unfold call_result, simulation in Hs.
  repeat (destruct (decide _) in Hs; [discriminate |]).
  injection Hs as <-. unfold BA.summarize. cbn.
  destruct (summary_defined
              (control_draws (BA.call_a_c c) (BA.call_b_c c) (BA.call_n_draws c)
                 (BA.call_random_state c))
              (treatment_draws (BA.call_a_c c) (BA.call_b_c c) (BA.call_a_t c)
                 (BA.call_b_t c) (BA.call_n_draws c) (BA.call_random_state c))
              (BA.call_n_draws c))
    as (H1 & H2 & H3 & H4);
    [apply control_draws_length | apply treatment_draws_length |].
  split; [now apply H1 |]. split; [now apply H2 |]. split; [now apply H3 | now apply H4].
Qed.

(** X20: on well-formed data with a control arm, with positive priors and at
    least one draw, the Bayesian builder returns a report from every heap:
    no call of the sampler is given a shape parameter that numpy rejects,
    and in every row the posterior means, the mean difference and the
    probability that treatment exceeds control are defined. *)
Theorem X20_bayes_report_returns (df : list Obs.RawObservation) (name : string)
    (a_prior b_prior : R) (n_draws : nat) (h : gmap positive BitGen) :
  binary_indicators name df ->
  one_row_per_user name df ->
  "control"%string ∈ Obs.variant <$> filter (clean name) df ->
  0 < a_prior -> 0 < b_prior -> n_draws <> 0%nat ->
  exists rows h',
    BA.run_bayesian_experiment_analysis_from_user_level
      df name a_prior b_prior n_draws h = Ok (rows, h')
    /\ Forall (fun row =>
                 is_Some (BA.posterior_mean_control (BA.summary row))
                 /\ is_Some (BA.posterior_mean_treatment (BA.summary row))
                 /\ is_Some (BA.posterior_mean_diff (BA.summary row))
                 /\ is_Some (BA.prob_treatment_greater (BA.summary row))) rows.
Proof.
  intros Hbin Hone Hin Ha Hb Hn.
  destruct (bayes_run_returns df name a_prior b_prior n_draws h Hin)
    as (rows & h' & Hrun).
  { intros c Hc. now apply (report_calls_positive df name a_prior b_prior n_draws). }
  exists rows, h'. split; [exact Hrun |].
  destruct (bayes_control_row df name Hin) as (Hvar & _).
  rewrite (report_runs_calls df name a_prior b_prior n_draws Hvar) in Hrun.
  apply run_calls_inv in Hrun as (Hrows & _).
  apply Forall_forall. intros row Hrow.
  apply list_elem_of_lookup in Hrow as [i Hi].
  destruct (Forall2_lookup_r _ _ _ _ _ Hrows Hi) as (c & Hc & Hrc).
  apply (row_of_call_defined name a_prior b_prior c row Hrc).
  apply list_elem_of_lookup_2, report_calls_elem in Hc
    as (control & tr & m & _ & _ & _ & _ & _ & ->).
  exact Hn.
Qed.

End BayesReturns.

(** ** A cohort without treatment *)

Section ControlOnly.
Context `{ScipyStats} `{Numpy}.

Lemma filter_all_control {A : Type} (variant : A -> string) (agg : list A) :
  Forall (fun r => variant r = "control"%string) agg ->
  filter (fun r => variant r <> "control"%string) agg = [].
Proof.
  induction 1 as [|r agg Hr _ IH]; [reflexivity |].
  rewrite filter_cons. destruct (decide (variant r <> "control"%string)); [contradiction | exact IH].
Qed.

(** X21: a cohort whose every clean row belongs to the control arm has nothing
    to compare: both builders return an empty report, and the Bayesian one
    creates no generator. *)
Theorem X21_control_only_reports (df : list Obs.RawObservation) (name : string) :
  "control"%string ∈ Obs.variant <$> filter (clean name) df ->
  (forall v, v ∈ Obs.variant <$> filter (clean name) df -> v = "control"%string) ->
  EA.run_experiment_analysis_from_user_level df name = Ok []
  /\ (forall a_prior b_prior n_draws h,
        BA.run_bayesian_experiment_analysis_from_user_level
          df name a_prior b_prior n_draws h = Ok ([], h)).
Proof.
  intros Hin Hall. split.
  - destruct (control_row_exists df name Hin) as (Hvar & control & rest & Hfil & _).
    unfold EA.run_experiment_analysis_from_user_level. cbv zeta.
    destruct (decide (_ ∈ _)); [| contradiction].
    rewrite Hfil, filter_all_control; [reflexivity |].
    apply Forall_forall. intros row Hrow. apply Hall.
    apply elem_of_groupby_keys. rewrite <- freq_variants.
    apply list_elem_of_fmap. now exists row.
  - intros a_prior b_prior n_draws h.
    destruct (bayes_control_row df name Hin) as (Hvar & control & rest & Hfil & _).
    unfold BA.run_bayesian_experiment_analysis_from_user_level. cbv zeta.
    destruct (decide (_ ∈ _)); [| contradiction].
    rewrite Hfil. unfold BA.sampler_calls. rewrite filter_all_control; [reflexivity |].
    apply Forall_forall. intros row Hrow. apply Hall.
    apply elem_of_groupby_keys. rewrite <- bayes_variants.
    apply list_elem_of_fmap. now exists row.
Qed.

End ControlOnly.

(** ** A report with a mean row *)

Section Paying.
Context `{ScipyStats}.

Lemma ztest_no_success (n1 n2 : R) :
  0 < n1 -> 0 < n2 -> EA.two_proportion_ztest n1 0 n2 0 = Ok None.
Proof.
  intros Hn1 Hn2.
  assert (Hp : pooled_of n1 0 n2 0 = 0) by (unfold pooled_of; field; lra).
  rewrite ztest_unfold; [| lra | lra | lra | rewrite Hp; lra].
  destruct (decide (pooled_of n1 0 n2 0 = 0 \/ pooled_of n1 0 n2 0 = 1)) as [_|Hq];
    [reflexivity | tauto].
Qed.

(** Welch's test on two samples of more than one value, the first of a
    positive deviation, is defined. *)
Lemma ttest_positive_deviation (m1 s1 n1 m2 s2 n2 : R) :
  1 < n1 -> 1 < n2 -> 0 < s1 ->
  EA.two_sample_ttest m1 s1 n1 m2 s2 n2
  = Ok (Some (t_stat m1 s1 n1 m2 s2 n2,
              2 * (1 - t_cdf (Rabs (t_stat m1 s1 n1 m2 s2 n2))
                         (satterthwaite s1 n1 s2 n2)))).
Proof.
  intros Hn1 Hn2 Hs1. rewrite ttest_unfold by assumption.
  assert (Hv1 : 0 < s1 ^ 2 / n1)
    by (apply Rdiv_lt_0_compat; [apply pow_lt |]; lra).
  assert (Hv2 : 0 <= s2 ^ 2 / n2)
    by (apply Rmult_le_pos; [apply pow2_ge_0 | left; apply Rinv_0_lt_compat; lra]).
  assert (Hse : 0 < t_se s1 n1 s2 n2) by (unfold t_se; apply sqrt_lt_R0; lra).
  assert (Hd1 : 0 < s1 ^ 4 / (n1 ^ 2 * (n1 - 1))).
  { apply Rdiv_lt_0_compat; [now apply pow_lt |].
    apply Rmult_lt_0_compat; [apply pow_lt |]; lra. }
  assert (Hd2 : 0 <= s2 ^ 4 / (n2 ^ 2 * (n2 - 1))).
  { apply Rmult_le_pos.
    - replace (s2 ^ 4) with ((s2 ^ 2) ^ 2) by ring. apply pow2_ge_0.
    - left. apply Rinv_0_lt_compat, Rmult_lt_0_compat; [apply pow_lt |]; lra. }
  destruct (decide (t_se s1 n1 s2 n2 = 0)); [lra |].
  destruct (decide (df_den_of s1 n1 s2 n2 = 0)) as [Hden|_]; [| reflexivity].
  unfold df_den_of in Hden. lra.
Qed.

Lemma paying_users_aggregate :
  EA.aggregate_for_experiment paying_users "homepage_cta_test"
  = [paying_control; paying_treatment].
Proof. reflexivity. Qed.

Lemma paying_control_deviation : 0 < EA.float_of (EA.sd_nb_mrr paying_control).
Proof.
  change (EA.float_of (EA.sd_nb_mrr paying_control))
    with (sqrt (sum_R ((fun x => (x - mean_R [0; 2]) ^ 2) <$> [0; 2]) / (INR 2 - 1))).
  apply sqrt_lt_R0.
  assert (Hm : mean_R [0; 2] = 1) by (unfold mean_R; simpl; lra).
  rewrite Hm. simpl. lra.
Qed.

Lemma paying_users_rows :
  EA.variant_rows "homepage_cta_test" paying_control paying_treatment
  = Ok [paying_users_row].
Proof.
  unfold EA.variant_rows, EA.proportion_metrics, EA.mean_row.
  change (INR (EA.n_nb_mrr paying_control)) with 2.
  change (INR (EA.n_nb_mrr paying_treatment)) with 2.
  rewrite ttest_positive_deviation by (lra || apply paying_control_deviation).
  cbn [mapM]. unfold EA.proportion_row. cbv zeta. cbn [fst snd].
  change (INR (EA.users paying_control)) with 2.
  change (INR (EA.users paying_treatment)) with 2.
  change (IZR (EA.activations paying_control)) with 0.
  change (IZR (EA.activations paying_treatment)) with 0.
  change (IZR (EA.conversions paying_control)) with 0.
  change (IZR (EA.conversions paying_treatment)) with 0.
  change (IZR (EA.new_bookings paying_control)) with 0.
  change (IZR (EA.new_bookings paying_treatment)) with 0.
  rewrite ztest_no_success by lra.
  reflexivity.
Qed.

Lemma paying_users_report :
  EA.run_experiment_analysis_from_user_level paying_users "homepage_cta_test"
  = Ok [paying_users_row].
Proof.
  unfold EA.run_experiment_analysis_from_user_level. cbv zeta.
  rewrite paying_users_aggregate.
  destruct (decide (_ ∈ _)) as [_|Hn]; [| exfalso; apply Hn; left].
  replace (filter (fun r => EA.variant r = "control"%string)
             [paying_control; paying_treatment]) with [paying_control]
    by reflexivity.
  replace (filter (fun r => EA.variant r <> "control"%string)
             [paying_control; paying_treatment]) with [paying_treatment]
    by reflexivity.
  cbn [mapM]. rewrite paying_users_rows. reflexivity.
Qed.

End Paying.

(** ** The further theorems at concrete inputs *)

Lemma single_pair_well_formed :
  binary_indicators "homepage_cta_test" single_pair
  /\ one_row_per_user "homepage_cta_test" single_pair
  /\ "control"%string ∈ Obs.variant <$> filter (clean "homepage_cta_test") single_pair.
Proof.
  split; [| split].
  - intros r Hr. apply list_elem_of_In in Hr. vm_compute in Hr.
    destruct Hr as [<-|[<-|[]]]; vm_compute; tauto.
  - unfold one_row_per_user. apply (bool_decide_unpack (NoDup _)). vm_compute. exact I.
  - vm_compute. left.
Qed.

Lemma X4_ztest_sign_witness :
  @EA.two_proportion_ztest reference_stats 1 0 1 1
  = Ok (Some (z_stat 1 0 1 1, 2 * (1 - Phi (Rabs (z_stat 1 0 1 1)))))
  /\ 0 < z_stat 1 0 1 1.
Proof.
  split; [apply (@ztest_one_of_two reference_stats) |].
  destruct (@X4_ztest_sign reference_stats 1 0 1 1 _ _ (@ztest_one_of_two reference_stats))
    as (Hpos & _).
  apply Hpos. lra.
Defined.



Lemma X8_bayes_aggregate_order_free_witness :
  BA.aggregate_for_experiment single_pair "homepage_cta_test"
  = BA.aggregate_for_experiment
      [observation "treatment" 2 1; observation "control" 1 0] "homepage_cta_test".
Proof.
  apply (X8_bayes_aggregate_order_free single_pair
           [observation "treatment" 2 1; observation "control" 1 0]).
  unfold single_pair. apply Permutation_swap.
Defined.

Lemma X12_freq_report_returns_witness :
  exists rows,
    @EA.run_experiment_analysis_from_user_level reference_stats
      single_pair "homepage_cta_test" = Ok rows
    /\ (length rows <= 4)%nat.
Proof.
  destruct single_pair_well_formed as (Hbin & Hone & Hin).
  destruct (@X12_freq_report_returns reference_stats single_pair "homepage_cta_test"
              Hbin Hone Hin) as (rows & Hrun & Hlen).
  exists rows. split; [exact Hrun | exact Hlen].
Defined.

Lemma X13_freq_report_labels_witness :
  report_experiment (@single_pair_row reference_stats) = "homepage_cta_test"%string
  /\ report_variant (@single_pair_row reference_stats) <> "control"%string
  /\ (report_metric (@single_pair_row reference_stats),
      report_test (@single_pair_row reference_stats)) ∈ report_metrics.
Proof.
  destruct (@X13_freq_report_labels reference_stats single_pair "homepage_cta_test"
              [@single_pair_row reference_stats] (@single_pair_row reference_stats)
              single_pair_report) as (Hname & Hvar & _ & Hmetric); [left |].
  split; [exact Hname |]. split; [exact Hvar | exact Hmetric].
Defined.

Lemma X14_mean_row_requires_two_witness :
  @EA.run_experiment_analysis_from_user_level reference_stats
    paying_users "homepage_cta_test" = Ok [@paying_users_row reference_stats]
  /\ exists control tr,
       EA.variant control = "control"%string
       /\ "treatment"%string = EA.variant tr
       /\ (2 <= EA.n_nb_mrr control)%nat /\ (2 <= EA.n_nb_mrr tr)%nat
       /\ is_Some (EA.sd_nb_mrr control) /\ is_Some (EA.sd_nb_mrr tr).
Proof.
  split; [apply paying_users_report |].
  destruct (@X14_mean_row_requires_two reference_stats paying_users "homepage_cta_test"
              [@paying_users_row reference_stats] (@paying_users_row reference_stats)
              paying_users_report)
    as (control & tr & s1 & s2 & _ & Hcv & _ & Htv & Hn1 & Hn2 & Hs1 & Hs2 & _);
    [left |].
  exists control, tr. repeat (split; [assumption |]).
  split; [now exists s1 | now exists s2].
Defined.

Lemma X15_freq_report_exceptions_witness :
  @EA.run_experiment_analysis_from_user_level reference_stats
    treatment_only "homepage_cta_test" = Raise EA.no_control
  /\ "control"%string
     ∉ (Obs.variant <$> filter (clean "homepage_cta_test") treatment_only).
Proof.
  assert (Hrun : @EA.run_experiment_analysis_from_user_level reference_stats
                   treatment_only "homepage_cta_test" = Raise EA.no_control).
  { unfold EA.run_experiment_analysis_from_user_level. cbv zeta.
    destruct (decide (_ ∈ _)) as [Hin|_]; [| reflexivity].
    apply list_elem_of_In in Hin. vm_compute in Hin.
    destruct Hin as [Heq|[]]. discriminate Heq. }
  split; [exact Hrun |].
  destruct (@X15_freq_report_exceptions reference_stats treatment_only "homepage_cta_test"
              EA.no_control Hrun) as [[_ Hno]|[Heq _]]; [exact Hno | discriminate Heq].
Defined.

Lemma X16_freq_report_raises_witness :
  @EA.run_experiment_analysis_from_user_level reference_stats
    repeated_control_user "homepage_cta_test" = Raise math_domain_error.
Proof.
  apply (@X16_freq_report_raises reference_stats repeated_control_user "homepage_cta_test"
           (EA.agg_row "control" [observation "control" 7 1; observation "control" 7 1])
           (EA.agg_row "treatment" [observation "treatment" 8 1])
           ("activation_rate"%string, EA.activations)).
  - vm_compute. left.
  - reflexivity.
  - vm_compute. right. left.
  - discriminate.
  - left.
  - right. vm_compute. reflexivity.
Defined.

Lemma X21_control_only_reports_witness :
  @EA.run_experiment_analysis_from_user_level reference_stats
    repeated_user "homepage_cta_test" = Ok []
  /\ @BA.run_bayesian_experiment_analysis_from_user_level lcg_numpy
       repeated_user "homepage_cta_test" 1 1 BA.default_n_draws ∅ = Ok ([], ∅).
Proof.
  destruct (@X21_control_only_reports reference_stats lcg_numpy repeated_user
              "homepage_cta_test") as (Hfreq & Hbayes).
  - vm_compute. left.
  - intros v Hv. apply list_elem_of_In in Hv. vm_compute in Hv.
    destruct Hv as [<-|[<-|[]]]; reflexivity.
  - split; [exact Hfreq | apply Hbayes].
Defined.

Lemma X20_bayes_report_returns_witness :
  exists rows h',
    @BA.run_bayesian_experiment_analysis_from_user_level lcg_numpy
      single_pair "homepage_cta_test" 1 1 3 ∅ = Ok (rows, h').
Proof.
  destruct single_pair_well_formed as (Hbin & Hone & Hin).
  destruct (@X20_bayes_report_returns lcg_numpy lcg_laws single_pair "homepage_cta_test"
              1 1 3 ∅ Hbin Hone Hin) as (rows & h' & Hrun & _); [lra | lra | lia |].
  exists rows, h'. exact Hrun.
Defined.

Lemma X17_bayes_report_rows_witness :
  exists rows h',
    @BA.run_bayesian_experiment_analysis_from_user_level lcg_numpy
      single_pair "homepage_cta_test" 1 1 3 ∅ = Ok (rows, h')
    /\ length rows = 3%nat /\ size h' = 3%nat.
Proof.
  destruct single_pair_well_formed as (Hbin & Hone & Hin).
  destruct (@bayes_run_returns lcg_numpy single_pair "homepage_cta_test" 1 1 3 ∅ Hin)
    as (rows & h' & Hrun).
  { intros c Hc.
    apply (@report_calls_positive single_pair "homepage_cta_test" 1 1 3 c Hbin Hone);
      [lra | lra | exact Hc]. }
  exists rows, h'. split; [exact Hrun |].
  destruct (@X17_bayes_report_rows lcg_numpy single_pair "homepage_cta_test" 1 1 3 ∅ h' rows
              Hrun) as (_ & _ & Hlen & _ & Hsize & _).
  split; [exact Hlen |]. rewrite Hsize, Hlen. reflexivity.
Defined.


